(** * chrome/browser/usb/usb_service.cc: a shallow embedding of [UsbService]

    The service keeps one libusb context, one event-handler thread object and
    a map [devices_] from platform devices to opened [UsbDeviceHandle]
    wrappers.  Every member function of the source file is embedded below as a
    computation over an explicit [World]: the fields of the service object,
    the heap objects it allocates, the caller-owned result vectors, the
    permission-broker queue, the state of the USB backend, and a trace of the
    externally visible actions (backend calls, log lines, callback runs). *)

From stdpp Require Import base gmap list strings.
From Stdlib Require Import ZArith.

Local Open Scope Z_scope.

(** ** Plain data *)

(** Pointers are addresses; [NULL] is address zero. *)
Abbreviation Ptr := Z (only parsing).
Definition NULL : Z := 0.

(** [uint16] values are already reduced to 16 bits by the parameter type;
    the source only ever compares them. *)
Abbreviation uint16 := Z (only parsing).

Abbreviation PlatformUsbContext := Z (only parsing).
Abbreviation PlatformUsbDevice := Z (only parsing).
Abbreviation PlatformUsbDeviceHandle := Z (only parsing).

(** The two fields of [libusb_device_descriptor] that the service reads. *)
Record libusb_device_descriptor : Type := {
  idVendor : uint16;
  idProduct : uint16
}.

(** [base::Callback<void()>]: an opaque closure, known by its identity. *)
Abbreviation Callback := Z (only parsing).

(** Build-time configuration: the [OS_CHROMEOS] macro, whether [DCHECK] is
    compiled in, and the growth policy of [std::vector] (the capacity chosen
    when a [push_back] finds the vector full). *)
Record Build : Type := {
  OS_CHROMEOS : bool;
  DCHECK_IS_ON : bool;
  vector_grow : nat -> nat
}.

(** ** The actions the service performs on the outside world *)

Inductive Event : Type :=
| EvLibusbInit (ctx : PlatformUsbContext)
| EvLibusbExit (ctx : PlatformUsbContext)
| EvInterruptHandleEvent (ctx : PlatformUsbContext)
| EvGetDeviceList (ctx : PlatformUsbContext) (count : Z)
| EvFreeDeviceList (unref_devices : bool)
| EvRefDevice (dev : PlatformUsbDevice)
| EvUnrefDevice (dev : PlatformUsbDevice)
| EvGetDeviceDescriptor (dev : PlatformUsbDevice) (code : Z)
| EvOpen (dev : PlatformUsbDevice) (code : Z)
| EvClose (handle : PlatformUsbDeviceHandle)
| EvThreadCreate (handler : Ptr)
| EvThreadJoin (handler : Ptr)
| EvLogWarning (msg : string)
| EvRequestUsbAccess (vendor_id product_id : uint16) (interface_id : Z)
| EvCallbackRun (cb : Callback) (delivered : Z -> list Z).

(** ** The USB backend *)

(** Modelled from the spec: the libusb library (third_party/libusb) is not
    part of the source file.  The backend follows the spec's Backend Adapter
    interface: [init], [teardown], [interrupt], [list_devices] with reference
    increment and decrement on the listed devices, [open], [close] and
    [read_descriptor].  What the hardware answers is left open: [be_bus],
    [be_descriptor] and [be_open_code] are arbitrary functions of the number
    of questions asked so far ([be_clock]), so topology, descriptors and the
    outcome of an open may change from one call to the next.  [be_refs] is
    the reference count of each device.  [be_handle_dev] is the [dev] field
    of every native handle the backend has issued, which stays readable once
    the handle is closed; [be_open_handles] are the handles currently open. *)
Record Backend : Type := {
  be_clock : nat;
  be_bus : nat -> option (list Z);
  be_descriptor : nat -> Z -> Z * libusb_device_descriptor;
  be_open_code : nat -> Z -> Z;
  be_contexts : gset Z;
  be_refs : Z -> Z;
  be_handle_dev : gmap Z Z;
  be_open_handles : gset Z
}.

Definition LIBUSB_SUCCESS : Z := 0.
Definition LIBUSB_ERROR_NO_MEM : Z := -11.

(** ** Objects of the service *)

(** [class UsbEventHandler]: the fields written by the constructor and by
    [Stop].  The loop of [ThreadMain] runs on its own thread and is not part
    of the sequential embedding; creation and join of the thread are traced. *)
Record UsbEventHandler : Type := {
  running_ : bool;
  eh_context_ : PlatformUsbContext
}.

(** [class UsbDeviceHandle] is declared elsewhere; the service constructs it
    from a native handle and reads that handle back through [handle()].
    Wrappers are held through [scoped_refptr]; the reference counts are not
    followed, and a wrapper that has been constructed is never removed from
    the world.  A wrapper that [devices_] maps to is alive in the code as
    well, since the map holds a reference to it; of a wrapper that has been
    erased from the map, or dropped from a caller's vector, nothing is said
    about whether the object still exists. *)
Record UsbDeviceHandle : Type := {
  handle_ : PlatformUsbDeviceHandle
}.

(** The data members of [UsbService]. *)
Record UsbService : Type := {
  context_ : PlatformUsbContext;
  event_handler_ : Ptr;
  devices_ : gmap Z Z
}.

(** [RefCountedPlatformUsbDevice]: the token held in a [DeviceVector]. *)
Record RefCountedPlatformUsbDevice : Type := {
  device_ : PlatformUsbDevice
}.

(** [DeviceVector], a [std::vector] of tokens, with its capacity: growing the
    vector copies and destroys every token it holds. *)
Record DeviceVector : Type := {
  dv_items : list RefCountedPlatformUsbDevice;
  dv_capacity : nat
}.

(** The closure [base::Bind(&UsbService::FindDevicesImpl, Unretained(this),
    vendor_id, product_id, devices, callback)] handed to the broker. *)
Record BoundFindDevicesImpl : Type := {
  bound_vendor_id : uint16;
  bound_product_id : uint16;
  bound_devices : Ptr;
  bound_callback : Callback
}.

(** ** The world *)

(** The service object, the backend, the heap objects of the two classes
    the service allocates, the allocator, the vectors owned by callers, the
    runtime answers of [IsRunningOnChromeOS] and [GetPermissionBrokerClient],
    the closures waiting at the broker, and the trace, most recent action
    first.  [device_handles] is the record of the wrappers constructed so
    far, each with the native handle it was constructed from: an entry is
    added by [new UsbDeviceHandle] and never taken out, so an entry tells
    how a wrapper was made, not that the object is still there.  The
    references that keep a wrapper alive are the ones in [devices_], in the
    callers' vectors and in the hands of callers; the last kind is not part
    of the world. *)
Record World : Type := {
  service : UsbService;
  backend : Backend;
  event_handlers : gmap Z UsbEventHandler;
  device_handles : gmap Z UsbDeviceHandle;
  brk : positive;
  vectors : Z -> list Z;
  running_on_chromeos : bool;
  permission_broker_client : Ptr;
  broker_requests : list BoundFindDevicesImpl;
  trace : list Event
}.

Definition with_service (f : UsbService -> UsbService) (w : World) : World :=
  {| service := f (service w); backend := backend w;
     event_handlers := event_handlers w; device_handles := device_handles w;
     brk := brk w; vectors := vectors w;
     running_on_chromeos := running_on_chromeos w;
     permission_broker_client := permission_broker_client w;
     broker_requests := broker_requests w; trace := trace w |}.

Definition with_backend (f : Backend -> Backend) (w : World) : World :=
  {| service := service w; backend := f (backend w);
     event_handlers := event_handlers w; device_handles := device_handles w;
     brk := brk w; vectors := vectors w;
     running_on_chromeos := running_on_chromeos w;
     permission_broker_client := permission_broker_client w;
     broker_requests := broker_requests w; trace := trace w |}.

Definition with_event_handlers
    (f : gmap Z UsbEventHandler -> gmap Z UsbEventHandler) (w : World) : World :=
  {| service := service w; backend := backend w;
     event_handlers := f (event_handlers w); device_handles := device_handles w;
     brk := brk w; vectors := vectors w;
     running_on_chromeos := running_on_chromeos w;
     permission_broker_client := permission_broker_client w;
     broker_requests := broker_requests w; trace := trace w |}.

Definition with_device_handles
    (f : gmap Z UsbDeviceHandle -> gmap Z UsbDeviceHandle) (w : World) : World :=
  {| service := service w; backend := backend w;
     event_handlers := event_handlers w; device_handles := f (device_handles w);
     brk := brk w; vectors := vectors w;
     running_on_chromeos := running_on_chromeos w;
     permission_broker_client := permission_broker_client w;
     broker_requests := broker_requests w; trace := trace w |}.

Definition with_brk (f : positive -> positive) (w : World) : World :=
  {| service := service w; backend := backend w;
     event_handlers := event_handlers w; device_handles := device_handles w;
     brk := f (brk w); vectors := vectors w;
     running_on_chromeos := running_on_chromeos w;
     permission_broker_client := permission_broker_client w;
     broker_requests := broker_requests w; trace := trace w |}.

Definition with_vectors (f : (Z -> list Z) -> Z -> list Z) (w : World) : World :=
  {| service := service w; backend := backend w;
     event_handlers := event_handlers w; device_handles := device_handles w;
     brk := brk w; vectors := f (vectors w);
     running_on_chromeos := running_on_chromeos w;
     permission_broker_client := permission_broker_client w;
     broker_requests := broker_requests w; trace := trace w |}.

Definition with_broker_requests
    (f : list BoundFindDevicesImpl -> list BoundFindDevicesImpl) (w : World) : World :=
  {| service := service w; backend := backend w;
     event_handlers := event_handlers w; device_handles := device_handles w;
     brk := brk w; vectors := vectors w;
     running_on_chromeos := running_on_chromeos w;
     permission_broker_client := permission_broker_client w;
     broker_requests := f (broker_requests w); trace := trace w |}.

Definition with_trace (f : list Event -> list Event) (w : World) : World :=
  {| service := service w; backend := backend w;
     event_handlers := event_handlers w; device_handles := device_handles w;
     brk := brk w; vectors := vectors w;
     running_on_chromeos := running_on_chromeos w;
     permission_broker_client := permission_broker_client w;
     broker_requests := broker_requests w; trace := f (trace w) |}.

(** Field updates of the nested records. *)
Definition set_context_ (c : PlatformUsbContext) (s : UsbService) : UsbService :=
  {| context_ := c; event_handler_ := event_handler_ s; devices_ := devices_ s |}.
Definition set_event_handler_ (p : Ptr) (s : UsbService) : UsbService :=
  {| context_ := context_ s; event_handler_ := p; devices_ := devices_ s |}.
Definition set_devices_ (m : gmap Z Z) (s : UsbService) : UsbService :=
  {| context_ := context_ s; event_handler_ := event_handler_ s; devices_ := m |}.

Definition be_tick (b : Backend) : Backend :=
  {| be_clock := S (be_clock b); be_bus := be_bus b;
     be_descriptor := be_descriptor b; be_open_code := be_open_code b;
     be_contexts := be_contexts b; be_refs := be_refs b;
     be_handle_dev := be_handle_dev b; be_open_handles := be_open_handles b |}.
Definition be_set_contexts (c : gset Z) (b : Backend) : Backend :=
  {| be_clock := be_clock b; be_bus := be_bus b;
     be_descriptor := be_descriptor b; be_open_code := be_open_code b;
     be_contexts := c; be_refs := be_refs b;
     be_handle_dev := be_handle_dev b; be_open_handles := be_open_handles b |}.
Definition be_set_refs (r : Z -> Z) (b : Backend) : Backend :=
  {| be_clock := be_clock b; be_bus := be_bus b;
     be_descriptor := be_descriptor b; be_open_code := be_open_code b;
     be_contexts := be_contexts b; be_refs := r;
     be_handle_dev := be_handle_dev b; be_open_handles := be_open_handles b |}.
Definition be_set_handles (hd : gmap Z Z) (oh : gset Z) (b : Backend) : Backend :=
  {| be_clock := be_clock b; be_bus := be_bus b;
     be_descriptor := be_descriptor b; be_open_code := be_open_code b;
     be_contexts := be_contexts b; be_refs := be_refs b;
     be_handle_dev := hd; be_open_handles := oh |}.

(** The reference count of one device moved by [delta]. *)
Definition bump (dev : Z) (delta : Z) (r : Z -> Z) : Z -> Z :=
  fun d => if Z.eqb d dev then r d + delta else r d.

(** One caller-owned vector replaced. *)
Definition store_vector (p : Ptr) (l : list Z) (v : Z -> list Z) : Z -> list Z :=
  fun q => if Z.eqb q p then l else v q.

(** ** Computations *)

(** A computation either finishes, stops the process at a failed [DCHECK],
    or leaves the behaviour defined by C++ and by the backend (a null or
    dangling pointer is dereferenced, a backend call is made on a context
    that is not initialised). *)
Inductive Outcome (A : Type) : Type :=
| Done (a : A) (w : World)
| CheckFailed (msg : string) (w : World)
| Undefined (msg : string) (w : World).
Arguments Done {A} a w.
Arguments CheckFailed {A} msg w.
Arguments Undefined {A} msg w.

Definition M (A : Type) : Type := World -> Outcome A.

Definition ret {A : Type} (a : A) : M A := fun w => Done a w.

Definition bind {A B : Type} (m : M A) (f : A -> M B) : M B :=
  fun w =>
    match m w with
    | Done a w' => f a w'
    | CheckFailed msg w' => CheckFailed msg w'
    | Undefined msg w' => Undefined msg w'
    end.

Declare Scope usb_scope.
Delimit Scope usb_scope with usb.
Notation "x <- m ;; k" := (bind m (fun x => k))
  (at level 100, m at next level, right associativity) : usb_scope.
Notation "m ;; k" := (bind m (fun _ => k))
  (at level 100, right associativity) : usb_scope.
Local Open Scope usb_scope.

Definition gets {A : Type} (f : World -> A) : M A := fun w => Done (f w) w.
Definition modify (f : World -> World) : M unit := fun w => Done tt (f w).
Definition undefined {A : Type} (msg : string) : M A := fun w => Undefined msg w.
Definition emit (e : Event) : M unit := modify (with_trace (cons e)).

(** A loop over a container, in iteration order. *)
Fixpoint for_each {A : Type} (l : list A) (body : A -> M unit) : M unit :=
  match l with
  | [] => ret tt
  | x :: rest => body x ;; for_each rest body
  end.

(** A fresh, non-null address. *)
Definition allocate : M Ptr :=
  p <- gets brk ;;
  modify (with_brk Pos.succ) ;;
  ret (Z.pos p).

(** ** Backend entry points *)

(** Modelled from the spec: [init() -> Context].  A fresh context becomes
    live. *)
Definition libusb_init : M PlatformUsbContext :=
  ctx <- allocate ;;
  modify (with_backend (fun b => be_set_contexts ({[ctx]} ∪ be_contexts b) b)) ;;
  emit (EvLibusbInit ctx) ;;
  ret ctx.

(** Modelled from the spec: [teardown(Context)].  The context stops being
    live; a context that is not live cannot be torn down. *)
Definition libusb_exit (ctx : PlatformUsbContext) : M unit :=
  b <- gets backend ;;
  if decide (ctx ∈ be_contexts b) then
    modify (with_backend (be_set_contexts (be_contexts b ∖ {[ctx]}))) ;;
    emit (EvLibusbExit ctx)
  else undefined "libusb_exit on a context that is not initialised".

(** Modelled from the spec: [interrupt(Context)], which forces the blocking
    event call to return. *)
Definition libusb_interrupt_handle_event (ctx : PlatformUsbContext) : M unit :=
  b <- gets backend ;;
  if decide (ctx ∈ be_contexts b) then emit (EvInterruptHandleEvent ctx)
  else undefined "libusb_interrupt_handle_event on a context that is not initialised".

(** Modelled from the spec: reference increment on a [RawDeviceRef]. *)
Definition libusb_ref_device (dev : PlatformUsbDevice) : M unit :=
  modify (with_backend (fun b => be_set_refs (bump dev 1 (be_refs b)) b)) ;;
  emit (EvRefDevice dev).

(** Modelled from the spec: reference decrement on a [RawDeviceRef]. *)
Definition libusb_unref_device (dev : PlatformUsbDevice) : M unit :=
  modify (with_backend (fun b => be_set_refs (bump dev (-1) (be_refs b)) b)) ;;
  emit (EvUnrefDevice dev).

(** The backend's own bookkeeping of a list it hands out or takes back:
    one reference per entry. *)
Definition bump_all (devs : list Z) (delta : Z) (r : Z -> Z) : Z -> Z :=
  fold_right (fun d acc => bump d delta acc) r devs.

(** Modelled from the spec: [list_devices(Context) -> sequence<RawDeviceRef>].
    The result is the entry count, or a negative error code, together with
    the array; every listed device carries one reference owned by the array.
    The call needs a live context: this service never initialises the
    default context that libusb would substitute for [NULL]. *)
Definition libusb_get_device_list (ctx : PlatformUsbContext) : M (Z * list Z) :=
  b <- gets backend ;;
  if decide (ctx ∈ be_contexts b) then
    modify (with_backend be_tick) ;;
    match be_bus b (be_clock b) with
    | Some devs =>
        modify (with_backend (fun b' => be_set_refs (bump_all devs 1 (be_refs b')) b')) ;;
        emit (EvGetDeviceList ctx (Z.of_nat (length devs))) ;;
        ret (Z.of_nat (length devs), devs)
    | None =>
        emit (EvGetDeviceList ctx LIBUSB_ERROR_NO_MEM) ;;
        ret (LIBUSB_ERROR_NO_MEM, [])
    end
  else undefined "libusb_get_device_list on a context that is not initialised".

(** Modelled from the spec: the array of [list_devices] is given back; with
    [unref_devices] the reference of every entry is dropped. *)
Definition libusb_free_device_list (devs : list Z) (unref_devices : bool) : M unit :=
  (if unref_devices
   then modify (with_backend (fun b => be_set_refs (bump_all devs (-1) (be_refs b)) b))
   else ret tt) ;;
  emit (EvFreeDeviceList unref_devices).

(** Modelled from the spec: [read_descriptor(RawDeviceRef)].  The result is
    the return code and the contents of the caller's descriptor buffer after
    the call. *)
Definition libusb_get_device_descriptor (dev : PlatformUsbDevice)
  : M (Z * libusb_device_descriptor) :=
  b <- gets backend ;;
  modify (with_backend be_tick) ;;
  emit (EvGetDeviceDescriptor dev (fst (be_descriptor b (be_clock b) dev))) ;;
  ret (be_descriptor b (be_clock b) dev).

(** Modelled from the spec: [open(RawDeviceRef) -> NativeHandle | error].
    On success the caller's handle variable receives a fresh handle, which
    holds one reference to the device; on failure the variable keeps the
    value [handle] it had. *)
Definition libusb_open (dev : PlatformUsbDevice) (handle : PlatformUsbDeviceHandle)
  : M (Z * PlatformUsbDeviceHandle) :=
  b <- gets backend ;;
  modify (with_backend be_tick) ;;
  let code := be_open_code b (be_clock b) dev in
  if Z.eqb code LIBUSB_SUCCESS then
    h <- allocate ;;
    modify (with_backend (fun b' =>
      be_set_refs (bump dev 1 (be_refs b'))
        (be_set_handles (<[h := dev]> (be_handle_dev b'))
                        ({[h]} ∪ be_open_handles b') b'))) ;;
    emit (EvOpen dev code) ;;
    ret (code, h)
  else
    emit (EvOpen dev code) ;;
    ret (code, handle).

(** Modelled from the spec: the accessor from a native handle to the device
    it was opened on. *)
Definition libusb_get_device (handle : PlatformUsbDeviceHandle) : M PlatformUsbDevice :=
  b <- gets backend ;;
  match be_handle_dev b !! handle with
  | Some dev => ret dev
  | None => undefined "libusb_get_device on a handle the backend never issued"
  end.

(** Modelled from the spec: [close(NativeHandle)].  The handle stops being
    open and gives up its reference to the device. *)
Definition libusb_close (handle : PlatformUsbDeviceHandle) : M unit :=
  b <- gets backend ;;
  match be_handle_dev b !! handle with
  | Some dev =>
      modify (with_backend (fun b' =>
        be_set_refs (bump dev (-1) (be_refs b'))
          (be_set_handles (be_handle_dev b') (be_open_handles b' ∖ {[handle]}) b'))) ;;
      emit (EvClose handle)
  | None => undefined "libusb_close on a handle the backend never issued"
  end.

(** ** Chromium base *)

Section Service.

Variable cfg : Build.

(** [DCHECK(cond) << msg]: fatal when compiled in, absent otherwise. *)
Definition DCHECK (cond : bool) (msg : string) : M unit :=
  if DCHECK_IS_ON cfg && negb cond then (fun w => CheckFailed msg w) else ret tt.

Definition LOG_WARNING (msg : string) : M unit := emit (EvLogWarning msg).

(** [callback.Run()]: the closure runs and can observe the caller's vectors
    as they are at that moment. *)
Definition Callback_Run (cb : Callback) : M unit :=
  v <- gets vectors ;;
  emit (EvCallbackRun cb v).

(** [devices->clear()] and [devices->push_back(wrapper)] on the caller's
    vector of handles.  Clearing drops the vector's references; whether a
    wrapper ends with them is not followed. *)
Definition vector_clear (devices : Ptr) : M unit :=
  modify (with_vectors (store_vector devices [])).

Definition vector_push_back (devices : Ptr) (wrapper : Ptr) : M unit :=
  modify (with_vectors (fun v => store_vector devices (v devices ++ [wrapper]) v)).

(** [ContainsKey(map, key)] of base/stl_util.h. *)
Definition ContainsKey (m : gmap Z Z) (key : Z) : bool :=
  bool_decide (is_Some (m !! key)).

(** ** RefCountedPlatformUsbDevice (lines 174-190) *)

Definition RefCountedPlatformUsbDevice_new (device : PlatformUsbDevice)
  : M RefCountedPlatformUsbDevice :=
  libusb_ref_device device ;;
  ret {| device_ := device |}.

Definition RefCountedPlatformUsbDevice_copy (other : RefCountedPlatformUsbDevice)
  : M RefCountedPlatformUsbDevice :=
  libusb_ref_device (device_ other) ;;
  ret {| device_ := device_ other |}.

Definition RefCountedPlatformUsbDevice_delete (token : RefCountedPlatformUsbDevice)
  : M unit :=
  libusb_unref_device (device_ token).

Definition RefCountedPlatformUsbDevice_device (token : RefCountedPlatformUsbDevice)
  : PlatformUsbDevice :=
  device_ token.

(** ** DeviceVector *)

Definition DeviceVector_empty : DeviceVector := {| dv_items := []; dv_capacity := 0 |}.

(** Copy-construct every token of a list, in order. *)
Fixpoint copy_tokens (l : list RefCountedPlatformUsbDevice)
  : M (list RefCountedPlatformUsbDevice) :=
  match l with
  | [] => ret []
  | t :: rest =>
      t' <- RefCountedPlatformUsbDevice_copy t ;;
      rest' <- copy_tokens rest ;;
      ret (t' :: rest')
  end.

Definition destroy_tokens (l : list RefCountedPlatformUsbDevice) : M unit :=
  for_each l RefCountedPlatformUsbDevice_delete.

(** [output->push_back(x)]: when the vector is full its tokens are copied to
    new storage and the old ones destroyed; then [x] is copied in. *)
Definition DeviceVector_push_back (v : DeviceVector) (x : RefCountedPlatformUsbDevice)
  : M DeviceVector :=
  if Nat.ltb (length (dv_items v)) (dv_capacity v) then
    x' <- RefCountedPlatformUsbDevice_copy x ;;
    ret {| dv_items := dv_items v ++ [x']; dv_capacity := dv_capacity v |}
  else
    x' <- RefCountedPlatformUsbDevice_copy x ;;
    moved <- copy_tokens (dv_items v) ;;
    destroy_tokens (dv_items v) ;;
    ret {| dv_items := moved ++ [x']; dv_capacity := vector_grow cfg (dv_capacity v) |}.

(** The destructor of a [DeviceVector], and [STLClearObject], which swaps
    the vector with an empty one and lets the old contents go. *)
Definition DeviceVector_delete (v : DeviceVector) : M unit :=
  destroy_tokens (dv_items v).

Definition STLClearObject (v : DeviceVector) : M DeviceVector :=
  DeviceVector_delete v ;;
  ret DeviceVector_empty.

(** ** UsbEventHandler (lines 29-64) *)

(** The constructor: the fields are set, the thread is created and the
    caller waits until the thread has signalled that it started. *)
Definition UsbEventHandler_new (context : PlatformUsbContext) : M Ptr :=
  p <- allocate ;;
  modify (with_event_handlers
            (insert p {| running_ := true; eh_context_ := context |})) ;;
  emit (EvThreadCreate p) ;;
  ret p.

Definition UsbEventHandler_Stop (self : Ptr) : M unit :=
  hs <- gets event_handlers ;;
  match hs !! self with
  | None => undefined "UsbEventHandler::Stop through a null or dangling pointer"
  | Some h =>
      modify (with_event_handlers
                (insert self {| running_ := false; eh_context_ := eh_context_ h |})) ;;
      libusb_interrupt_handle_event (eh_context_ h) ;;
      emit (EvThreadJoin self)
  end.

(** [delete event_handler_]: the destructor is empty, the storage goes. *)
Definition UsbEventHandler_delete (self : Ptr) : M unit :=
  modify (with_event_handlers (delete self)).

(** ** UsbDeviceHandle, as far as the service uses it *)

Definition UsbDeviceHandle_new (handle : PlatformUsbDeviceHandle) : M Ptr :=
  p <- allocate ;;
  modify (with_device_handles (insert p {| handle_ := handle |})) ;;
  ret p.

Definition UsbDeviceHandle_handle (self : Ptr) : M PlatformUsbDeviceHandle :=
  hs <- gets device_handles ;;
  match hs !! self with
  | Some obj => ret (handle_ obj)
  | None => undefined "UsbDeviceHandle::handle through a null or dangling pointer"
  end.

(** ** UsbService *)

(** Lines 66-69. *)
Definition UsbService_new : M unit :=
  ctx <- libusb_init ;;
  modify (with_service (set_context_ ctx)) ;;
  eh <- UsbEventHandler_new ctx ;;
  modify (with_service (set_event_handler_ eh)).

(** Lines 73-78.  The context is set to [NULL]; [event_handler_] keeps the
    address of the deleted object. *)
Definition Shutdown : M unit :=
  eh <- gets (fun w => event_handler_ (service w)) ;;
  UsbEventHandler_Stop eh ;;
  UsbEventHandler_delete eh ;;
  ctx <- gets (fun w => context_ (service w)) ;;
  libusb_exit ctx ;;
  modify (with_service (set_context_ NULL)).

(** Lines 192-207.  The loop takes [devices[i]] for [i] below
    [device_count]. *)
Fixpoint EnumerateDevicesImpl_loop (devices : list Z) (output : DeviceVector)
  : M DeviceVector :=
  match devices with
  | [] => ret output
  | device :: rest =>
      libusb_ref_device device ;;
      temporary <- RefCountedPlatformUsbDevice_new device ;;
      output' <- DeviceVector_push_back output temporary ;;
      RefCountedPlatformUsbDevice_delete temporary ;;
      EnumerateDevicesImpl_loop rest output'
  end.

Definition EnumerateDevicesImpl (output : DeviceVector) : M DeviceVector :=
  output0 <- STLClearObject output ;;
  ctx <- gets (fun w => context_ (service w)) ;;
  listed <- libusb_get_device_list ctx ;;
  let device_count := fst listed in
  let devices := snd listed in
  if Z.ltb device_count 0 then ret output0
  else
    output1 <- EnumerateDevicesImpl_loop
                 (take (Z.to_nat device_count) devices) output0 ;;
    libusb_free_device_list devices true ;;
    ret output1.

(** Lines 209-216. *)
Definition DeviceMatches (device : PlatformUsbDevice) (vendor_id product_id : uint16)
  : M bool :=
  read <- libusb_get_device_descriptor device ;;
  let descriptor := snd read in
  if negb (Z.eqb (fst read) 0) then ret false
  else ret (Z.eqb (idVendor descriptor) vendor_id
            && Z.eqb (idProduct descriptor) product_id).

(** [devices_[device]] of [std::map]: a missing key is first inserted with a
    null [scoped_refptr]. *)
Definition devices_subscript (device : PlatformUsbDevice) : M Ptr :=
  m <- gets (fun w => devices_ (service w)) ;;
  match m !! device with
  | Some wrapper => ret wrapper
  | None =>
      modify (with_service (set_devices_ (<[device := NULL]> m))) ;;
      ret NULL
  end.

Definition devices_assign (device : PlatformUsbDevice) (wrapper : Ptr) : M unit :=
  devices_subscript device ;;
  m <- gets (fun w => devices_ (service w)) ;;
  modify (with_service (set_devices_ (<[device := wrapper]> m))).

(** Lines 218-230. *)
Definition LookupOrCreateDevice (device : PlatformUsbDevice) : M Ptr :=
  m <- gets (fun w => devices_ (service w)) ;;
  if negb (ContainsKey m device) then
    opened <- libusb_open device NULL ;;
    let handle := snd opened in
    if negb (Z.eqb (fst opened) 0) then
      LOG_WARNING "Could not open device." ;;
      ret NULL
    else
      wrapper <- UsbDeviceHandle_new handle ;;
      devices_assign device wrapper ;;
      devices_subscript device
  else
    devices_subscript device.

(** Lines 115-129.  The local [enumerated_devices] is destroyed when the
    function returns. *)
Definition EnumerateDevices (devices : Ptr) : M unit :=
  vector_clear devices ;;
  enumerated_devices <- EnumerateDevicesImpl DeviceVector_empty ;;
  for_each (dv_items enumerated_devices) (fun it =>
    let device := RefCountedPlatformUsbDevice_device it in
    wrapper <- LookupOrCreateDevice device ;;
    if negb (Z.eqb wrapper NULL) then vector_push_back devices wrapper
    else ret tt) ;;
  DeviceVector_delete enumerated_devices.

(** Lines 131-159.  [run_callback] is a [ScopedClosureRunner]: the callback
    runs when the function returns, after the locals declared later
    ([enumerated_devices]) are destroyed. *)
Definition FindDevicesImpl (vendor_id product_id : uint16) (devices : Ptr)
    (callback : Callback) (success : bool) : M unit :=
  vector_clear devices ;;
  if negb success then Callback_Run callback
  else
    enumerated_devices <- EnumerateDevicesImpl DeviceVector_empty ;;
    for_each (dv_items enumerated_devices) (fun it =>
      let device := RefCountedPlatformUsbDevice_device it in
      matches <- DeviceMatches device vendor_id product_id ;;
      if matches then
        wrapper <- LookupOrCreateDevice device ;;
        if negb (Z.eqb wrapper NULL) then vector_push_back devices wrapper
        else ret tt
      else ret tt) ;;
    DeviceVector_delete enumerated_devices ;;
    Callback_Run callback.

(** Modelled from the spec: the permission broker client
    (chromeos/dbus/permission_broker_client.h) is not part of the source
    file.  [request_access(vendor_id, product_id, interface_id, on_result)]
    is fire-and-forget: the closure is queued, and the broker later invokes
    it once with its verdict. *)
Definition RequestUsbAccess (vendor_id product_id : uint16) (interface_id : Z)
    (on_result : BoundFindDevicesImpl) : M unit :=
  modify (with_broker_requests (fun q => q ++ [on_result])) ;;
  emit (EvRequestUsbAccess vendor_id product_id interface_id).

(** Lines 80-113. *)
Definition FindDevices (vendor_id product_id : uint16) (interface_id : Z)
    (devices : Ptr) (callback : Callback) : M unit :=
  eh <- gets (fun w => event_handler_ (service w)) ;;
  DCHECK (negb (Z.eqb eh NULL)) "FindDevices called after event handler stopped." ;;
  if OS_CHROMEOS cfg then
    on_chromeos <- gets running_on_chromeos ;;
    if on_chromeos then
      client <- gets permission_broker_client ;;
      DCHECK (negb (Z.eqb client NULL)) "Could not get permission broker client." ;;
      if Z.eqb client NULL then Callback_Run callback
      else
        RequestUsbAccess vendor_id product_id interface_id
          {| bound_vendor_id := vendor_id; bound_product_id := product_id;
             bound_devices := devices; bound_callback := callback |}
    else FindDevicesImpl vendor_id product_id devices callback true
  else FindDevicesImpl vendor_id product_id devices callback true.

(** The bound closure invoked with the broker's verdict. *)
Definition BoundFindDevicesImpl_Run (closure : BoundFindDevicesImpl) (success : bool)
  : M unit :=
  FindDevicesImpl (bound_vendor_id closure) (bound_product_id closure)
    (bound_devices closure) (bound_callback closure) success.

(** Modelled from the spec: the broker answers its oldest outstanding
    request with one invocation of the stored closure. *)
Definition broker_reply (success : bool) : M unit :=
  q <- gets broker_requests ;;
  match q with
  | [] => ret tt
  | closure :: rest =>
      modify (with_broker_requests (fun _ => rest)) ;;
      BoundFindDevicesImpl_Run closure success
  end.

(** Lines 161-172.  [device] is a [scoped_refptr] passed by value, so the
    wrapper it names outlives the call and [device->handle()] at line 171
    reads it after the erase.  The erase at line 170 drops the map's
    reference to the wrapper stored under the key, which need not be
    [device]; whether that wrapper ends there is not followed. *)
Definition CloseDevice (device : Ptr) : M unit :=
  eh <- gets (fun w => event_handler_ (service w)) ;;
  DCHECK (negb (Z.eqb eh NULL)) "CloseDevice called after event handler stopped." ;;
  handle <- UsbDeviceHandle_handle device ;;
  platform_device <- libusb_get_device handle ;;
  m <- gets (fun w => devices_ (service w)) ;;
  if negb (ContainsKey m platform_device) then
    LOG_WARNING "CloseDevice called for device we're not tracking!"
  else
    modify (with_service (set_devices_ (delete platform_device m))) ;;
    handle' <- UsbDeviceHandle_handle device ;;
    libusb_close handle'.

End Service.

(** ** Reading a trace *)

Fixpoint count_events (p : Event -> bool) (t : list Event) : nat :=
  match t with
  | [] => O
  | e :: rest => if p e then S (count_events p rest) else count_events p rest
  end.

(** [libusb_open] was called on [dev]. *)
Definition is_open_of (dev : Z) (e : Event) : bool :=
  match e with
  | EvOpen dev' _ => Z.eqb dev' dev
  | _ => false
  end.

(** [libusb_open] was called on [dev] and returned success. *)
Definition is_successful_open_of (dev : Z) (e : Event) : bool :=
  match e with
  | EvOpen dev' code => Z.eqb dev' dev && Z.eqb code LIBUSB_SUCCESS
  | _ => false
  end.

Definition is_any_open (e : Event) : bool :=
  match e with
  | EvOpen _ _ => true
  | _ => false
  end.

Definition is_any_close (e : Event) : bool :=
  match e with
  | EvClose _ => true
  | _ => false
  end.

Definition is_enumeration (e : Event) : bool :=
  match e with
  | EvGetDeviceList _ _ => true
  | _ => false
  end.

Definition is_run_of (cb : Z) (e : Event) : bool :=
  match e with
  | EvCallbackRun cb' _ => Z.eqb cb' cb
  | _ => false
  end.

Definition open_calls (dev : Z) (w : World) : nat :=
  count_events (is_open_of dev) (trace w).
Definition successful_opens (dev : Z) (w : World) : nat :=
  count_events (is_successful_open_of dev) (trace w).
Definition callback_runs (cb : Z) (w : World) : nat :=
  count_events (is_run_of cb) (trace w).

(** Events that only move a reference count. *)
Definition is_refcount_event (e : Event) : bool :=
  match e with
  | EvRefDevice _ | EvUnrefDevice _ => true
  | _ => false
  end.

(** How often [dev] occurs in a device list. *)
Fixpoint occurrences (dev : Z) (l : list Z) : Z :=
  match l with
  | [] => 0
  | d :: rest => (if Z.eqb dev d then 1 else 0) + occurrences dev rest
  end.

(** The service has been constructed and not shut down. *)
Definition service_alive (w : World) : Prop :=
  event_handler_ (service w) <> NULL /\
  context_ (service w) ∈ be_contexts (backend w).

(** A sequence of [n] calls of [LookupOrCreateDevice] on one device, with
    the pointers the callers receive. *)
Fixpoint lookup_sequence (n : nat) (device : PlatformUsbDevice) : M (list Z) :=
  match n with
  | O => ret []
  | S k =>
      wrapper <- LookupOrCreateDevice device ;;
      others <- lookup_sequence k device ;;
      ret (wrapper :: others)
  end.

(** ** Weakest preconditions *)

(** [wp m Q w]: from [w], the computation [m] finishes, and its result and
    final world satisfy [Q]. *)
Definition wp {A : Type} (m : M A) (Q : A -> World -> Prop) (w : World) : Prop :=
  match m w with
  | Done a w' => Q a w'
  | _ => False
  end.

(** ** Steps that only move reference counts *)

(** The indicator of one device. *)
Definition one (dev : Z) (x : Z) : Z := if Z.eqb x dev then 1 else 0.

(** [refcount_step f w w']: [w'] is [w] after some reference-count calls of
    the service, which moved the count of every device [x] by [f x] and did
    nothing else. *)
Definition refcount_step (f : Z -> Z) (w w' : World) : Prop :=
  exists evs r,
    w' = with_trace (app evs) (with_backend (be_set_refs r) w) /\
    Forall (fun e => is_refcount_event e = true) evs /\
    forall x, r x = be_refs (backend w) x + f x.

(** ** Sample worlds *)

(** A build of the service: [OS_CHROMEOS], [DCHECK], and a vector that
    doubles its capacity. *)
Definition sample_build (chromeos dcheck : bool) : Build :=
  {| OS_CHROMEOS := chromeos; DCHECK_IS_ON := dcheck;
     vector_grow := fun c => Nat.max 1 (2 * c) |}.

(** A backend in its initial state, with the given answers. *)
Definition sample_backend (bus : option (list Z))
    (descriptor : Z -> Z * libusb_device_descriptor) (open_code : Z -> Z) : Backend :=
  {| be_clock := O; be_bus := fun _ => bus;
     be_descriptor := fun _ => descriptor; be_open_code := fun _ => open_code;
     be_contexts := ∅; be_refs := fun _ => 0;
     be_handle_dev := ∅; be_open_handles := ∅ |}.

(** The world before the service object is constructed. *)
Definition blank_world (b : Backend) (on_chromeos : bool) (client : Z) : World :=
  {| service := {| context_ := NULL; event_handler_ := NULL; devices_ := ∅ |};
     backend := b; event_handlers := ∅; device_handles := ∅;
     brk := 1%positive; vectors := fun _ => [];
     running_on_chromeos := on_chromeos; permission_broker_client := client;
     broker_requests := []; trace := [] |}.

(** The world a computation leaves behind, however it ends. *)
Definition world_after {A : Type} (m : M A) (w : World) : World :=
  match m w with
  | Done _ w' => w'
  | CheckFailed _ w' => w'
  | Undefined _ w' => w'
  end.

(** How a computation ends. *)
Inductive Ending : Type :=
| Returned
| StoppedAtCheck (msg : string)
| NoDefinedBehaviour (msg : string).

Definition ending {A : Type} (m : M A) (w : World) : Ending :=
  match m w with
  | Done _ _ => Returned
  | CheckFailed msg _ => StoppedAtCheck msg
  | Undefined msg _ => NoDefinedBehaviour msg
  end.

(** Two devices on the bus: device 100 is vendor 0x1234 product 0x0001,
    device 200 is vendor 0x1234 product 0x0002. *)
Definition two_device_descriptor (dev : Z) : Z * libusb_device_descriptor :=
  (0, {| idVendor := 0x1234; idProduct := if Z.eqb dev 100 then 1 else 2 |}).

Definition two_device_backend : Backend :=
  sample_backend (Some [100; 200]) two_device_descriptor (fun _ => 0).

(** The same bus, but every open is refused (LIBUSB_ERROR_ACCESS). *)
Definition refusing_backend : Backend :=
  sample_backend (Some [100; 200]) two_device_descriptor (fun _ => -3).

(** A constructed service on the two-device bus, outside ChromeOS. *)
Definition started_world : World :=
  world_after UsbService_new (blank_world two_device_backend false NULL).

Definition refusing_world : World :=
  world_after UsbService_new (blank_world refusing_backend false NULL).

(** Both devices opened by one enumeration into the caller's vector 50;
    the wrapper of device 100 is then closed. *)
Definition enumerated_world : World :=
  world_after (EnumerateDevices (sample_build false true) 50) started_world.

Definition wrapper_of (dev : Z) (w : World) : Z :=
  default NULL (devices_ (service w) !! dev).

Definition closed_world : World :=
  world_after (CloseDevice (sample_build false true) (wrapper_of 100 enumerated_world))
    enumerated_world.

(** A ChromeOS build running on ChromeOS, with and without a reachable
    permission broker (client object at address 900). *)
Definition chromeos_world (client : Z) : World :=
  world_after UsbService_new (blank_world two_device_backend true client).

(** No broker client can be obtained, and the caller's vector 50 still
    holds the wrapper 77 of an earlier request. *)
Definition unreachable_broker_world : World :=
  with_vectors (store_vector 50 [77]) (chromeos_world NULL).

(** The service after [Shutdown]. *)
Definition stopped_world : World := world_after Shutdown enumerated_world.

(** ** States of the service *)


(** A snapshot vector that still holds the tokens of devices 100 and 300,
    as a caller of [EnumerateDevicesImpl] could pass it. *)
Definition used_vector : DeviceVector :=
  {| dv_items := [ {| device_ := 100 |}; {| device_ := 300 |} ]; dv_capacity := 2 |}.

(** The two-device bus when the list query fails. *)
Definition failing_bus_world : World :=
  world_after UsbService_new
    (blank_world (sample_backend None two_device_descriptor (fun _ => 0)) false NULL).

(** ** Soundness of the registry *)

(** Every key of [devices_] maps to a live wrapper object whose native
    handle the backend holds open on that very device; wrapper objects and
    native handles sit at addresses the allocator has handed out, none of
    them at [NULL]. *)
Definition registry_ok (w : World) : Prop :=
  (forall d p, devices_ (service w) !! d = Some p ->
     exists obj,
       device_handles w !! p = Some obj /\
       be_handle_dev (backend w) !! handle_ obj = Some d /\
       handle_ obj ∈ be_open_handles (backend w)) /\
  (forall p obj, device_handles w !! p = Some obj -> 0 < p < Z.pos (brk w)) /\
  (forall h d, be_handle_dev (backend w) !! h = Some d -> h < Z.pos (brk w)).

(** Two worlds with the same registry, wrapper objects, native handles and
    allocator. *)
Definition same_registry (w w' : World) : Prop :=
  devices_ (service w') = devices_ (service w) /\
  device_handles w' = device_handles w /\
  brk w' = brk w /\
  be_handle_dev (backend w') = be_handle_dev (backend w) /\
  be_open_handles (backend w') = be_open_handles (backend w).

(** What a step of the service never changes: the pointers of the service
    object, the live contexts, the closures at the broker and the answers
    the backend will give. *)
Definition same_surroundings (w w' : World) : Prop :=
  context_ (service w') = context_ (service w) /\
  event_handler_ (service w') = event_handler_ (service w) /\
  be_contexts (backend w') = be_contexts (backend w) /\
  broker_requests w' = broker_requests w /\
  be_open_code (backend w') = be_open_code (backend w) /\
  be_descriptor (backend w') = be_descriptor (backend w) /\
  be_bus (backend w') = be_bus (backend w).

(** Device 100 closed and opened again: its first wrapper, 4, is stale, and
    the registry now holds wrapper 8 around native handle 7. *)
Definition reopened_world : World :=
  world_after (LookupOrCreateDevice 100) closed_world.

(** ** What a traversal of the snapshot does *)

(** The wrappers the registry holds for a list of devices, in list order;
    a device that is not tracked contributes nothing. *)
Definition tracked_wrappers (w : World) (ds : list Z) : list Z :=
  omap (fun d => devices_ (service w) !! d) ds.

(** The comparison of [DeviceMatches] on the descriptor the backend gives at
    time zero. *)
Definition descriptor_matches (w : World) (vendor_id product_id : Z) (d : Z) : bool :=
  Z.eqb (fst (be_descriptor (backend w) O d)) 0
  && (Z.eqb (idVendor (snd (be_descriptor (backend w) O d))) vendor_id
      && Z.eqb (idProduct (snd (be_descriptor (backend w) O d))) product_id).

(** The backend gives the same descriptor for a device at all times. *)
Definition steady_descriptors (w : World) : Prop :=
  forall t d, be_descriptor (backend w) t d = be_descriptor (backend w) O d.

(** The backend gives the same answer at all times when asked to open one
    of the devices [ds] that is not tracked yet. *)
Definition steady_opens (w : World) (ds : list Z) : Prop :=
  forall d t,
    d ∈ ds -> devices_ (service w) !! d = None ->
    be_open_code (backend w) t d = be_open_code (backend w) O d.

(** One round of a loop over the snapshot, seen from outside.  The round
    visits device [d] and, when [sel] holds, asks the registry for its
    wrapper and appends it to the caller's vector [devices]. *)
Definition visit_step (devices : Z) (sel : bool) (d : Z) (w w' : World) : Prop :=
  (registry_ok w -> registry_ok w') /\
  same_surroundings w w' /\
  (forall q, q <> devices -> vectors w' q = vectors w q) /\
  (forall d', d' <> d -> devices_ (service w') !! d' = devices_ (service w) !! d') /\
  (forall d', d' <> d -> open_calls d' w' = open_calls d' w) /\
  count_events is_any_close (trace w') = count_events is_any_close (trace w) /\
  (forall cb, callback_runs cb w' = callback_runs cb w) /\
  if sel then
    match devices_ (service w) !! d with
    | Some p =>
        devices_ (service w') !! d = Some p /\
        open_calls d w' = open_calls d w /\
        vectors w' devices = vectors w devices ++ (if Z.eqb p NULL then [] else [p])
    | None =>
        (exists p t,
           p <> NULL /\ be_open_code (backend w) t d = 0 /\
           devices_ (service w') !! d = Some p /\
           vectors w' devices = vectors w devices ++ [p]) \/
        (exists t,
           be_open_code (backend w) t d <> 0 /\
           devices_ (service w') !! d = None /\
           vectors w' devices = vectors w devices)
    end
  else
    devices_ (service w') !! d = devices_ (service w) !! d /\
    open_calls d w' = open_calls d w /\
    vectors w' devices = vectors w devices.

(** A whole loop over the snapshot, seen from outside: [visited] are the
    devices the loop asked the registry about, in order. *)
Definition visit_all (devices : Z) (visited : list Z) (w w' : World) : Prop :=
  registry_ok w' /\
  same_surroundings w w' /\
  (forall q, q <> devices -> vectors w' q = vectors w q) /\
  (forall d p, devices_ (service w) !! d = Some p -> devices_ (service w') !! d = Some p) /\
  vectors w' devices = vectors w devices ++ tracked_wrappers w' visited /\
  (forall d, devices_ (service w) !! d = None ->
     (is_Some (devices_ (service w') !! d) <->
      d ∈ visited /\ be_open_code (backend w) O d = 0)) /\
  (forall d, is_Some (devices_ (service w) !! d) \/ d ∉ visited ->
     open_calls d w' = open_calls d w) /\
  count_events is_any_close (trace w') = count_events is_any_close (trace w) /\
  (forall cb, callback_runs cb w' = callback_runs cb w).

(** A step that talks to the backend about lists and reference counts
    only: registry, surroundings and the caller's vectors are as before, and
    no open, close or callback has been added to the trace. *)
Definition backend_only (w w' : World) : Prop :=
  same_registry w w' /\
  same_surroundings w w' /\
  vectors w' = vectors w /\
  (forall d, open_calls d w' = open_calls d w) /\
  count_events is_any_close (trace w') = count_events is_any_close (trace w) /\
  (forall cb, callback_runs cb w' = callback_runs cb w).

(** The devices of a list whose descriptor matches. *)
Definition matching_devices (w : World) (vendor_id product_id : Z) (devs : list Z)
  : list Z :=
  filter (fun d => descriptor_matches w vendor_id product_id d = true) devs.

(** ** Callers *)

(** What the rest of the browser does with a constructed service: the four
    public member functions, and the broker answering its oldest request. *)
Inductive Call : Type :=
| CallFindDevices (vendor_id product_id : Z) (interface_id : Z) (devices : Z)
    (callback : Z)
| CallEnumerateDevices (devices : Z)
| CallCloseDevice (device : Z)
| CallShutdown
| BrokerAnswers (success : bool).

Definition run_call (cfg : Build) (c : Call) : M unit :=
  match c with
  | CallFindDevices vendor_id product_id interface_id devices callback =>
      FindDevices cfg vendor_id product_id interface_id devices callback
  | CallEnumerateDevices devices => EnumerateDevices cfg devices
  | CallCloseDevice device => CloseDevice cfg device
  | CallShutdown => Shutdown
  | BrokerAnswers success => broker_reply cfg success
  end.

Definition run_calls (cfg : Build) (cs : list Call) : M unit :=
  for_each cs (run_call cfg).

(** A session of a ChromeOS browser: a filtered request that the broker
    grants, an enumeration, the wrapper of device 100 closed twice, a second
    request that the broker denies, and a last enumeration. *)
Definition sample_session : list Call :=
  [ CallFindDevices 0x1234 1 0 50 9; BrokerAnswers true;
    CallEnumerateDevices 51; CallCloseDevice 4; CallCloseDevice 4;
    CallFindDevices 0x1234 2 0 50 10; BrokerAnswers false;
    CallEnumerateDevices 51 ].

(** The entries of a map that is known in full: [H : m !! k = Some v]
    becomes one case per entry. *)
Ltac concrete_entries H :=
  apply elem_of_map_to_list in H;
  match type of H with
  | _ ∈ map_to_list ?m =>
      let l := eval vm_compute in (map_to_list m) in
      replace (map_to_list m) with l in H by (vm_compute; reflexivity)
  end;
  repeat (apply elem_of_cons in H as [H|H]; [injection H as -> ->|]);
  try (apply elem_of_nil in H; contradiction).

Ltac concrete_registry :=
  split; [|split];
  [ let H := fresh "H" in
    intros ? ? H; concrete_entries H;
    (eexists; split; [vm_compute; reflexivity|]; split; vm_compute; reflexivity)
  | let H := fresh "H" in
    intros ? ? H; concrete_entries H; vm_compute; split; reflexivity
  | let H := fresh "H" in
    intros ? ? H; concrete_entries H; vm_compute; reflexivity ].

Lemma wp_ret {A : Type} (a : A) (Q : A -> World -> Prop) w :
  Q a w -> wp (ret a) Q w.
Proof. intros H. exact H. Qed.

Lemma wp_bind {A B : Type} (m : M A) (f : A -> M B) (Q : B -> World -> Prop) w :
  wp m (fun a w' => wp (f a) Q w') w -> wp (bind m f) Q w.
Proof. unfold wp, bind. destruct (m w); auto. Qed.

Lemma wp_mono {A : Type} (m : M A) (Q Q' : A -> World -> Prop) w :
  wp m Q w -> (forall a w', Q a w' -> Q' a w') -> wp m Q' w.
Proof. unfold wp. destruct (m w); auto. Qed.

Lemma wp_done {A : Type} (m : M A) (Q : A -> World -> Prop) w :
  wp m Q w <-> exists a w', m w = Done a w' /\ Q a w'.
Proof.
  unfold wp. split.
  - destruct (m w) as [a w'| |]; intros H; try contradiction. eauto.
  - intros (a & w' & -> & H). exact H.
Qed.

Lemma ending_returned {A : Type} (m : M A) w :
  ending m w = Returned -> exists a, m w = Done a (world_after m w).
Proof.
  unfold ending, world_after. destruct (m w) as [a w'| |]; intros H;
    try discriminate H. exists a. reflexivity.
Qed.

Lemma wp_for_each {A : Type} (I : World -> Prop) (body : A -> M unit) (l : list A) :
  (forall x w, I w -> wp (body x) (fun _ w' => I w') w) ->
  forall w, I w -> wp (for_each l body) (fun _ w' => I w') w.
Proof.
  intros Hbody. induction l as [|x rest IH]; intros w Hw.
  - exact Hw.
  - simpl. apply wp_bind. eapply wp_mono; [apply Hbody, Hw|].
    intros u w' Hw'. apply IH, Hw'.
Qed.

(** ** Counting lemmas *)

Lemma count_events_app p t1 t2 :
  count_events p (t1 ++ t2) = (count_events p t1 + count_events p t2)%nat.
Proof.
  induction t1 as [|e t1 IH]; simpl; [reflexivity|].
  destruct (p e); rewrite IH; reflexivity.
Qed.

Lemma count_events_none p q t :
  Forall (fun e => q e = true) t ->
  (forall e, q e = true -> p e = false) ->
  count_events p t = O.
Proof.
  intros Hall Hpq. induction Hall as [|e t He _ IH]; simpl; [reflexivity|].
  rewrite (Hpq e He). exact IH.
Qed.

Lemma successful_le_open dev t :
  (count_events (is_successful_open_of dev) t <= count_events (is_open_of dev) t)%nat.
Proof.
  induction t as [|e t IH]; simpl; [lia|].
  destruct e; simpl; try exact IH.
  destruct (Z.eqb dev0 dev); simpl; [|exact IH].
  destruct (Z.eqb code LIBUSB_SUCCESS); lia.
Qed.

(** ** The three ways through [LookupOrCreateDevice] *)

Lemma ContainsKey_Some (m : gmap Z Z) k v : m !! k = Some v -> ContainsKey m k = true.
Proof. intros H. unfold ContainsKey. apply bool_decide_eq_true. eauto. Qed.

Lemma ContainsKey_None (m : gmap Z Z) k : m !! k = None -> ContainsKey m k = false.
Proof.
  intros H. unfold ContainsKey. apply bool_decide_eq_false.
  rewrite H. intros [v Hv]. discriminate.
Qed.

Lemma lookup_tracked device wrapper w :
  devices_ (service w) !! device = Some wrapper ->
  LookupOrCreateDevice device w = Done wrapper w.
Proof.
  intros H. unfold LookupOrCreateDevice, devices_subscript, bind, gets. simpl.
  rewrite (ContainsKey_Some _ _ _ H). simpl. rewrite H. reflexivity.
Qed.

Lemma lookup_open_fails device w :
  devices_ (service w) !! device = None ->
  be_open_code (backend w) (be_clock (backend w)) device <> 0 ->
  LookupOrCreateDevice device w =
    Done NULL
      (with_trace
         (fun t => EvLogWarning "Could not open device."
                   :: EvOpen device (be_open_code (backend w) (be_clock (backend w)) device)
                   :: t)
         (with_backend be_tick w)).
Proof.
  intros Hnone Hcode.
  unfold LookupOrCreateDevice, libusb_open, LOG_WARNING, emit, bind, gets, modify, ret.
  simpl. rewrite (ContainsKey_None _ _ Hnone). simpl.
  unfold LIBUSB_SUCCESS.
  destruct (Z.eqb_spec (be_open_code (backend w) (be_clock (backend w)) device) 0)
    as [Heq|Hne]; [contradiction|].
  simpl. rewrite (proj2 (Z.eqb_neq _ _) Hne). reflexivity.
Qed.

Lemma lookup_open_succeeds device w :
  devices_ (service w) !! device = None ->
  be_open_code (backend w) (be_clock (backend w)) device = 0 ->
  exists w',
    LookupOrCreateDevice device w = Done (Z.pos (Pos.succ (brk w))) w' /\
    devices_ (service w') = <[device := Z.pos (Pos.succ (brk w))]> (devices_ (service w)) /\
    device_handles w' !! Z.pos (Pos.succ (brk w)) = Some {| handle_ := Z.pos (brk w) |} /\
    be_handle_dev (backend w') !! Z.pos (brk w) = Some device /\
    trace w' = EvOpen device 0 :: trace w /\
    context_ (service w') = context_ (service w) /\
    event_handler_ (service w') = event_handler_ (service w) /\
    be_contexts (backend w') = be_contexts (backend w) /\
    vectors w' = vectors w /\
    broker_requests w' = broker_requests w.
Proof.
  intros Hnone Hcode.
  unfold LookupOrCreateDevice, libusb_open, UsbDeviceHandle_new, devices_assign,
    devices_subscript, allocate, emit, bind, gets, modify, ret.
  simpl. rewrite (ContainsKey_None _ _ Hnone). simpl.
  rewrite Hcode. simpl. rewrite Hnone. simpl.
  rewrite lookup_insert_eq. eexists. split; [reflexivity|]. simpl.
  rewrite insert_insert_eq, !lookup_insert_eq. repeat split; reflexivity.
Qed.

(** ** DeviceMatches *)

(** [DeviceMatches] is one descriptor read followed by the comparison. *)
Lemma DeviceMatches_runs device vendor_id product_id w :
  DeviceMatches device vendor_id product_id w =
    Done
      (if negb (Z.eqb (fst (be_descriptor (backend w) (be_clock (backend w)) device)) 0)
       then false
       else Z.eqb (idVendor (snd (be_descriptor (backend w) (be_clock (backend w)) device)))
                  vendor_id
            && Z.eqb (idProduct (snd (be_descriptor (backend w) (be_clock (backend w)) device)))
                     product_id)
      (with_trace
         (cons (EvGetDeviceDescriptor device
                  (fst (be_descriptor (backend w) (be_clock (backend w)) device))))
         (with_backend be_tick w)).
Proof.
  unfold DeviceMatches, libusb_get_device_descriptor, emit, bind, gets, modify, ret.
  simpl.
  destruct (negb (Z.eqb (fst (be_descriptor (backend w) (be_clock (backend w)) device)) 0));
    reflexivity.
Qed.

(** C10.  [DeviceMatches] always returns.  When the backend's descriptor
    read fails (non-zero return code) the answer is [false]; when it
    succeeds the answer is [true] exactly when the descriptor's vendor id
    equals [vendor_id] and its product id equals [product_id]. *)
Theorem DeviceMatches_exact device vendor_id product_id w :
  exists r w',
    DeviceMatches device vendor_id product_id w = Done r w' /\
    (fst (be_descriptor (backend w) (be_clock (backend w)) device) <> 0 -> r = false) /\
    (fst (be_descriptor (backend w) (be_clock (backend w)) device) = 0 ->
       (r = true <->
        idVendor (snd (be_descriptor (backend w) (be_clock (backend w)) device)) = vendor_id /\
        idProduct (snd (be_descriptor (backend w) (be_clock (backend w)) device)) = product_id)).
Proof.
  eexists _, _. split; [apply DeviceMatches_runs|].
  destruct (be_descriptor (backend w) (be_clock (backend w)) device) as [code desc].
  simpl. destruct (Z.eqb_spec code 0) as [Hz|Hnz]; simpl.
  - split; [intros Hc; contradiction|].
    intros _. rewrite andb_true_iff, !Z.eqb_eq. reflexivity.
  - split; [reflexivity|]. intros Hc; contradiction.
Qed.

(** The model distinguishes the two sample devices by product id. *)
Example DeviceMatches_sample :
  exists w1 w2,
    DeviceMatches 100 0x1234 1 started_world = Done true w1 /\
    DeviceMatches 200 0x1234 1 started_world = Done false w2.
Proof. eexists _, _. split; reflexivity. Qed.

(** ** LookupOrCreateDevice *)

(** C7.  For a device that is not tracked, when the backend refuses the
    open, [LookupOrCreateDevice] logs a warning and returns [NULL]; the map
    [devices_] is as before and no wrapper object has been created. *)
Theorem lookup_open_failure_leaves_registry device w :
  devices_ (service w) !! device = None ->
  be_open_code (backend w) (be_clock (backend w)) device <> LIBUSB_SUCCESS ->
  exists w',
    LookupOrCreateDevice device w = Done NULL w' /\
    devices_ (service w') = devices_ (service w) /\
    device_handles w' = device_handles w /\
    trace w' = EvLogWarning "Could not open device."
               :: EvOpen device (be_open_code (backend w) (be_clock (backend w)) device)
               :: trace w.
Proof.
  intros Hnone Hcode. eexists. split; [apply lookup_open_fails; assumption|].
  repeat split; reflexivity.
Qed.

Lemma lookup_open_failure_leaves_registry_witness :
  exists w',
    LookupOrCreateDevice 100 refusing_world = Done NULL w' /\
    devices_ (service w') = devices_ (service refusing_world) /\
    device_handles w' = device_handles refusing_world /\
    trace w' = EvLogWarning "Could not open device."
               :: EvOpen 100
                    (be_open_code (backend refusing_world)
                       (be_clock (backend refusing_world)) 100)
               :: trace refusing_world.
Proof.
  apply (lookup_open_failure_leaves_registry 100 refusing_world).
  - reflexivity.
  - vm_compute. lia.
Defined.

Lemma lookup_sequence_tracked n device wrapper w :
  devices_ (service w) !! device = Some wrapper ->
  lookup_sequence n device w = Done (replicate n wrapper) w.
Proof.
  intros H. induction n as [|k IH]; [reflexivity|].
  simpl. unfold bind. rewrite (lookup_tracked _ _ _ H), IH. reflexivity.
Qed.

(** C1, as the code has it.  A sequence of [LookupOrCreateDevice] calls on
    one device always returns; at most one of its backend opens succeeds;
    every caller receives either [NULL] or one and the same wrapper; and
    when the device is already tracked every caller receives the tracked
    wrapper while the world, trace included, stays as it was: no backend
    open is made. *)
Theorem lookup_sequence_single_success n device w :
  exists rs w',
    lookup_sequence n device w = Done rs w' /\
    length rs = n /\
    (successful_opens device w' <= successful_opens device w + 1)%nat /\
    (exists instance, Forall (fun r => r = NULL \/ r = instance) rs) /\
    (forall wrapper, devices_ (service w) !! device = Some wrapper ->
       rs = replicate n wrapper /\ w' = w).
Proof.
  revert w. induction n as [|k IH]; intros w.
  - exists [], w. repeat split; try reflexivity; try (unfold successful_opens; lia).
    exists NULL. constructor.
  - destruct (devices_ (service w) !! device) as [wrapper|] eqn:Hm.
    + exists (replicate (S k) wrapper), w.
      split; [apply lookup_sequence_tracked, Hm|].
      split; [apply length_replicate|]. split; [lia|]. split.
      * exists wrapper. apply Forall_forall. intros r Hr.
        apply elem_of_replicate in Hr. right. tauto.
      * intros wrapper' [= <-]. split; reflexivity.
    + destruct (Z.eq_dec (be_open_code (backend w) (be_clock (backend w)) device) 0)
        as [Hok|Hfail].
      * destruct (lookup_open_succeeds device w Hm Hok)
          as (w1 & Hrun & Hdev & _ & _ & Htr & _).
        assert (Htracked : devices_ (service w1) !! device
                           = Some (Z.pos (Pos.succ (brk w)))).
        { rewrite Hdev. apply lookup_insert_eq. }
        exists (Z.pos (Pos.succ (brk w)) :: replicate k (Z.pos (Pos.succ (brk w)))), w1.
        split.
        { simpl. unfold bind. rewrite Hrun.
          rewrite (lookup_sequence_tracked k _ _ _ Htracked). reflexivity. }
        split; [simpl; rewrite length_replicate; reflexivity|]. split.
        { unfold successful_opens. rewrite Htr. simpl.
          rewrite Z.eqb_refl. simpl. lia. }
        split.
        { exists (Z.pos (Pos.succ (brk w))). constructor; [right; reflexivity|].
          apply Forall_forall. intros r Hr. apply elem_of_replicate in Hr.
          right. tauto. }
        intros wrapper [=].
      * pose proof (lookup_open_fails device w Hm Hfail) as Hrun.
        set (w1 := with_trace _ _) in Hrun.
        destruct (IH w1) as (rs & w' & Hseq & Hlen & Hsucc & [inst Hinst] & _).
        exists (NULL :: rs), w'. split.
        { simpl. unfold bind. rewrite Hrun, Hseq. reflexivity. }
        split; [simpl; rewrite Hlen; reflexivity|]. split.
        { assert (Hsame : successful_opens device w1 = successful_opens device w).
          { unfold successful_opens, w1. simpl.
            destruct (Z.eqb device device); simpl; [|reflexivity].
            unfold LIBUSB_SUCCESS. rewrite (proj2 (Z.eqb_neq _ _) Hfail). reflexivity. }
          lia. }
        split.
        { exists inst. constructor; [left; reflexivity|exact Hinst]. }
        intros wrapper [=].
Qed.

(** C1, as stated, fails: when the backend refuses the open, every call of
    the sequence calls [libusb_open] again. *)
Lemma lookup_sequence_opens_twice :
  ~ (forall n device w rs w',
       lookup_sequence n device w = Done rs w' ->
       (open_calls device w' <= open_calls device w + 1)%nat).
Proof.
  intros H.
  destruct (ending_returned (lookup_sequence 2 100) refusing_world) as [rs Hrun];
    [vm_compute; reflexivity|].
  specialize (H _ _ _ _ _ Hrun).
  assert (Hafter : open_calls 100 (world_after (lookup_sequence 2 100) refusing_world)
                   = 2%nat) by (vm_compute; reflexivity).
  assert (Hbefore : open_calls 100 refusing_world = 0%nat) by (vm_compute; reflexivity).
  rewrite Hafter, Hbefore in H. lia.
Qed.

(** ** CloseDevice *)

Lemma DCHECK_passes cfg msg w : DCHECK cfg true msg w = Done tt w.
Proof. unfold DCHECK. rewrite andb_false_r. reflexivity. Qed.

Lemma not_null_eqb (p : Z) : p <> NULL -> negb (Z.eqb p NULL) = true.
Proof. intros H. apply negb_true_iff, Z.eqb_neq, H. Qed.

(** C8.  On a constructed service, closing a wrapper whose platform device
    is not a key of [devices_] only writes the warning: the final world is
    the initial one with that log line added, so the map is unchanged and
    [libusb_close] is not called. *)
Theorem close_untracked_is_noop cfg device obj platform_device w :
  event_handler_ (service w) <> NULL ->
  device_handles w !! device = Some obj ->
  be_handle_dev (backend w) !! handle_ obj = Some platform_device ->
  devices_ (service w) !! platform_device = None ->
  exists w',
    CloseDevice cfg device w = Done tt w' /\
    w' = with_trace
           (cons (EvLogWarning "CloseDevice called for device we're not tracking!")) w /\
    devices_ (service w') = devices_ (service w) /\
    backend w' = backend w /\
    count_events is_any_close (trace w') = count_events is_any_close (trace w).
Proof.
  intros Halive Hobj Hdev Hnone. eexists. split.
  - unfold CloseDevice, UsbDeviceHandle_handle, libusb_get_device, LOG_WARNING,
      emit, bind, gets, modify. simpl.
    rewrite (not_null_eqb _ Halive), DCHECK_passes, Hobj. simpl.
    rewrite Hdev. simpl. rewrite (ContainsKey_None _ _ Hnone). reflexivity.
  - repeat split; reflexivity.
Qed.

Lemma close_untracked_is_noop_witness :
  exists w',
    CloseDevice (sample_build false true) 4 closed_world = Done tt w' /\
    w' = with_trace
           (cons (EvLogWarning "CloseDevice called for device we're not tracking!"))
           closed_world /\
    devices_ (service w') = devices_ (service closed_world) /\
    backend w' = backend closed_world /\
    count_events is_any_close (trace w') = count_events is_any_close (trace closed_world).
Proof.
  apply (close_untracked_is_noop (sample_build false true) 4 {| handle_ := 3 |} 100
           closed_world).
  - vm_compute. lia.
  - vm_compute. reflexivity.
  - vm_compute. reflexivity.
  - vm_compute. reflexivity.
Defined.

(** The tracked branch of [CloseDevice]: the key is erased and the native
    handle of the wrapper is closed. *)
Lemma CloseDevice_tracked cfg device obj platform_device wrapper w :
  event_handler_ (service w) <> NULL ->
  device_handles w !! device = Some obj ->
  be_handle_dev (backend w) !! handle_ obj = Some platform_device ->
  devices_ (service w) !! platform_device = Some wrapper ->
  exists w1,
    CloseDevice cfg device w = Done tt w1 /\
    devices_ (service w1) = delete platform_device (devices_ (service w)) /\
    trace w1 = EvClose (handle_ obj) :: trace w.
Proof.
  intros Halive Hobj Hdev Hsome. eexists. split.
  - unfold CloseDevice, UsbDeviceHandle_handle, libusb_get_device, libusb_close,
      emit, bind, gets, modify. simpl.
    rewrite (not_null_eqb _ Halive), DCHECK_passes, Hobj. simpl.
    rewrite Hdev. simpl. rewrite (ContainsKey_Some _ _ _ Hsome). simpl.
    rewrite Hobj. simpl. rewrite Hdev. reflexivity.
  - split; reflexivity.
Qed.

(** C9.  On a constructed service, closing a wrapper whose platform device
    is tracked removes that key from [devices_] and closes the native handle;
    the next [LookupOrCreateDevice] on the same device calls [libusb_open]
    once more, and returns [NULL] or the wrapper newly made around the handle
    that this open produced. *)
Theorem close_then_lookup_reopens cfg device obj platform_device wrapper w :
  event_handler_ (service w) <> NULL ->
  device_handles w !! device = Some obj ->
  be_handle_dev (backend w) !! handle_ obj = Some platform_device ->
  devices_ (service w) !! platform_device = Some wrapper ->
  exists w1,
    CloseDevice cfg device w = Done tt w1 /\
    devices_ (service w1) !! platform_device = None /\
    trace w1 = EvClose (handle_ obj) :: trace w /\
    exists r w2,
      LookupOrCreateDevice platform_device w1 = Done r w2 /\
      open_calls platform_device w2 = S (open_calls platform_device w1) /\
      (r = NULL \/
       devices_ (service w2) !! platform_device = Some r /\
       device_handles w2 !! r = Some {| handle_ := Z.pos (brk w1) |} /\
       be_handle_dev (backend w2) !! Z.pos (brk w1) = Some platform_device).
Proof.
  intros Halive Hobj Hdev Hsome.
  destruct (CloseDevice_tracked cfg device obj platform_device wrapper w
              Halive Hobj Hdev Hsome) as (w1 & Hrun & Hmap & Htrace).
  assert (Hgone : devices_ (service w1) !! platform_device = None).
  { rewrite Hmap. apply lookup_delete_eq. }
  exists w1. split; [exact Hrun|]. split; [exact Hgone|]. split; [exact Htrace|].
  destruct (Z.eq_dec (be_open_code (backend w1) (be_clock (backend w1)) platform_device) 0)
    as [Hok|Hfail].
  - destruct (lookup_open_succeeds platform_device w1 Hgone Hok)
      as (w2 & Hlook & Hdev2 & Hobj2 & Hhd2 & Htr2 & _).
    exists (Z.pos (Pos.succ (brk w1))), w2. split; [exact Hlook|]. split.
    + unfold open_calls. rewrite Htr2. simpl. rewrite Z.eqb_refl. reflexivity.
    + right. split; [rewrite Hdev2; apply lookup_insert_eq|]. split; assumption.
  - eexists _, _. split; [apply lookup_open_fails; assumption|]. split.
    + unfold open_calls. simpl. rewrite Z.eqb_refl. reflexivity.
    + left. reflexivity.
Qed.

Lemma close_then_lookup_reopens_witness :
  exists w1,
    CloseDevice (sample_build false true) 4 enumerated_world = Done tt w1 /\
    devices_ (service w1) !! 100 = None /\
    trace w1 = EvClose 3 :: trace enumerated_world /\
    exists r w2,
      LookupOrCreateDevice 100 w1 = Done r w2 /\
      open_calls 100 w2 = S (open_calls 100 w1) /\
      (r = NULL \/
       devices_ (service w2) !! 100 = Some r /\
       device_handles w2 !! r = Some {| handle_ := Z.pos (brk w1) |} /\
       be_handle_dev (backend w2) !! Z.pos (brk w1) = Some 100).
Proof.
  apply (close_then_lookup_reopens (sample_build false true) 4 {| handle_ := 3 |} 100 4
           enumerated_world).
  - vm_compute. lia.
  - vm_compute. reflexivity.
  - vm_compute. reflexivity.
  - vm_compute. reflexivity.
Defined.

(** ** FindDevicesImpl without permission *)

(** Without permission [FindDevicesImpl] is two steps: the caller's vector
    is cleared and the callback runs. *)
Lemma FindDevicesImpl_denied_runs cfg vendor_id product_id devices callback w :
  FindDevicesImpl cfg vendor_id product_id devices callback false w =
    Done tt
      (with_trace (cons (EvCallbackRun callback (store_vector devices [] (vectors w))))
         (with_vectors (store_vector devices []) w)).
Proof. reflexivity. Qed.

(** C5.  [FindDevicesImpl] called with [success = false] clears the caller's
    vector and runs the callback, which observes the empty vector; nothing
    else happens: the backend and the service are untouched, so no
    [libusb_open] is made for any device. *)
Theorem FindDevicesImpl_denied cfg vendor_id product_id devices callback w :
  exists w',
    FindDevicesImpl cfg vendor_id product_id devices callback false w = Done tt w' /\
    vectors w' devices = [] /\
    trace w' = EvCallbackRun callback (vectors w') :: trace w /\
    count_events is_any_open (trace w') = count_events is_any_open (trace w) /\
    backend w' = backend w /\
    service w' = service w.
Proof.
  eexists. split; [apply FindDevicesImpl_denied_runs|]. simpl.
  unfold store_vector. rewrite Z.eqb_refl. repeat split; reflexivity.
Qed.

(** The same through the broker: on a live ChromeOS service with a
    reachable broker and no request outstanding, a request that the broker
    answers with a denial ends with the caller's vector empty, the callback
    run on it, and no backend call made. *)
Lemma FindDevices_denied_by_broker
    cfg vendor_id product_id interface_id devices callback w :
  event_handler_ (service w) <> NULL ->
  OS_CHROMEOS cfg = true ->
  running_on_chromeos w = true ->
  permission_broker_client w <> NULL ->
  broker_requests w = [] ->
  exists w',
    (FindDevices cfg vendor_id product_id interface_id devices callback ;;
     broker_reply cfg false) w = Done tt w' /\
    vectors w' devices = [] /\
    trace w' = EvCallbackRun callback (vectors w')
               :: EvRequestUsbAccess vendor_id product_id interface_id :: trace w /\
    backend w' = backend w /\
    service w' = service w.
Proof.
  intros Halive Hos Hrun Hclient Hempty.
  unfold FindDevices, RequestUsbAccess, broker_reply, BoundFindDevicesImpl_Run,
    emit, bind, gets, modify. simpl.
  rewrite (not_null_eqb _ Halive), DCHECK_passes, Hos. simpl. rewrite Hrun. simpl.
  rewrite (not_null_eqb _ Hclient), DCHECK_passes.
  rewrite (proj2 (Z.eqb_neq _ _) Hclient). simpl. rewrite Hempty. simpl.
  rewrite FindDevicesImpl_denied_runs.
  eexists. split; [reflexivity|]. simpl.
  unfold store_vector. rewrite Z.eqb_refl. repeat split; reflexivity.
Qed.

(** ** Reference counting of the tokens *)

Lemma refcount_step_refl w : refcount_step (fun _ => 0) w w.
Proof.
  exists [], (be_refs (backend w)). split; [|split].
  - destruct w as [s b ? ? ? ? ? ? ? ?]. destruct b. reflexivity.
  - constructor.
  - intros x. lia.
Qed.

Lemma refcount_step_trans f g w w1 w2 :
  refcount_step f w w1 -> refcount_step g w1 w2 ->
  refcount_step (fun x => f x + g x) w w2.
Proof.
  intros (e1 & r1 & -> & Hall1 & Hr1) (e2 & r2 & -> & Hall2 & Hr2).
  exists (e2 ++ e1), r2. split; [|split].
  - unfold with_trace, with_backend, be_set_refs. simpl.
    rewrite app_assoc. reflexivity.
  - apply Forall_app. split; assumption.
  - intros x. rewrite Hr2. simpl. rewrite Hr1. lia.
Qed.

Lemma refcount_step_ext f g w w' :
  (forall x, f x = g x) -> refcount_step f w w' -> refcount_step g w w'.
Proof.
  intros Hfg (e & r & -> & Hall & Hr). exists e, r.
  split; [reflexivity|]. split; [exact Hall|].
  intros x. rewrite Hr, Hfg. reflexivity.
Qed.

Lemma refcount_step_refs f w w' x :
  refcount_step f w w' -> be_refs (backend w') x = be_refs (backend w) x + f x.
Proof. intros (e & r & -> & _ & Hr). simpl. apply Hr. Qed.

Lemma refcount_step_count p f w w' :
  (forall e, is_refcount_event e = true -> p e = false) ->
  refcount_step f w w' ->
  count_events p (trace w') = count_events p (trace w).
Proof.
  intros Hp (e & r & -> & Hall & _). simpl.
  rewrite count_events_app, (count_events_none p _ e Hall Hp). reflexivity.
Qed.

Lemma refcount_step_frame f w w' :
  refcount_step f w w' ->
  service w' = service w /\ vectors w' = vectors w /\
  be_contexts (backend w') = be_contexts (backend w) /\
  be_clock (backend w') = be_clock (backend w) /\
  broker_requests w' = broker_requests w.
Proof. intros (e & r & -> & _ & _). repeat split; reflexivity. Qed.

Lemma libusb_ref_device_step dev w :
  wp (libusb_ref_device dev) (fun _ w' => refcount_step (one dev) w w') w.
Proof.
  unfold wp. simpl.
  exists [EvRefDevice dev], (bump dev 1 (be_refs (backend w))).
  split; [reflexivity|]. split; [repeat constructor|].
  intros x. unfold bump, one. destruct (Z.eqb x dev); lia.
Qed.

Lemma libusb_unref_device_step dev w :
  wp (libusb_unref_device dev) (fun _ w' => refcount_step (fun x => - one dev x) w w') w.
Proof.
  unfold wp. simpl.
  exists [EvUnrefDevice dev], (bump dev (-1) (be_refs (backend w))).
  split; [reflexivity|]. split; [repeat constructor|].
  intros x. unfold bump, one. destruct (Z.eqb x dev); lia.
Qed.

(** Constructing or copying a token adds one reference to its device, and
    destroying it removes one. *)
Lemma token_new_step dev w :
  wp (RefCountedPlatformUsbDevice_new dev)
     (fun t w' => t = {| device_ := dev |} /\ refcount_step (one dev) w w') w.
Proof.
  unfold RefCountedPlatformUsbDevice_new. apply wp_bind.
  eapply wp_mono; [apply libusb_ref_device_step|].
  intros ? w' Hstep. apply wp_ret. split; [reflexivity|exact Hstep].
Qed.

Lemma token_copy_step t w :
  wp (RefCountedPlatformUsbDevice_copy t)
     (fun t' w' => t' = t /\ refcount_step (one (device_ t)) w w') w.
Proof.
  unfold RefCountedPlatformUsbDevice_copy. apply wp_bind.
  eapply wp_mono; [apply libusb_ref_device_step|].
  intros ? w' Hstep. apply wp_ret. split; [destruct t; reflexivity|exact Hstep].
Qed.

Lemma token_delete_step t w :
  wp (RefCountedPlatformUsbDevice_delete t)
     (fun _ w' => refcount_step (fun x => - one (device_ t) x) w w') w.
Proof. apply libusb_unref_device_step. Qed.

Lemma copy_tokens_step l w :
  wp (copy_tokens l)
     (fun l' w' => l' = l /\
        refcount_step (fun x => occurrences x (map device_ l)) w w') w.
Proof.
  revert w. induction l as [|t rest IH]; intros w.
  - apply wp_ret. split; [reflexivity|apply refcount_step_refl].
  - simpl. apply wp_bind. eapply wp_mono; [apply token_copy_step|].
    intros t' w1 [-> H1]. apply wp_bind. eapply wp_mono; [apply IH|].
    intros rest' w2 [-> H2]. apply wp_ret. split; [reflexivity|].
    eapply refcount_step_ext; [|exact (refcount_step_trans _ _ _ _ _ H1 H2)].
    intros x. unfold one. destruct (Z.eqb x (device_ t)); lia.
Qed.

Lemma destroy_tokens_step l w :
  wp (destroy_tokens l)
     (fun _ w' => refcount_step (fun x => - occurrences x (map device_ l)) w w') w.
Proof.
  unfold destroy_tokens. revert w. induction l as [|t rest IH]; intros w.
  - apply wp_ret. apply refcount_step_refl.
  - simpl. apply wp_bind. eapply wp_mono; [apply token_delete_step|].
    intros ? w1 H1. eapply wp_mono; [apply IH|].
    intros ? w2 H2.
    eapply refcount_step_ext; [|exact (refcount_step_trans _ _ _ _ _ H1 H2)].
    intros x. unfold one. destruct (Z.eqb x (device_ t)); lia.
Qed.

(** [push_back] leaves one more token in the vector and one more reference
    on its device, whether or not the vector had to grow. *)
Lemma DeviceVector_push_back_step cfg v t w :
  wp (DeviceVector_push_back cfg v t)
     (fun v' w' => dv_items v' = dv_items v ++ [t] /\
        refcount_step (one (device_ t)) w w') w.
Proof.
  unfold DeviceVector_push_back.
  destruct (Nat.ltb (length (dv_items v)) (dv_capacity v)).
  - apply wp_bind. eapply wp_mono; [apply token_copy_step|].
    intros t' w1 [-> H1]. apply wp_ret. split; [reflexivity|exact H1].
  - apply wp_bind. eapply wp_mono; [apply token_copy_step|].
    intros t' w1 [-> H1]. apply wp_bind. eapply wp_mono; [apply copy_tokens_step|].
    intros moved w2 [-> H2]. apply wp_bind.
    eapply wp_mono; [apply destroy_tokens_step|].
    intros ? w3 H3. apply wp_ret. split; [reflexivity|].
    eapply refcount_step_ext;
      [|exact (refcount_step_trans _ _ _ _ _
                 (refcount_step_trans _ _ _ _ _ H1 H2) H3)].
    intros x. simpl. lia.
Qed.

(** Each round of the loop of [EnumerateDevicesImpl] leaves two references
    on the device: the one taken by hand and the one of the stored token. *)
Lemma EnumerateDevicesImpl_loop_step cfg devices output w :
  wp (EnumerateDevicesImpl_loop cfg devices output)
     (fun output' w' =>
        map device_ (dv_items output') = map device_ (dv_items output) ++ devices /\
        refcount_step (fun x => 2 * occurrences x devices) w w') w.
Proof.
  revert output w. induction devices as [|device rest IH]; intros output w.
  - apply wp_ret. split; [rewrite app_nil_r; reflexivity|].
    eapply refcount_step_ext; [|apply refcount_step_refl]. intros x. reflexivity.
  - simpl EnumerateDevicesImpl_loop. apply wp_bind.
    eapply wp_mono; [apply libusb_ref_device_step|].
    intros ? w1 H1. apply wp_bind. eapply wp_mono; [apply token_new_step|].
    intros temporary w2 [-> H2]. apply wp_bind.
    eapply wp_mono; [apply DeviceVector_push_back_step|].
    intros output' w3 [Hitems H3]. apply wp_bind.
    eapply wp_mono; [apply token_delete_step|].
    intros ? w4 H4. eapply wp_mono; [apply IH|].
    intros output'' w5 [Hitems' H5]. split.
    + rewrite Hitems', Hitems, map_app. simpl. rewrite <- app_assoc. reflexivity.
    + eapply refcount_step_ext;
        [|exact (refcount_step_trans _ _ _ _ _
                   (refcount_step_trans _ _ _ _ _
                      (refcount_step_trans _ _ _ _ _
                         (refcount_step_trans _ _ _ _ _ H1 H2) H3) H4) H5)].
      intros x. simpl. unfold one. destruct (Z.eqb x device); lia.
Qed.

Lemma bump_all_spec devs delta r x :
  bump_all devs delta r x = r x + delta * occurrences x devs.
Proof.
  induction devs as [|d rest IH]; simpl; [lia|].
  unfold bump at 1. fold (bump_all rest delta r). rewrite IH.
  destruct (Z.eqb x d); lia.
Qed.

(** ** EnumerateDevicesImpl *)

(** On a live context the enumeration returns.  It adds to the trace the
    list query, reference-count calls and the release of the list, and
    leaves the service, the caller's vectors and the broker queue alone.
    With [devs] on the bus the snapshot holds one token per entry and every
    entry has gained two references; when the list query fails the snapshot
    is empty and no count has moved. *)
Lemma EnumerateDevicesImpl_runs cfg w :
  context_ (service w) ∈ be_contexts (backend w) ->
  wp (EnumerateDevicesImpl cfg DeviceVector_empty)
     (fun snapshot w' =>
        (forall p, (forall e, is_refcount_event e = true -> p e = false) ->
                   p (EvFreeDeviceList true) = false ->
                   (forall ctx n, p (EvGetDeviceList ctx n) = false) ->
                   count_events p (trace w') = count_events p (trace w)) /\
        service w' = service w /\ vectors w' = vectors w /\
        broker_requests w' = broker_requests w /\
        match be_bus (backend w) (be_clock (backend w)) with
        | Some devs =>
            map device_ (dv_items snapshot) = devs /\
            forall x, be_refs (backend w') x
                      = be_refs (backend w) x + 2 * occurrences x devs
        | None =>
            dv_items snapshot = [] /\
            forall x, be_refs (backend w') x = be_refs (backend w) x
        end) w.
Proof.
  intros Hlive.
  unfold EnumerateDevicesImpl, STLClearObject, DeviceVector_delete, destroy_tokens.
  apply wp_bind. simpl for_each. apply wp_bind. apply wp_ret. apply wp_ret.
  apply wp_bind. unfold gets at 1, wp at 1.
  apply wp_bind. unfold libusb_get_device_list.
  apply wp_bind. unfold gets at 1, wp at 1.
  rewrite (decide_True _ _ Hlive).
  apply wp_bind. unfold modify at 1, wp at 1.
  destruct (be_bus (backend w) (be_clock (backend w))) as [devs|] eqn:Hbus.
  - apply wp_bind. unfold modify at 1, wp at 1.
    apply wp_bind. unfold emit, modify at 1, wp at 1.
    apply wp_ret. cbn [fst snd].
    assert (Hcount : Z.ltb (Z.of_nat (length devs)) 0 = false)
      by (apply Z.ltb_ge; lia).
    rewrite Hcount, Nat2Z.id, firstn_all.
    apply wp_bind.
    eapply wp_mono; [apply EnumerateDevicesImpl_loop_step|].
    intros output1 w1 [Hitems Hstep]. apply wp_bind.
    unfold libusb_free_device_list, emit, bind, modify, wp. simpl.
    destruct (refcount_step_frame _ _ _ Hstep) as (Hsvc & Hvec & _ & _ & Hreq).
    split; [|split; [|split; [|split; [|split]]]].
    + intros p Hp Hfree Hlist. rewrite Hfree.
      rewrite (refcount_step_count p _ _ _ Hp Hstep). simpl.
      rewrite Hlist. reflexivity.
    + exact Hsvc.
    + exact Hvec.
    + exact Hreq.
    + exact Hitems.
    + intros x. rewrite bump_all_spec, (refcount_step_refs _ _ _ x Hstep). simpl.
      rewrite bump_all_spec. lia.
  - apply wp_bind. unfold emit, modify at 1, wp at 1. apply wp_ret.
    cbn [fst snd]. unfold LIBUSB_ERROR_NO_MEM. simpl Z.ltb. cbv iota.
    apply wp_ret. split; [|repeat split].
    intros p Hp Hfree Hlist. simpl. rewrite Hlist. reflexivity.
Qed.

(** What the three token operations do to the backend's count. *)
Lemma token_operations_move_one_reference dev w :
  (exists t w', RefCountedPlatformUsbDevice_new dev w = Done t w' /\
     be_refs (backend w') dev = be_refs (backend w) dev + 1) /\
  (exists t w', RefCountedPlatformUsbDevice_copy {| device_ := dev |} w = Done t w' /\
     be_refs (backend w') dev = be_refs (backend w) dev + 1) /\
  (exists w', RefCountedPlatformUsbDevice_delete {| device_ := dev |} w = Done tt w' /\
     be_refs (backend w') dev = be_refs (backend w) dev - 1).
Proof.
  split; [|split]; repeat eexists; simpl; unfold bump; rewrite Z.eqb_refl; lia.
Qed.

(** C4, as the code has it.  An enumeration on a live context whose bus
    lists [devs] returns a snapshot with one token per entry; while the
    tokens live every listed device holds two references more than before,
    and when all tokens of the snapshot are destroyed it still holds one
    more than before for each time it was listed: the [libusb_ref_device]
    of the loop is never given back. *)
Theorem enumeration_keeps_one_reference cfg devs w :
  context_ (service w) ∈ be_contexts (backend w) ->
  be_bus (backend w) (be_clock (backend w)) = Some devs ->
  exists snapshot w1 w2,
    EnumerateDevicesImpl cfg DeviceVector_empty w = Done snapshot w1 /\
    map device_ (dv_items snapshot) = devs /\
    (forall x, be_refs (backend w1) x = be_refs (backend w) x + 2 * occurrences x devs) /\
    DeviceVector_delete snapshot w1 = Done tt w2 /\
    (forall x, be_refs (backend w2) x = be_refs (backend w) x + occurrences x devs).
Proof.
  intros Hlive Hbus.
  destruct (proj1 (wp_done _ _ _) (EnumerateDevicesImpl_runs cfg w Hlive))
    as (snapshot & w1 & Hrun & _ & _ & _ & _ & Hpost).
  rewrite Hbus in Hpost. destruct Hpost as [Hitems Hrefs].
  destruct (proj1 (wp_done _ _ _) (destroy_tokens_step (dv_items snapshot) w1))
    as ([] & w2 & Hdel & Hstep).
  exists snapshot, w1, w2. repeat split; try assumption.
  intros x. rewrite (refcount_step_refs _ _ _ x Hstep), Hrefs, Hitems. lia.
Qed.

Lemma enumeration_keeps_one_reference_witness :
  exists snapshot w1 w2,
    EnumerateDevicesImpl (sample_build false true) DeviceVector_empty started_world
      = Done snapshot w1 /\
    map device_ (dv_items snapshot) = [100; 200] /\
    (forall x, be_refs (backend w1) x
               = be_refs (backend started_world) x + 2 * occurrences x [100; 200]) /\
    DeviceVector_delete snapshot w1 = Done tt w2 /\
    (forall x, be_refs (backend w2) x
               = be_refs (backend started_world) x + occurrences x [100; 200]).
Proof.
  apply (enumeration_keeps_one_reference (sample_build false true) [100; 200]
           started_world).
  - vm_compute. reflexivity.
  - reflexivity.
Defined.

(** At the sample bus: before the enumeration device 100 has no
    reference; after the enumeration and the destruction of every token of
    the snapshot it has one, four [libusb_ref_device] calls having been made
    on it against three [libusb_unref_device] calls. *)
Example enumeration_leak_sample :
  ending (snapshot <- EnumerateDevicesImpl (sample_build false true) DeviceVector_empty ;;
          DeviceVector_delete snapshot) started_world = Returned /\
  be_refs (backend started_world) 100 = 0 /\
  be_refs (backend
     (world_after
        (snapshot <- EnumerateDevicesImpl (sample_build false true) DeviceVector_empty ;;
         DeviceVector_delete snapshot) started_world)) 100 = 1 /\
  count_events (fun e => match e with EvRefDevice 100 => true | _ => false end)
    (trace
       (world_after
          (snapshot <- EnumerateDevicesImpl (sample_build false true) DeviceVector_empty ;;
           DeviceVector_delete snapshot) started_world)) = 4%nat /\
  count_events (fun e => match e with EvUnrefDevice 100 => true | _ => false end)
    (trace
       (world_after
          (snapshot <- EnumerateDevicesImpl (sample_build false true) DeviceVector_empty ;;
           DeviceVector_delete snapshot) started_world)) = 3%nat.
Proof. vm_compute. repeat split. Qed.

(** ** The completion callback *)

Lemma refcount_event_not_run cb e :
  is_refcount_event e = true -> is_run_of cb e = false.
Proof. destruct e; simpl; intros H; try discriminate H; reflexivity. Qed.

(** [LookupOrCreateDevice] always returns, and adds to the trace at most an
    open and a warning. *)
Lemma LookupOrCreateDevice_count p device w :
  (forall msg, p (EvLogWarning msg) = false) ->
  (forall dev code, p (EvOpen dev code) = false) ->
  wp (LookupOrCreateDevice device)
     (fun _ w' => count_events p (trace w') = count_events p (trace w)) w.
Proof.
  intros Hlog Hopen. apply wp_done.
  destruct (devices_ (service w) !! device) as [wrapper|] eqn:Hm.
  - exists wrapper, w. split; [apply lookup_tracked, Hm|reflexivity].
  - destruct (Z.eq_dec (be_open_code (backend w) (be_clock (backend w)) device) 0)
      as [Hok|Hfail].
    + destruct (lookup_open_succeeds device w Hm Hok) as (w' & Hrun & _ & _ & _ & Htr & _).
      eexists _, w'. split; [exact Hrun|]. rewrite Htr. simpl. rewrite Hopen. reflexivity.
    + eexists _, _. split; [apply lookup_open_fails; assumption|].
      simpl. rewrite Hlog, Hopen. reflexivity.
Qed.

(** One round of the loop of [FindDevicesImpl] runs no callback. *)
Lemma FindDevicesImpl_body_quiet cb n vendor_id product_id devices it w :
  callback_runs cb w = n ->
  wp (matches <- DeviceMatches (RefCountedPlatformUsbDevice_device it)
                   vendor_id product_id ;;
      if matches then
        wrapper <- LookupOrCreateDevice (RefCountedPlatformUsbDevice_device it) ;;
        if negb (Z.eqb wrapper NULL) then vector_push_back devices wrapper
        else ret tt
      else ret tt)
     (fun _ w' => callback_runs cb w' = n) w.
Proof.
  intros Hn. apply wp_bind.
  unfold wp at 1. rewrite DeviceMatches_runs.
  set (w1 := with_trace _ (with_backend be_tick w)).
  assert (Hq : callback_runs cb w1 = n) by exact Hn.
  destruct (if negb _ then false else _); [|exact Hq].
  apply wp_bind.
  eapply wp_mono; [apply (LookupOrCreateDevice_count (is_run_of cb)); reflexivity|].
  intros wrapper w2 Hcount. simpl in Hcount.
  destruct (negb (Z.eqb wrapper NULL)); unfold wp, callback_runs; simpl;
    rewrite Hcount; exact Hq.
Qed.

(** With permission granted and a live context, [FindDevicesImpl] returns
    and has run the callback once, as its last action. *)
Lemma FindDevicesImpl_granted cfg vendor_id product_id devices callback w :
  context_ (service w) ∈ be_contexts (backend w) ->
  wp (FindDevicesImpl cfg vendor_id product_id devices callback true)
     (fun _ w' =>
        callback_runs callback w' = S (callback_runs callback w) /\
        exists rest, trace w' = EvCallbackRun callback (vectors w') :: rest) w.
Proof.
  intros Hlive. unfold FindDevicesImpl. apply wp_bind.
  unfold vector_clear, modify at 1, wp at 1. cbv iota. simpl negb. cbv iota.
  set (w0 := with_vectors _ w).
  apply wp_bind.
  eapply wp_mono; [apply (EnumerateDevicesImpl_runs cfg w0), Hlive|].
  intros snapshot w1 (Hcount & _). apply wp_bind.
  eapply wp_mono.
  { apply (wp_for_each (fun w' => callback_runs callback w' = callback_runs callback w)).
    - intros it w' Hw'. apply FindDevicesImpl_body_quiet, Hw'.
    - unfold callback_runs.
      apply Hcount; [apply refcount_event_not_run|reflexivity|reflexivity]. }
  intros ? w2 Hw2. apply wp_bind.
  eapply wp_mono; [apply destroy_tokens_step|].
  intros ? w3 Hstep.
  unfold Callback_Run, emit, bind, gets, modify, wp, callback_runs. simpl.
  rewrite Z.eqb_refl. split; [|eexists; reflexivity].
  rewrite (refcount_step_count (is_run_of callback) _ _ _
             (refcount_event_not_run callback) Hstep).
  f_equal. exact Hw2.
Qed.

(** C6.  On a live service [FindDevices] returns, unless a build with
    [DCHECK] finds the broker client missing.  When the request is not handed
    to a broker (the macro is off, the process does not run on ChromeOS, or
    no client could be obtained) the callback has run exactly once when
    [FindDevices] returns.  When it is handed to the broker the callback has
    not run yet and one closure has been queued; whenever the broker invokes
    that closure, with either verdict, the invocation returns and runs the
    callback exactly once. *)
Theorem FindDevices_runs_callback_once
    cfg vendor_id product_id interface_id devices callback w :
  service_alive w ->
  (DCHECK_IS_ON cfg = true ->
   OS_CHROMEOS cfg && running_on_chromeos w = true ->
   permission_broker_client w <> NULL) ->
  exists w1,
    FindDevices cfg vendor_id product_id interface_id devices callback w = Done tt w1 /\
    if OS_CHROMEOS cfg && running_on_chromeos w
       && negb (Z.eqb (permission_broker_client w) NULL)
    then
      callback_runs callback w1 = callback_runs callback w /\
      broker_requests w1
        = broker_requests w
          ++ [ {| bound_vendor_id := vendor_id; bound_product_id := product_id;
                  bound_devices := devices; bound_callback := callback |} ] /\
      forall success w2,
        (success = true -> service_alive w2) ->
        exists w3,
          BoundFindDevicesImpl_Run cfg
            {| bound_vendor_id := vendor_id; bound_product_id := product_id;
               bound_devices := devices; bound_callback := callback |}
            success w2 = Done tt w3 /\
          callback_runs callback w3 = S (callback_runs callback w2)
    else callback_runs callback w1 = S (callback_runs callback w).
Proof.
  intros [Halive Hlive] Hclient.
  assert (Himpl : forall w0, context_ (service w0) ∈ be_contexts (backend w0) ->
            exists w', FindDevicesImpl cfg vendor_id product_id devices callback true w0
                       = Done tt w' /\
                       callback_runs callback w' = S (callback_runs callback w0)).
  { intros w0 H0.
    destruct (proj1 (wp_done _ _ _)
                (FindDevicesImpl_granted cfg vendor_id product_id devices callback w0 H0))
      as ([] & w' & Hrun & Hc & _).
    exists w'. split; assumption. }
  unfold FindDevices, bind, gets. simpl.
  rewrite (not_null_eqb _ Halive), DCHECK_passes.
  destruct (OS_CHROMEOS cfg); simpl in *; [|apply Himpl, Hlive].
  destruct (running_on_chromeos w); simpl in *; [|apply Himpl, Hlive].
  destruct (Z.eqb_spec (permission_broker_client w) NULL) as [Hnone|Hsome]; simpl.
  - destruct (DCHECK_IS_ON cfg) eqn:Hdcheck.
    + exfalso. apply Hclient; [reflexivity|reflexivity|exact Hnone].
    + unfold DCHECK. rewrite Hdcheck. simpl.
      eexists. split; [reflexivity|].
      unfold callback_runs. simpl. rewrite Z.eqb_refl. reflexivity.
  - rewrite DCHECK_passes.
    eexists. split; [reflexivity|]. split; [reflexivity|]. split; [reflexivity|].
    intros success w2 Hw2. destruct success.
    + apply Himpl. apply (Hw2 eq_refl).
    + eexists. split; [apply FindDevicesImpl_denied_runs|].
      unfold callback_runs. simpl. rewrite Z.eqb_refl. reflexivity.
Qed.

Lemma FindDevices_runs_callback_once_witness :
  exists w1,
    FindDevices (sample_build true true) 0x1234 1 0 50 9 (chromeos_world 900)
      = Done tt w1 /\
    if OS_CHROMEOS (sample_build true true) && running_on_chromeos (chromeos_world 900)
       && negb (Z.eqb (permission_broker_client (chromeos_world 900)) NULL)
    then
      callback_runs 9 w1 = callback_runs 9 (chromeos_world 900) /\
      broker_requests w1
        = broker_requests (chromeos_world 900)
          ++ [ {| bound_vendor_id := 0x1234; bound_product_id := 1;
                  bound_devices := 50; bound_callback := 9 |} ] /\
      forall success w2,
        (success = true -> service_alive w2) ->
        exists w3,
          BoundFindDevicesImpl_Run (sample_build true true)
            {| bound_vendor_id := 0x1234; bound_product_id := 1;
               bound_devices := 50; bound_callback := 9 |}
            success w2 = Done tt w3 /\
          callback_runs 9 w3 = S (callback_runs 9 w2)
    else callback_runs 9 w1 = S (callback_runs 9 (chromeos_world 900)).
Proof.
  apply (FindDevices_runs_callback_once (sample_build true true) 0x1234 1 0 50 9
           (chromeos_world 900)).
  - split; [vm_compute; lia|vm_compute; reflexivity].
  - intros _ _. vm_compute. lia.
Defined.

(** C6, as stated, fails: in a build with [DCHECK], on ChromeOS, when no
    broker client can be obtained, the request stops at [DCHECK(client)]
    before [callback.Run()] is reached, so it never returns to its caller
    and the callback is not run. *)
Lemma FindDevices_dcheck_stops_before_callback :
  ~ (forall cfg vendor_id product_id interface_id devices callback success w,
       service_alive w ->
       broker_requests w = [] ->
       exists w',
         (FindDevices cfg vendor_id product_id interface_id devices callback ;;
          broker_reply cfg success) w = Done tt w' /\
         callback_runs callback w' = S (callback_runs callback w)).
Proof.
  intros H.
  assert (Halive : service_alive (chromeos_world NULL)).
  { split; [vm_compute; lia|vm_compute; reflexivity]. }
  destruct (H (sample_build true true) 0x1234 1 0 50 9 true (chromeos_world NULL)
              Halive eq_refl) as (w' & Hrun & _).
  assert (Hend :
    ending (FindDevices (sample_build true true) 0x1234 1 0 50 9 ;;
            broker_reply (sample_build true true) true) (chromeos_world NULL)
    = StoppedAtCheck "Could not get permission broker client.")
    by (vm_compute; reflexivity).
  unfold ending in Hend. rewrite Hrun in Hend. discriminate Hend.
Qed.

(** At that input the request ends at the check with no callback run. *)
Example FindDevices_dcheck_sample :
  ending (FindDevices (sample_build true true) 0x1234 1 0 50 9) (chromeos_world NULL)
    = StoppedAtCheck "Could not get permission broker client." /\
  callback_runs 9
    (world_after (FindDevices (sample_build true true) 0x1234 1 0 50 9)
       (chromeos_world NULL)) = 0%nat /\
  callback_runs 9 (chromeos_world NULL) = 0%nat.
Proof. vm_compute. repeat split. Qed.

(** The three paths at the sample worlds.  Without a broker the request
    completes inside [FindDevices] and delivers the wrapper of device 100,
    the only one with product id 1. *)
Example FindDevices_sample_no_broker :
  ending (FindDevices (sample_build false true) 0x1234 1 0 50 9) started_world
    = Returned /\
  callback_runs 9
    (world_after (FindDevices (sample_build false true) 0x1234 1 0 50 9) started_world)
    = 1%nat /\
  match trace (world_after (FindDevices (sample_build false true) 0x1234 1 0 50 9)
                 started_world) with
  | EvCallbackRun 9 delivered :: _ => delivered 50 = [4]
  | _ => False
  end /\
  devices_ (service
     (world_after (FindDevices (sample_build false true) 0x1234 1 0 50 9) started_world))
    !! 100 = Some 4 /\
  devices_ (service
     (world_after (FindDevices (sample_build false true) 0x1234 1 0 50 9) started_world))
    !! 200 = None.
Proof. vm_compute. repeat split. Qed.

(** With a broker that grants access the request completes when the broker
    answers. *)
Example FindDevices_sample_granted :
  ending (FindDevices (sample_build true true) 0x1234 1 0 50 9 ;;
          broker_reply (sample_build true true) true) (chromeos_world 900)
    = Returned /\
  callback_runs 9
    (world_after (FindDevices (sample_build true true) 0x1234 1 0 50 9)
       (chromeos_world 900)) = 0%nat /\
  callback_runs 9
    (world_after (FindDevices (sample_build true true) 0x1234 1 0 50 9 ;;
                  broker_reply (sample_build true true) true) (chromeos_world 900))
    = 1%nat /\
  match trace (world_after (FindDevices (sample_build true true) 0x1234 1 0 50 9 ;;
                            broker_reply (sample_build true true) true)
                 (chromeos_world 900)) with
  | EvCallbackRun 9 delivered :: _ => delivered 50 = [4]
  | _ => False
  end.
Proof. vm_compute. repeat split. Qed.

(** With a broker that denies access the callback observes an empty vector
    and the backend is never asked to list or open a device. *)
Example FindDevices_sample_denied :
  ending (FindDevices (sample_build true true) 0x1234 1 0 50 9 ;;
          broker_reply (sample_build true true) false) (chromeos_world 900)
    = Returned /\
  callback_runs 9
    (world_after (FindDevices (sample_build true true) 0x1234 1 0 50 9 ;;
                  broker_reply (sample_build true true) false) (chromeos_world 900))
    = 1%nat /\
  match trace (world_after (FindDevices (sample_build true true) 0x1234 1 0 50 9 ;;
                            broker_reply (sample_build true true) false)
                 (chromeos_world 900)) with
  | EvCallbackRun 9 delivered :: rest =>
      delivered 50 = [] /\
      count_events is_any_open rest = 0%nat /\
      count_events is_enumeration rest = 0%nat
  | _ => False
  end.
Proof. vm_compute. repeat split. Qed.

(** ** The broker that cannot be reached *)

(** C3, as the code has it.  In a ChromeOS build without [DCHECK], running
    on ChromeOS with no broker client, [FindDevices] runs the callback at
    once and does nothing else: no enumeration is made, and the caller's
    vector is not cleared, so the callback observes whatever the vector
    held when the request came in. *)
Theorem FindDevices_unreachable_broker
    cfg vendor_id product_id interface_id devices callback w :
  OS_CHROMEOS cfg = true ->
  DCHECK_IS_ON cfg = false ->
  running_on_chromeos w = true ->
  permission_broker_client w = NULL ->
  exists w',
    FindDevices cfg vendor_id product_id interface_id devices callback w = Done tt w' /\
    trace w' = EvCallbackRun callback (vectors w) :: trace w /\
    vectors w' devices = vectors w devices /\
    count_events is_enumeration (trace w') = count_events is_enumeration (trace w).
Proof.
  intros Hos Hdcheck Hrun Hclient.
  unfold FindDevices, DCHECK, Callback_Run, emit, bind, gets, modify, ret.
  rewrite Hos, Hdcheck. simpl. rewrite Hrun. simpl. rewrite Hclient. simpl.
  eexists. split; [reflexivity|]. repeat split; reflexivity.
Qed.

Lemma FindDevices_unreachable_broker_witness :
  exists w',
    FindDevices (sample_build true false) 0x1234 1 0 50 9 unreachable_broker_world
      = Done tt w' /\
    trace w' = EvCallbackRun 9 (vectors unreachable_broker_world)
               :: trace unreachable_broker_world /\
    vectors w' 50 = vectors unreachable_broker_world 50 /\
    count_events is_enumeration (trace w')
      = count_events is_enumeration (trace unreachable_broker_world).
Proof.
  apply (FindDevices_unreachable_broker (sample_build true false) 0x1234 1 0 50 9
           unreachable_broker_world); reflexivity.
Defined.

(** At the sample world the callback is handed the stale wrapper 77, not an
    empty vector. *)
Example FindDevices_unreachable_broker_delivers_stale :
  ending (FindDevices (sample_build true false) 0x1234 1 0 50 9) unreachable_broker_world
    = Returned /\
  match trace (world_after (FindDevices (sample_build true false) 0x1234 1 0 50 9)
                 unreachable_broker_world) with
  | EvCallbackRun 9 delivered :: _ => delivered 50 = [77]
  | _ => False
  end.
Proof. vm_compute. repeat split. Qed.

(** The denied path does clear the same vector. *)
Example FindDevicesImpl_denied_clears_stale :
  match trace (world_after (FindDevicesImpl (sample_build true false) 0x1234 1 50 9 false)
                 unreachable_broker_world) with
  | EvCallbackRun 9 delivered :: _ => delivered 50 = []
  | _ => False
  end.
Proof. vm_compute. reflexivity. Qed.

(** With [DCHECK] compiled in, the same request stops the process at
    [DCHECK(client)] and the callback never runs. *)
Lemma FindDevices_unreachable_broker_dcheck
    cfg vendor_id product_id interface_id devices callback w :
  OS_CHROMEOS cfg = true ->
  DCHECK_IS_ON cfg = true ->
  event_handler_ (service w) <> NULL ->
  running_on_chromeos w = true ->
  permission_broker_client w = NULL ->
  FindDevices cfg vendor_id product_id interface_id devices callback w
    = CheckFailed "Could not get permission broker client." w.
Proof.
  intros Hos Hdcheck Halive Hrun Hclient.
  unfold FindDevices, bind, gets. simpl.
  rewrite (not_null_eqb _ Halive), DCHECK_passes.
  rewrite Hos, Hrun, Hclient. unfold DCHECK. rewrite Hdcheck. reflexivity.
Qed.

(** ** After Shutdown *)

(** On a context that is not live the enumeration has no defined
    behaviour, and neither have the two operations that start with it. *)
Lemma EnumerateDevicesImpl_dead cfg w :
  context_ (service w) ∉ be_contexts (backend w) ->
  EnumerateDevicesImpl cfg DeviceVector_empty w
    = Undefined "libusb_get_device_list on a context that is not initialised" w.
Proof.
  intros Hdead.
  unfold EnumerateDevicesImpl, STLClearObject, DeviceVector_delete, destroy_tokens,
    libusb_get_device_list, undefined, bind, gets, ret.
  simpl. rewrite (decide_False _ _ Hdead). reflexivity.
Qed.

Lemma FindDevicesImpl_dead cfg vendor_id product_id devices callback w :
  context_ (service w) ∉ be_contexts (backend w) ->
  FindDevicesImpl cfg vendor_id product_id devices callback true w
    = Undefined "libusb_get_device_list on a context that is not initialised"
        (with_vectors (store_vector devices []) w).
Proof.
  intros Hdead. unfold FindDevicesImpl, vector_clear, bind, modify. simpl.
  rewrite (EnumerateDevicesImpl_dead cfg (with_vectors _ w) Hdead). reflexivity.
Qed.

Lemma EnumerateDevices_dead cfg devices w :
  context_ (service w) ∉ be_contexts (backend w) ->
  EnumerateDevices cfg devices w
    = Undefined "libusb_get_device_list on a context that is not initialised"
        (with_vectors (store_vector devices []) w).
Proof.
  intros Hdead. unfold EnumerateDevices, vector_clear, bind, modify. simpl.
  rewrite (EnumerateDevicesImpl_dead cfg (with_vectors _ w) Hdead). reflexivity.
Qed.

Lemma FindDevices_dead cfg vendor_id product_id interface_id devices callback w :
  event_handler_ (service w) <> NULL ->
  context_ (service w) ∉ be_contexts (backend w) ->
  OS_CHROMEOS cfg && running_on_chromeos w = false ->
  FindDevices cfg vendor_id product_id interface_id devices callback w
    = Undefined "libusb_get_device_list on a context that is not initialised"
        (with_vectors (store_vector devices []) w).
Proof.
  intros Halive Hdead Hgate. unfold FindDevices, bind, gets. simpl.
  rewrite (not_null_eqb _ Halive), DCHECK_passes.
  destruct (OS_CHROMEOS cfg); simpl in *; [|apply FindDevicesImpl_dead, Hdead].
  rewrite Hgate. apply FindDevicesImpl_dead, Hdead.
Qed.

(** C2, as the code has it.  [Shutdown] sets [context_] to [NULL] but leaves
    [event_handler_] pointing at the deleted handler, so the guard
    [DCHECK(event_handler_)] holds after shutdown exactly as before.
    [FindDevices] passes its guard and, like [EnumerateDevices], which has
    no guard, goes on to query the device list on the null context;
    [CloseDevice] passes its guard and closes the native handle on the
    backend that has been torn down. *)
Theorem Shutdown_leaves_guard_set
    cfg vendor_id product_id interface_id devices callback w w' :
  event_handler_ (service w) <> NULL ->
  NULL ∉ be_contexts (backend w) ->
  OS_CHROMEOS cfg && running_on_chromeos w = false ->
  Shutdown w = Done tt w' ->
  event_handler_ (service w') = event_handler_ (service w) /\
  event_handlers w' !! event_handler_ (service w') = None /\
  context_ (service w') = NULL /\
  (exists w'',
     FindDevices cfg vendor_id product_id interface_id devices callback w'
       = Undefined "libusb_get_device_list on a context that is not initialised" w'') /\
  (exists w'',
     EnumerateDevices cfg devices w'
       = Undefined "libusb_get_device_list on a context that is not initialised" w'') /\
  (forall device obj platform_device wrapper,
     device_handles w' !! device = Some obj ->
     be_handle_dev (backend w') !! handle_ obj = Some platform_device ->
     devices_ (service w') !! platform_device = Some wrapper ->
     exists w'',
       CloseDevice cfg device w' = Done tt w'' /\
       trace w'' = EvClose (handle_ obj) :: trace w').
Proof.
  intros Halive Hnull Hgate Hshut.
  unfold Shutdown, UsbEventHandler_Stop, UsbEventHandler_delete,
    libusb_interrupt_handle_event, libusb_exit, emit, bind, gets, modify, undefined
    in Hshut.
  simpl in Hshut.
  destruct (event_handlers w !! event_handler_ (service w)) as [h|] eqn:Hh;
    [|discriminate Hshut].
  simpl in Hshut.
  destruct (decide (eh_context_ h ∈ be_contexts (backend w))); [|discriminate Hshut].
  simpl in Hshut.
  destruct (decide (context_ (service w) ∈ be_contexts (backend w)));
    [|discriminate Hshut].
  simpl in Hshut. injection Hshut as Hshut. subst w'.
  assert (Hdead : NULL ∉ be_contexts (backend w) ∖ {[context_ (service w)]}).
  { intros Hin. apply elem_of_difference in Hin as [Hin _]. exact (Hnull Hin). }
  split; [reflexivity|]. split; [apply lookup_delete_eq|]. split; [reflexivity|].
  split; [|split].
  - eexists. apply FindDevices_dead; [exact Halive|exact Hdead|exact Hgate].
  - eexists. apply EnumerateDevices_dead. exact Hdead.
  - intros device obj platform_device wrapper Hobj Hdev Htracked.
    match goal with
    | |- exists w'', CloseDevice _ _ ?stopped = _ /\ _ =>
        destruct (CloseDevice_tracked cfg device obj platform_device wrapper stopped
                    Halive Hobj Hdev Htracked) as (w'' & Hrun & _ & Htr)
    end.
    exists w''. split; [exact Hrun|exact Htr].
Qed.

Lemma Shutdown_leaves_guard_set_witness :
  event_handler_ (service stopped_world) = event_handler_ (service enumerated_world) /\
  event_handlers stopped_world !! event_handler_ (service stopped_world) = None /\
  context_ (service stopped_world) = NULL /\
  (exists w'',
     FindDevices (sample_build false true) 0x1234 1 0 50 9 stopped_world
       = Undefined "libusb_get_device_list on a context that is not initialised" w'') /\
  (exists w'',
     EnumerateDevices (sample_build false true) 50 stopped_world
       = Undefined "libusb_get_device_list on a context that is not initialised" w'') /\
  (forall device obj platform_device wrapper,
     device_handles stopped_world !! device = Some obj ->
     be_handle_dev (backend stopped_world) !! handle_ obj = Some platform_device ->
     devices_ (service stopped_world) !! platform_device = Some wrapper ->
     exists w'',
       CloseDevice (sample_build false true) device stopped_world = Done tt w'' /\
       trace w'' = EvClose (handle_ obj) :: trace stopped_world).
Proof.
  apply (Shutdown_leaves_guard_set (sample_build false true) 0x1234 1 0 50 9
           enumerated_world stopped_world).
  - vm_compute. lia.
  - vm_compute. intros H. discriminate H.
  - reflexivity.
  - destruct (ending_returned Shutdown enumerated_world) as [[] Hrun];
      [vm_compute; reflexivity|exact Hrun].
Defined.

(** At the sample world: the service is shut down, the guard still holds,
    and the three operations reach the backend. *)
Example operations_after_Shutdown_sample :
  event_handler_ (service enumerated_world) = 2 /\
  event_handler_ (service stopped_world) = 2 /\
  ending (DCHECK (sample_build false true)
            (negb (Z.eqb (event_handler_ (service stopped_world)) NULL))
            "FindDevices called after event handler stopped.") stopped_world
    = Returned /\
  ending (FindDevices (sample_build false true) 0x1234 1 0 50 9) stopped_world
    = NoDefinedBehaviour "libusb_get_device_list on a context that is not initialised" /\
  ending (EnumerateDevices (sample_build false true) 50) stopped_world
    = NoDefinedBehaviour "libusb_get_device_list on a context that is not initialised" /\
  ending (CloseDevice (sample_build false true) 4) stopped_world = Returned /\
  match trace (world_after (CloseDevice (sample_build false true) 4) stopped_world) with
  | EvClose 3 :: EvLibusbExit 1 :: _ => True
  | _ => False
  end.
Proof. vm_compute. repeat split. Qed.

(** ** Construction and shutdown *)







(** X3.  A second [Shutdown] has no defined behaviour: whenever [Shutdown]
    returns, [event_handler_] is left pointing at the deleted handler, and
    the next [Shutdown] calls [Stop] through it. *)
Theorem Shutdown_twice_undefined w w' :
  Shutdown w = Done tt w' ->
  Shutdown w'
    = Undefined "UsbEventHandler::Stop through a null or dangling pointer" w'.
Proof.
  intros Hshut.
  unfold Shutdown, UsbEventHandler_Stop, UsbEventHandler_delete,
    libusb_interrupt_handle_event, libusb_exit, emit, bind, gets, modify, undefined
    in Hshut.
  simpl in Hshut.
  destruct (event_handlers w !! event_handler_ (service w)) as [h|] eqn:Hh;
    [|discriminate Hshut].
  simpl in Hshut.
  destruct (decide (eh_context_ h ∈ be_contexts (backend w))); [|discriminate Hshut].
  simpl in Hshut.
  destruct (decide (context_ (service w) ∈ be_contexts (backend w)));
    [|discriminate Hshut].
  simpl in Hshut. injection Hshut as Hshut. subst w'.
  unfold Shutdown, UsbEventHandler_Stop, bind, gets, undefined. simpl.
  rewrite lookup_delete_eq. reflexivity.
Qed.

Lemma Shutdown_twice_undefined_witness :
  Shutdown stopped_world
    = Undefined "UsbEventHandler::Stop through a null or dangling pointer" stopped_world.
Proof.
  apply (Shutdown_twice_undefined enumerated_world stopped_world).
  destruct (ending_returned Shutdown enumerated_world) as [[] Hrun];
    [vm_compute; reflexivity|exact Hrun].
Defined.

(** ** When the device list cannot be had *)

Lemma EnumerateDevicesImpl_list_failure cfg w :
  context_ (service w) ∈ be_contexts (backend w) ->
  be_bus (backend w) (be_clock (backend w)) = None ->
  EnumerateDevicesImpl cfg DeviceVector_empty w =
    Done DeviceVector_empty
      (with_trace (cons (EvGetDeviceList (context_ (service w)) LIBUSB_ERROR_NO_MEM))
         (with_backend be_tick w)).
Proof.
  intros Hlive Hbus.
  unfold EnumerateDevicesImpl, STLClearObject, DeviceVector_delete, destroy_tokens,
    libusb_get_device_list, emit, bind, gets, modify, ret.
  simpl. rewrite (decide_True _ _ Hlive). simpl. rewrite Hbus. reflexivity.
Qed.

(** X4.  When the backend cannot list the devices, a granted [FindDevicesImpl]
    still returns: the caller's vector is empty, the callback runs on it,
    and the list query is the only backend call made; the registry is as
    before. *)
Theorem FindDevicesImpl_list_failure cfg vendor_id product_id devices callback w :
  context_ (service w) ∈ be_contexts (backend w) ->
  be_bus (backend w) (be_clock (backend w)) = None ->
  exists w',
    FindDevicesImpl cfg vendor_id product_id devices callback true w = Done tt w' /\
    vectors w' devices = [] /\
    trace w' = EvCallbackRun callback (vectors w')
               :: EvGetDeviceList (context_ (service w)) LIBUSB_ERROR_NO_MEM
               :: trace w /\
    service w' = service w /\
    be_refs (backend w') = be_refs (backend w).
Proof.
  intros Hlive Hbus. eexists. split.
  - unfold FindDevicesImpl, vector_clear, bind, modify. simpl.
    rewrite (EnumerateDevicesImpl_list_failure cfg (with_vectors _ w) Hlive Hbus).
    reflexivity.
  - simpl. unfold store_vector. rewrite Z.eqb_refl. repeat split; reflexivity.
Qed.

Lemma FindDevicesImpl_list_failure_witness :
  exists w',
    FindDevicesImpl (sample_build false true) 0x1234 1 50 9 true failing_bus_world
      = Done tt w' /\
    vectors w' 50 = [] /\
    trace w' = EvCallbackRun 9 (vectors w')
               :: EvGetDeviceList (context_ (service failing_bus_world))
                    LIBUSB_ERROR_NO_MEM
               :: trace failing_bus_world /\
    service w' = service failing_bus_world /\
    be_refs (backend w') = be_refs (backend failing_bus_world).
Proof.
  apply (FindDevicesImpl_list_failure (sample_build false true) 0x1234 1 50 9
           failing_bus_world).
  - vm_compute. reflexivity.
  - reflexivity.
Defined.

(** X5.  The same for [EnumerateDevices]: the caller's vector comes back empty,
    whatever it held, and nothing is opened. *)
Theorem EnumerateDevices_list_failure cfg devices w :
  context_ (service w) ∈ be_contexts (backend w) ->
  be_bus (backend w) (be_clock (backend w)) = None ->
  exists w',
    EnumerateDevices cfg devices w = Done tt w' /\
    vectors w' devices = [] /\
    trace w' = EvGetDeviceList (context_ (service w)) LIBUSB_ERROR_NO_MEM :: trace w /\
    service w' = service w /\
    be_refs (backend w') = be_refs (backend w).
Proof.
  intros Hlive Hbus. eexists. split.
  - unfold EnumerateDevices, vector_clear, bind, modify. simpl.
    rewrite (EnumerateDevicesImpl_list_failure cfg (with_vectors _ w) Hlive Hbus).
    reflexivity.
  - simpl. unfold store_vector. rewrite Z.eqb_refl. repeat split; reflexivity.
Qed.

Lemma EnumerateDevices_list_failure_witness :
  exists w',
    EnumerateDevices (sample_build false true) 50 failing_bus_world = Done tt w' /\
    vectors w' 50 = [] /\
    trace w' = EvGetDeviceList (context_ (service failing_bus_world))
                 LIBUSB_ERROR_NO_MEM
               :: trace failing_bus_world /\
    service w' = service failing_bus_world /\
    be_refs (backend w') = be_refs (backend failing_bus_world).
Proof.
  apply (EnumerateDevices_list_failure (sample_build false true) 50 failing_bus_world).
  - vm_compute. reflexivity.
  - reflexivity.
Defined.

(** ** A snapshot vector that is used again *)

(** [EnumerateDevicesImpl] first lets the old contents of [output] go. *)
Lemma EnumerateDevicesImpl_clears_first cfg output w :
  EnumerateDevicesImpl cfg output w
  = (DeviceVector_delete output ;; EnumerateDevicesImpl cfg DeviceVector_empty) w.
Proof.
  unfold EnumerateDevicesImpl, STLClearObject, bind. simpl.
  destruct (DeviceVector_delete output w); reflexivity.
Qed.

(** X6.  [EnumerateDevicesImpl] on a vector that still holds tokens: the old
    tokens are destroyed, each giving its reference back, and the snapshot
    returned lists exactly the bus, in bus order, whatever the vector held
    and however it grows. *)
Theorem EnumerateDevicesImpl_replaces_output cfg output devs w :
  context_ (service w) ∈ be_contexts (backend w) ->
  be_bus (backend w) (be_clock (backend w)) = Some devs ->
  exists snapshot w',
    EnumerateDevicesImpl cfg output w = Done snapshot w' /\
    map device_ (dv_items snapshot) = devs /\
    forall x, be_refs (backend w') x
              = be_refs (backend w) x
                - occurrences x (map device_ (dv_items output))
                + 2 * occurrences x devs.
Proof.
  intros Hlive Hbus.
  destruct (proj1 (wp_done _ _ _) (destroy_tokens_step (dv_items output) w))
    as ([] & w0 & Hdel & Hstep).
  pose proof (fun x => refcount_step_refs _ _ _ x Hstep) as Hrefs0.
  destruct Hstep as (evs & r & -> & _ & _).
  destruct (proj1 (wp_done _ _ _)
              (EnumerateDevicesImpl_runs cfg
                 (with_trace (app evs) (with_backend (be_set_refs r) w)) Hlive))
    as (snapshot & w' & Hrun & _ & _ & _ & _ & Hpost).
  simpl in Hpost. rewrite Hbus in Hpost. destruct Hpost as [Hitems Hrefs].
  exists snapshot, w'. split.
  - rewrite EnumerateDevicesImpl_clears_first. unfold bind.
    unfold DeviceVector_delete. rewrite Hdel. exact Hrun.
  - split; [exact Hitems|]. intros x. rewrite Hrefs.
    specialize (Hrefs0 x). simpl in Hrefs0. rewrite Hrefs0. lia.
Qed.

Lemma EnumerateDevicesImpl_replaces_output_witness :
  exists snapshot w',
    EnumerateDevicesImpl (sample_build false true) used_vector started_world
      = Done snapshot w' /\
    map device_ (dv_items snapshot) = [100; 200] /\
    forall x, be_refs (backend w') x
              = be_refs (backend started_world) x
                - occurrences x (map device_ (dv_items used_vector))
                + 2 * occurrences x [100; 200].
Proof.
  apply (EnumerateDevicesImpl_replaces_output (sample_build false true) used_vector
           [100; 200] started_world).
  - vm_compute. reflexivity.
  - reflexivity.
Defined.

(** ** The registry stays sound *)

Lemma same_registry_refl w : same_registry w w.
Proof. repeat split; reflexivity. Qed.

Lemma same_registry_trans w1 w2 w3 :
  same_registry w1 w2 -> same_registry w2 w3 -> same_registry w1 w3.
Proof.
  intros (A1 & A2 & A3 & A4 & A5) (B1 & B2 & B3 & B4 & B5).
  repeat split; congruence.
Qed.

Lemma same_surroundings_refl w : same_surroundings w w.
Proof. repeat split; reflexivity. Qed.

Lemma same_surroundings_trans w1 w2 w3 :
  same_surroundings w1 w2 -> same_surroundings w2 w3 -> same_surroundings w1 w3.
Proof.
  intros (A1 & A2 & A3 & A4 & A5 & A6 & A7) (B1 & B2 & B3 & B4 & B5 & B6 & B7).
  repeat split; congruence.
Qed.

Lemma registry_ok_same w w' : same_registry w w' -> registry_ok w -> registry_ok w'.
Proof.
  intros (Hd & Hh & Hb & Hhd & Ho) (Htracked & Hobjs & Hhandles).
  unfold registry_ok. rewrite Hd, Hh, Hb, Hhd, Ho.
  split; [exact Htracked|]. split; [exact Hobjs|exact Hhandles].
Qed.

Lemma refcount_step_same_registry f w w' :
  refcount_step f w w' -> same_registry w w' /\ same_surroundings w w'.
Proof. intros (e & r & -> & _ & _). split; repeat split; reflexivity. Qed.

(** Under a sound registry a tracked wrapper is never null. *)
Lemma registry_ok_not_null w d p :
  registry_ok w -> devices_ (service w) !! d = Some p -> p <> NULL.
Proof.
  intros (Htracked & Hobjs & _) Hm.
  destruct (Htracked d p Hm) as (obj & Hobj & _).
  specialize (Hobjs p obj Hobj). unfold NULL. lia.
Qed.

(** The world after a successful open, field by field. *)
Lemma lookup_open_succeeds_world device w :
  devices_ (service w) !! device = None ->
  be_open_code (backend w) (be_clock (backend w)) device = 0 ->
  exists w',
    LookupOrCreateDevice device w = Done (Z.pos (Pos.succ (brk w))) w' /\
    devices_ (service w') = <[device := Z.pos (Pos.succ (brk w))]> (devices_ (service w)) /\
    device_handles w'
      = <[Z.pos (Pos.succ (brk w)) := {| handle_ := Z.pos (brk w) |}]> (device_handles w) /\
    brk w' = Pos.succ (Pos.succ (brk w)) /\
    be_handle_dev (backend w') = <[Z.pos (brk w) := device]> (be_handle_dev (backend w)) /\
    be_open_handles (backend w') = {[Z.pos (brk w)]} ∪ be_open_handles (backend w) /\
    vectors w' = vectors w /\
    trace w' = EvOpen device 0 :: trace w /\
    same_surroundings w w' /\
    (forall x, be_refs (backend w') x = be_refs (backend w) x + one device x).
Proof.
  intros Hnone Hcode.
  unfold LookupOrCreateDevice, libusb_open, UsbDeviceHandle_new, devices_assign,
    devices_subscript, allocate, emit, bind, gets, modify, ret.
  simpl. rewrite (ContainsKey_None _ _ Hnone). simpl.
  rewrite Hcode. simpl. rewrite Hnone. simpl.
  rewrite lookup_insert_eq. eexists. split; [reflexivity|]. simpl.
  rewrite insert_insert_eq. repeat split; try reflexivity.
  intros x. unfold bump, one. destruct (Z.eqb x device); lia.
Qed.

Lemma registry_ok_after_open device w w' :
  registry_ok w ->
  devices_ (service w') = <[device := Z.pos (Pos.succ (brk w))]> (devices_ (service w)) ->
  device_handles w'
    = <[Z.pos (Pos.succ (brk w)) := {| handle_ := Z.pos (brk w) |}]> (device_handles w) ->
  brk w' = Pos.succ (Pos.succ (brk w)) ->
  be_handle_dev (backend w') = <[Z.pos (brk w) := device]> (be_handle_dev (backend w)) ->
  be_open_handles (backend w') = {[Z.pos (brk w)]} ∪ be_open_handles (backend w) ->
  registry_ok w'.
Proof.
  intros (Htracked & Hobjs & Hhandles) Hd Hh Hb Hhd Ho.
  unfold registry_ok. rewrite Hd, Hh, Hb, Hhd, Ho.
  rewrite !Pos2Z.inj_succ. split; [|split].
  - intros d p Hm. apply lookup_insert_Some in Hm as [[<- <-]|[Hne Hm]].
    + exists {| handle_ := Z.pos (brk w) |}. split; [apply lookup_insert_eq|].
      split; [apply lookup_insert_eq|].
      apply elem_of_union_l, elem_of_singleton. reflexivity.
    + destruct (Htracked d p Hm) as (obj & Hobj & Hdev & Hopen).
      pose proof (Hobjs p obj Hobj) as Hp.
      pose proof (Hhandles _ _ Hdev) as Hhh.
      exists obj. split; [|split].
      * rewrite lookup_insert_ne; [exact Hobj|lia].
      * rewrite lookup_insert_ne; [exact Hdev|lia].
      * apply elem_of_union_r, Hopen.
  - intros p obj Hobj. apply lookup_insert_Some in Hobj as [[<- _]|[_ Hobj]].
    + lia.
    + specialize (Hobjs p obj Hobj). lia.
  - intros h d Hdev. apply lookup_insert_Some in Hdev as [[<- _]|[_ Hdev]].
    + lia.
    + specialize (Hhandles h d Hdev). lia.
Qed.

(** One call of [LookupOrCreateDevice] on a sound registry, with everything
    later proofs need to know about the world it leaves. *)
Lemma LookupOrCreateDevice_step device w :
  exists r w',
    LookupOrCreateDevice device w = Done r w' /\
    (registry_ok w -> registry_ok w') /\
    same_surroundings w w' /\
    vectors w' = vectors w /\
    (forall d, d <> device -> devices_ (service w') !! d = devices_ (service w) !! d) /\
    (forall p, devices_ (service w) !! device = Some p -> r = p /\ w' = w) /\
    (devices_ (service w) !! device = None ->
     be_open_code (backend w) (be_clock (backend w)) device = 0 ->
     r <> NULL /\ devices_ (service w') !! device = Some r /\
     trace w' = EvOpen device 0 :: trace w) /\
    (devices_ (service w) !! device = None ->
     be_open_code (backend w) (be_clock (backend w)) device <> 0 ->
     r = NULL /\ devices_ (service w') !! device = None /\
     trace w' = EvLogWarning "Could not open device."
                :: EvOpen device (be_open_code (backend w) (be_clock (backend w)) device)
                :: trace w).
Proof.
  destruct (devices_ (service w) !! device) as [p|] eqn:Hm.
  - exists p, w. split; [apply lookup_tracked, Hm|].
    split; [intros Hok; exact Hok|]. split; [apply same_surroundings_refl|].
    split; [reflexivity|]. split; [reflexivity|].
    split; [intros p' [= <-]; split; reflexivity|].
    split; intros [=].
  - destruct (Z.eq_dec (be_open_code (backend w) (be_clock (backend w)) device) 0)
      as [Hcode|Hcode].
    + destruct (lookup_open_succeeds_world device w Hm Hcode)
        as (w' & Hrun & Hd & Hh & Hb & Hhd & Ho & Hv & Htr & Hsur & _).
      exists (Z.pos (Pos.succ (brk w))), w'. split; [exact Hrun|].
      split; [intros Hok; exact (registry_ok_after_open device w w' Hok Hd Hh Hb Hhd Ho)|].
      split; [exact Hsur|]. split; [exact Hv|]. split.
      { intros d Hne. rewrite Hd. apply lookup_insert_ne. congruence. }
      split; [intros p [=]|]. split.
      * intros _ _. split; [discriminate|]. split; [|exact Htr].
        rewrite Hd. apply lookup_insert_eq.
      * intros _ Hbad. contradiction.
    + eexists _, _. split; [apply lookup_open_fails; assumption|].
      split; [intros Hok; exact (registry_ok_same _ _
                                   ltac:(repeat split; reflexivity) Hok)|].
      split; [repeat split; reflexivity|]. split; [reflexivity|].
      split; [intros d _; reflexivity|]. split; [intros p [=]|]. split.
      * intros _ Hbad. contradiction.
      * intros _ _. split; [reflexivity|]. split; [exact Hm|reflexivity].
Qed.

(** X7.  [LookupOrCreateDevice] keeps the registry sound, touches no key but its
    own, and tells the caller the truth: it returns [NULL] exactly when the
    device was not tracked and the backend refused to open it, and any other
    pointer it returns is the wrapper the registry now holds for the device,
    a live object around a native handle open on that device. *)
Theorem LookupOrCreateDevice_sound device w :
  registry_ok w ->
  exists r w',
    LookupOrCreateDevice device w = Done r w' /\
    registry_ok w' /\
    (forall d, d <> device -> devices_ (service w') !! d = devices_ (service w) !! d) /\
    (r = NULL <->
     devices_ (service w) !! device = None /\
     be_open_code (backend w) (be_clock (backend w)) device <> 0) /\
    (r = NULL -> devices_ (service w') !! device = None) /\
    (r <> NULL ->
     devices_ (service w') !! device = Some r /\
     exists obj,
       device_handles w' !! r = Some obj /\
       be_handle_dev (backend w') !! handle_ obj = Some device /\
       handle_ obj ∈ be_open_handles (backend w')).
Proof.
  intros Hok.
  destruct (LookupOrCreateDevice_step device w)
    as (r & w' & Hrun & Hkeep & _ & _ & Hother & Htracked & Hopened & Hrefused).
  pose proof (Hkeep Hok) as Hok'.
  exists r, w'. split; [exact Hrun|]. split; [exact Hok'|]. split; [exact Hother|].
  assert (Hcases :
    (r = NULL /\ devices_ (service w') !! device = None /\
     devices_ (service w) !! device = None /\
     be_open_code (backend w) (be_clock (backend w)) device <> 0) \/
    (r <> NULL /\ devices_ (service w') !! device = Some r)).
  { destruct (devices_ (service w) !! device) as [p|] eqn:Hm.
    - destruct (Htracked p eq_refl) as [-> ->]. right.
      split; [exact (registry_ok_not_null w device p Hok Hm)|exact Hm].
    - destruct (Z.eq_dec (be_open_code (backend w) (be_clock (backend w)) device) 0)
        as [Hcode|Hcode].
      + destruct (Hopened eq_refl Hcode) as (Hr & Hm' & _). right. split; assumption.
      + destruct (Hrefused eq_refl Hcode) as (Hr & Hm' & _). left.
        repeat split; assumption. }
  destruct Hcases as [(Hr & Hnone' & Hnone & Hcode)|(Hr & Hsome)].
  - split; [split; [intros _; split; assumption|intros _; exact Hr]|].
    split; [intros _; exact Hnone'|]. intros Hbad. contradiction.
  - split; [split; [intros Hbad; contradiction|]|].
    + intros [Hnone Hcode].
      destruct (devices_ (service w) !! device) as [p|] eqn:Hm; [discriminate Hnone|].
      destruct (Hrefused eq_refl Hcode) as (Hnull & _). exact Hnull.
    + split; [intros Hbad; contradiction|]. intros _. split; [exact Hsome|].
      destruct Hok' as (Htr' & _). exact (Htr' device r Hsome).
Qed.

Lemma registry_ok_enumerated_world : registry_ok enumerated_world.
Proof. concrete_registry. Qed.

Lemma registry_ok_closed_world : registry_ok closed_world.
Proof. concrete_registry. Qed.

Lemma registry_ok_reopened_world : registry_ok reopened_world.
Proof. concrete_registry. Qed.

Lemma LookupOrCreateDevice_sound_witness :
  exists r w',
    LookupOrCreateDevice 100 closed_world = Done r w' /\
    registry_ok w' /\
    (forall d, d <> 100 ->
       devices_ (service w') !! d = devices_ (service closed_world) !! d) /\
    (r = NULL <->
     devices_ (service closed_world) !! 100 = None /\
     be_open_code (backend closed_world) (be_clock (backend closed_world)) 100 <> 0) /\
    (r = NULL -> devices_ (service w') !! 100 = None) /\
    (r <> NULL ->
     devices_ (service w') !! 100 = Some r /\
     exists obj,
       device_handles w' !! r = Some obj /\
       be_handle_dev (backend w') !! handle_ obj = Some 100 /\
       handle_ obj ∈ be_open_handles (backend w')).
Proof.
  apply (LookupOrCreateDevice_sound 100 closed_world).
  exact registry_ok_closed_world.
Defined.

(** The untracked branch of [CloseDevice] writes one log line. *)
Lemma close_untracked_world cfg device obj platform_device w :
  event_handler_ (service w) <> NULL ->
  device_handles w !! device = Some obj ->
  be_handle_dev (backend w) !! handle_ obj = Some platform_device ->
  devices_ (service w) !! platform_device = None ->
  CloseDevice cfg device w
  = Done tt
      (with_trace
         (cons (EvLogWarning "CloseDevice called for device we're not tracking!")) w).
Proof.
  intros Halive Hobj Hdev Hnone.
  unfold CloseDevice, UsbDeviceHandle_handle, libusb_get_device, LOG_WARNING,
    emit, bind, gets, modify. simpl.
  rewrite (not_null_eqb _ Halive), DCHECK_passes, Hobj. simpl.
  rewrite Hdev. simpl. rewrite (ContainsKey_None _ _ Hnone). reflexivity.
Qed.

(** The world [CloseDevice] leaves on its tracked branch, field by field. *)
Lemma CloseDevice_tracked_world cfg device obj platform_device wrapper w :
  event_handler_ (service w) <> NULL ->
  device_handles w !! device = Some obj ->
  be_handle_dev (backend w) !! handle_ obj = Some platform_device ->
  devices_ (service w) !! platform_device = Some wrapper ->
  exists w',
    CloseDevice cfg device w = Done tt w' /\
    devices_ (service w') = delete platform_device (devices_ (service w)) /\
    device_handles w' = device_handles w /\
    brk w' = brk w /\
    be_handle_dev (backend w') = be_handle_dev (backend w) /\
    be_open_handles (backend w') = be_open_handles (backend w) ∖ {[handle_ obj]} /\
    (forall x, be_refs (backend w') x
               = be_refs (backend w) x - one platform_device x) /\
    vectors w' = vectors w /\
    trace w' = EvClose (handle_ obj) :: trace w /\
    same_surroundings w w'.
Proof.
  intros Halive Hobj Hdev Hsome. eexists. split.
  - unfold CloseDevice, UsbDeviceHandle_handle, libusb_get_device, libusb_close,
      emit, bind, gets, modify. simpl.
    rewrite (not_null_eqb _ Halive), DCHECK_passes, Hobj. simpl.
    rewrite Hdev. simpl. rewrite (ContainsKey_Some _ _ _ Hsome). simpl.
    rewrite Hobj. simpl. rewrite Hdev. reflexivity.
  - simpl. repeat split; try reflexivity.
    intros x. unfold bump, one. destruct (Z.eqb x platform_device); lia.
Qed.

Lemma registry_ok_after_close handle platform_device w w' :
  registry_ok w ->
  be_handle_dev (backend w) !! handle = Some platform_device ->
  devices_ (service w') = delete platform_device (devices_ (service w)) ->
  device_handles w' = device_handles w ->
  brk w' = brk w ->
  be_handle_dev (backend w') = be_handle_dev (backend w) ->
  be_open_handles (backend w') = be_open_handles (backend w) ∖ {[handle]} ->
  registry_ok w'.
Proof.
  intros (Htracked & Hobjs & Hhandles) Hdev Hd Hh Hb Hhd Ho.
  unfold registry_ok. rewrite Hd, Hh, Hb, Hhd, Ho.
  split; [|split; [exact Hobjs|exact Hhandles]].
  intros d p Hlook. apply lookup_delete_Some in Hlook as [Hne Hlook].
  destruct (Htracked d p Hlook) as (obj' & Hobj' & Hdev' & Hopen').
  exists obj'. split; [exact Hobj'|]. split; [exact Hdev'|].
  apply elem_of_difference. split; [exact Hopen'|].
  intros Hsame. apply elem_of_singleton in Hsame.
  rewrite Hsame, Hdev in Hdev'. congruence.
Qed.

(** X8.  [CloseDevice] keeps the registry sound whatever wrapper it is given,
    and touches no key but the device of that wrapper's native handle. *)
Theorem CloseDevice_keeps_registry cfg device obj platform_device w :
  registry_ok w ->
  event_handler_ (service w) <> NULL ->
  device_handles w !! device = Some obj ->
  be_handle_dev (backend w) !! handle_ obj = Some platform_device ->
  exists w',
    CloseDevice cfg device w = Done tt w' /\
    registry_ok w' /\
    devices_ (service w') = delete platform_device (devices_ (service w)).
Proof.
  intros Hok Halive Hobj Hdev.
  destruct (devices_ (service w) !! platform_device) as [wrapper|] eqn:Hm.
  - destruct (CloseDevice_tracked_world cfg device obj platform_device wrapper w
                Halive Hobj Hdev Hm)
      as (w' & Hrun & Hd & Hh & Hb & Hhd & Ho & _).
    exists w'. split; [exact Hrun|]. split; [|exact Hd].
    exact (registry_ok_after_close _ _ w w' Hok Hdev Hd Hh Hb Hhd Ho).
  - pose proof (close_untracked_world cfg device obj platform_device w
                  Halive Hobj Hdev Hm) as Hrun.
    eexists. split; [exact Hrun|]. split.
    + exact (registry_ok_same _ _ ltac:(repeat split; reflexivity) Hok).
    + simpl. symmetry. apply delete_id. exact Hm.
Qed.

Lemma CloseDevice_keeps_registry_witness :
  exists w',
    CloseDevice (sample_build false true) 4 reopened_world = Done tt w' /\
    registry_ok w' /\
    devices_ (service w') = delete 100 (devices_ (service reopened_world)).
Proof.
  apply (CloseDevice_keeps_registry (sample_build false true) 4 {| handle_ := 3 |} 100
           reopened_world).
  - exact registry_ok_reopened_world.
  - vm_compute. lia.
  - vm_compute. reflexivity.
  - vm_compute. reflexivity.
Defined.

(** ** Closing twice, closing what was just opened, closing a stale wrapper *)

(** X9.  Closing the same wrapper twice closes its native handle once: the
    second call finds the device untracked and only logs the warning. *)
Theorem CloseDevice_twice_closes_once cfg device obj platform_device wrapper w :
  event_handler_ (service w) <> NULL ->
  device_handles w !! device = Some obj ->
  be_handle_dev (backend w) !! handle_ obj = Some platform_device ->
  devices_ (service w) !! platform_device = Some wrapper ->
  exists w1 w2,
    CloseDevice cfg device w = Done tt w1 /\
    CloseDevice cfg device w1 = Done tt w2 /\
    trace w2 = EvLogWarning "CloseDevice called for device we're not tracking!"
               :: EvClose (handle_ obj) :: trace w /\
    devices_ (service w2) = delete platform_device (devices_ (service w)) /\
    backend w2 = backend w1.
Proof.
  intros Halive Hobj Hdev Hsome.
  destruct (CloseDevice_tracked_world cfg device obj platform_device wrapper w
              Halive Hobj Hdev Hsome)
    as (w1 & Hrun & Hd & Hh & _ & Hhd & _ & _ & _ & Htr & Hsur).
  destruct Hsur as (_ & Heh & _).
  assert (Hgone : devices_ (service w1) !! platform_device = None)
    by (rewrite Hd; apply lookup_delete_eq).
  rewrite <- Heh in Halive. rewrite <- Hh in Hobj. rewrite <- Hhd in Hdev.
  pose proof (close_untracked_world cfg device obj platform_device w1
                Halive Hobj Hdev Hgone) as Hrun2.
  eexists w1, _. split; [exact Hrun|]. split; [exact Hrun2|]. simpl.
  rewrite Htr, Hd. repeat split; reflexivity.
Qed.

Lemma CloseDevice_twice_closes_once_witness :
  exists w1 w2,
    CloseDevice (sample_build false true) 4 enumerated_world = Done tt w1 /\
    CloseDevice (sample_build false true) 4 w1 = Done tt w2 /\
    trace w2 = EvLogWarning "CloseDevice called for device we're not tracking!"
               :: EvClose 3 :: trace enumerated_world /\
    devices_ (service w2) = delete 100 (devices_ (service enumerated_world)) /\
    backend w2 = backend w1.
Proof.
  apply (CloseDevice_twice_closes_once (sample_build false true) 4 {| handle_ := 3 |}
           100 4 enumerated_world).
  - vm_compute. lia.
  - vm_compute. reflexivity.
  - vm_compute. reflexivity.
  - vm_compute. reflexivity.
Defined.

(** X10.  Opening an untracked device and closing the wrapper that came back puts
    the registry and every reference count back where they were; the native
    handle that the open produced is closed again. *)
Theorem open_then_close_restores cfg device w :
  event_handler_ (service w) <> NULL ->
  devices_ (service w) !! device = None ->
  be_open_code (backend w) (be_clock (backend w)) device = 0 ->
  exists wrapper w1 w2,
    LookupOrCreateDevice device w = Done wrapper w1 /\
    CloseDevice cfg wrapper w1 = Done tt w2 /\
    devices_ (service w2) = devices_ (service w) /\
    (forall x, be_refs (backend w2) x = be_refs (backend w) x) /\
    (Z.pos (brk w) ∉ be_open_handles (backend w2)) /\
    trace w2 = EvClose (Z.pos (brk w)) :: EvOpen device 0 :: trace w.
Proof.
  intros Halive Hnone Hcode.
  destruct (lookup_open_succeeds_world device w Hnone Hcode)
    as (w1 & Hrun & Hd & Hh & _ & Hhd & Ho & _ & Htr & Hsur & Hrefs).
  destruct Hsur as (_ & Heh & _).
  assert (Hobj : device_handles w1 !! Z.pos (Pos.succ (brk w))
                 = Some {| handle_ := Z.pos (brk w) |})
    by (rewrite Hh; apply lookup_insert_eq).
  assert (Hdev : be_handle_dev (backend w1) !! handle_ {| handle_ := Z.pos (brk w) |}
                 = Some device)
    by (rewrite Hhd; apply lookup_insert_eq).
  assert (Htracked : devices_ (service w1) !! device = Some (Z.pos (Pos.succ (brk w))))
    by (rewrite Hd; apply lookup_insert_eq).
  rewrite <- Heh in Halive.
  destruct (CloseDevice_tracked_world cfg _ _ device _ w1 Halive Hobj Hdev Htracked)
    as (w2 & Hrun2 & Hd2 & _ & _ & _ & Ho2 & Hrefs2 & _ & Htr2 & _).
  exists (Z.pos (Pos.succ (brk w))), w1, w2.
  split; [exact Hrun|]. split; [exact Hrun2|]. split.
  - rewrite Hd2, Hd. apply delete_insert_id, Hnone.
  - split; [intros x; rewrite Hrefs2, Hrefs; lia|]. split.
    + rewrite Ho2. intros Hin. apply elem_of_difference in Hin as [_ Hout].
      apply Hout, elem_of_singleton. reflexivity.
    + rewrite Htr2, Htr. reflexivity.
Qed.

Lemma open_then_close_restores_witness :
  exists wrapper w1 w2,
    LookupOrCreateDevice 100 started_world = Done wrapper w1 /\
    CloseDevice (sample_build false true) wrapper w1 = Done tt w2 /\
    devices_ (service w2) = devices_ (service started_world) /\
    (forall x, be_refs (backend w2) x = be_refs (backend started_world) x) /\
    (Z.pos (brk started_world) ∉ be_open_handles (backend w2)) /\
    trace w2 = EvClose (Z.pos (brk started_world)) :: EvOpen 100 0
               :: trace started_world.
Proof.
  apply (open_then_close_restores (sample_build false true) 100 started_world).
  - vm_compute. lia.
  - reflexivity.
  - reflexivity.
Defined.

(** X11.  Closing through a stale wrapper: when the device of the wrapper's native
    handle is tracked under another wrapper, [CloseDevice] evicts that other
    wrapper and asks the backend to close the stale handle, and no other;
    the native handle of the evicted wrapper stays open in the backend and
    is no longer reachable through the registry.  What becomes of the
    evicted wrapper object itself is left open: it goes with its last
    reference. *)
Theorem CloseDevice_stale_wrapper cfg stale obj platform_device current obj' w :
  event_handler_ (service w) <> NULL ->
  device_handles w !! stale = Some obj ->
  be_handle_dev (backend w) !! handle_ obj = Some platform_device ->
  devices_ (service w) !! platform_device = Some current ->
  device_handles w !! current = Some obj' ->
  handle_ obj' <> handle_ obj ->
  handle_ obj' ∈ be_open_handles (backend w) ->
  exists w',
    CloseDevice cfg stale w = Done tt w' /\
    devices_ (service w') !! platform_device = None /\
    trace w' = EvClose (handle_ obj) :: trace w /\
    handle_ obj' ∈ be_open_handles (backend w').
Proof.
  intros Halive Hobj Hdev Hsome Hcur Hdiff Hopen.
  destruct (CloseDevice_tracked_world cfg stale obj platform_device current w
              Halive Hobj Hdev Hsome)
    as (w' & Hrun & Hd & _ & _ & _ & Ho & _ & _ & Htr & _).
  exists w'. split; [exact Hrun|].
  split; [rewrite Hd; apply lookup_delete_eq|]. split; [exact Htr|].
  rewrite Ho. apply elem_of_difference. split; [exact Hopen|].
  intros Hin. apply elem_of_singleton in Hin. contradiction.
Qed.

Lemma CloseDevice_stale_wrapper_witness :
  exists w',
    CloseDevice (sample_build false true) 4 reopened_world = Done tt w' /\
    devices_ (service w') !! 100 = None /\
    trace w' = EvClose (handle_ {| handle_ := 3 |}) :: trace reopened_world /\
    handle_ {| handle_ := 7 |} ∈ be_open_handles (backend w').
Proof.
  apply (CloseDevice_stale_wrapper (sample_build false true) 4 {| handle_ := 3 |} 100 8
           {| handle_ := 7 |} reopened_world).
  - vm_compute. lia.
  - vm_compute. reflexivity.
  - vm_compute. reflexivity.
  - vm_compute. reflexivity.
  - vm_compute. reflexivity.
  - vm_compute. lia.
  - vm_compute. reflexivity.
Defined.

(** ** Traversals of the snapshot *)

(** Asking the registry for a device and appending the wrapper it returns,
    as both loops over the snapshot do. *)
Lemma lookup_push_visits devices d w :
  wp (wrapper <- LookupOrCreateDevice d ;;
      if negb (Z.eqb wrapper NULL) then vector_push_back devices wrapper
      else ret tt)
     (fun _ w' => visit_step devices true d w w') w.
Proof.
  destruct (LookupOrCreateDevice_step d w)
    as (r & w1 & Hrun & Hkeep & Hsur & Hv & Hother & Htracked & Hopened & Hrefused).
  apply wp_bind. unfold wp at 1. rewrite Hrun.
  assert (Hshape :
    forall w', (w' = w1 /\ Z.eqb r NULL = true) \/
               (w' = with_vectors (fun v => store_vector devices (v devices ++ [r]) v) w1 /\
                Z.eqb r NULL = false) ->
               visit_step devices true d w w').
  { intros w' Hw'.
    assert (Hw1 : (registry_ok w1 -> registry_ok w') /\ same_surroundings w1 w' /\
                  trace w' = trace w1 /\
                  devices_ (service w') = devices_ (service w1) /\
                  (forall q, q <> devices -> vectors w' q = vectors w1 q) /\
                  vectors w' devices
                  = vectors w1 devices ++ (if Z.eqb r NULL then [] else [r])).
    { destruct Hw' as [[-> ->]|[-> ->]].
      - split; [auto|]. split; [apply same_surroundings_refl|].
        split; [reflexivity|]. split; [reflexivity|]. split; [reflexivity|].
        rewrite app_nil_r. reflexivity.
      - split; [intros Hok; exact (registry_ok_same _ _
                                     ltac:(repeat split; reflexivity) Hok)|].
        split; [repeat split; reflexivity|]. split; [reflexivity|].
        split; [reflexivity|]. split.
        + intros q Hq. simpl. unfold store_vector.
          rewrite (proj2 (Z.eqb_neq _ _) Hq). reflexivity.
        + simpl. unfold store_vector. rewrite Z.eqb_refl. reflexivity. }
    destruct Hw1 as (Hkeep' & Hsur' & Htr' & Hd' & Hvq' & Hvd').
    assert (Htrace :
      trace w1 = trace w \/
      exists code, trace w1 = EvOpen d code :: trace w \/
                   trace w1 = EvLogWarning "Could not open device."
                              :: EvOpen d code :: trace w).
    { destruct (devices_ (service w) !! d) as [p|] eqn:Hm.
      - destruct (Htracked p eq_refl) as [_ ->]. left. reflexivity.
      - destruct (Z.eq_dec (be_open_code (backend w) (be_clock (backend w)) d) 0)
          as [Hcode|Hcode].
        + destruct (Hopened eq_refl Hcode) as (_ & _ & Ht). right. eexists. left. exact Ht.
        + destruct (Hrefused eq_refl Hcode) as (_ & _ & Ht). right. eexists. right.
          exact Ht. }
    unfold visit_step.
    split; [intros Hok; exact (Hkeep' (Hkeep Hok))|].
    split; [exact (same_surroundings_trans _ _ _ Hsur Hsur')|].
    split; [intros q Hq; rewrite (Hvq' q Hq), Hv; reflexivity|].
    split; [intros d' Hne; rewrite Hd'; exact (Hother d' Hne)|].
    split.
    { intros d' Hne. unfold open_calls. rewrite Htr'.
      destruct Htrace as [->|[code [->| ->]]]; simpl;
        rewrite ?(proj2 (Z.eqb_neq d d')) by congruence; reflexivity. }
    split.
    { rewrite Htr'. destruct Htrace as [->|[code [->| ->]]]; reflexivity. }
    split.
    { intros cb. unfold callback_runs. rewrite Htr'.
      destruct Htrace as [->|[code [->| ->]]]; reflexivity. }
    destruct (devices_ (service w) !! d) as [p|] eqn:Hm.
    - destruct (Htracked p eq_refl) as [-> ->].
      split; [rewrite Hd'; exact Hm|]. split; [unfold open_calls; rewrite Htr'; reflexivity|].
      exact Hvd'.
    - destruct (Z.eq_dec (be_open_code (backend w) (be_clock (backend w)) d) 0)
        as [Hcode|Hcode].
      + destruct (Hopened eq_refl Hcode) as (Hr & Hsome & _). left.
        exists r, (be_clock (backend w)). split; [exact Hr|]. split; [exact Hcode|].
        split; [rewrite Hd'; exact Hsome|].
        rewrite Hvd', Hv, (proj2 (Z.eqb_neq _ _) Hr). reflexivity.
      + destruct (Hrefused eq_refl Hcode) as (-> & Hnone & _). right.
        exists (be_clock (backend w)). split; [exact Hcode|].
        split; [rewrite Hd'; exact Hnone|].
        rewrite Hvd', Hv. simpl. apply app_nil_r. }
  destruct (Z.eqb r NULL) eqn:Hr; simpl.
  - apply Hshape. left. split; reflexivity.
  - apply Hshape. right. split; reflexivity.
Qed.

Lemma descriptor_matches_now vendor_id product_id d w :
  steady_descriptors w ->
  (if negb (Z.eqb (fst (be_descriptor (backend w) (be_clock (backend w)) d)) 0)
   then false
   else Z.eqb (idVendor (snd (be_descriptor (backend w) (be_clock (backend w)) d)))
              vendor_id
        && Z.eqb (idProduct (snd (be_descriptor (backend w) (be_clock (backend w)) d)))
                 product_id)
  = descriptor_matches w vendor_id product_id d.
Proof.
  intros Hsteady. unfold descriptor_matches. rewrite (Hsteady (be_clock (backend w)) d).
  destruct (Z.eqb (fst (be_descriptor (backend w) O d)) 0); reflexivity.
Qed.

(** One round of the loop of [FindDevicesImpl] when descriptors are
    steady: the device is visited exactly when its descriptor matches. *)
Lemma FindDevicesImpl_body_visits vendor_id product_id devices it w :
  steady_descriptors w ->
  wp (matches <- DeviceMatches (RefCountedPlatformUsbDevice_device it)
                   vendor_id product_id ;;
      if matches then
        wrapper <- LookupOrCreateDevice (RefCountedPlatformUsbDevice_device it) ;;
        if negb (Z.eqb wrapper NULL) then vector_push_back devices wrapper
        else ret tt
      else ret tt)
     (fun _ w' =>
        visit_step devices (descriptor_matches w vendor_id product_id (device_ it))
          (device_ it) w w') w.
Proof.
  intros Hsteady. apply wp_bind. unfold wp at 1. rewrite DeviceMatches_runs.
  unfold RefCountedPlatformUsbDevice_device.
  rewrite (descriptor_matches_now vendor_id product_id (device_ it) w Hsteady).
  set (w1 := with_trace _ (with_backend be_tick w)).
  destruct (descriptor_matches w vendor_id product_id (device_ it)).
  - eapply wp_mono; [apply (lookup_push_visits devices (device_ it) w1)|].
    intros ? w' Hstep. exact Hstep.
  - unfold wp, ret, visit_step.
    split; [intros Hok; exact Hok|]. split; [repeat split; reflexivity|].
    repeat split; reflexivity.
Qed.

Lemma visit_all_nil devices w : registry_ok w -> visit_all devices [] w w.
Proof.
  intros Hok. unfold visit_all, tracked_wrappers. simpl.
  split; [exact Hok|]. split; [apply same_surroundings_refl|].
  split; [reflexivity|]. split; [auto|]. split; [rewrite app_nil_r; reflexivity|].
  split; [|repeat split; reflexivity].
  intros d Hnone. rewrite Hnone. split.
  - intros [x Hx]. discriminate Hx.
  - intros [Hin _]. apply elem_of_nil in Hin. contradiction.
Qed.

(** A round that does not select its device, followed by a loop. *)
Lemma visit_all_skip devices d visited w w1 w' :
  visit_step devices false d w w1 ->
  visit_all devices visited w1 w' ->
  visit_all devices visited w w'.
Proof.
  intros (_ & Hsur1 & Hvq1 & Hoth1 & Hop1 & Hcl1 & Hcb1 & Hsame & Hopd & Hvd)
         (Hok' & Hsur' & Hvq' & Hmono' & Hvec' & Hiff' & Hopen' & Hcl' & Hcb').
  assert (Hlook : forall d', devices_ (service w1) !! d' = devices_ (service w) !! d').
  { intros d'. destruct (Z.eq_dec d' d) as [->|Hne]; [exact Hsame|exact (Hoth1 d' Hne)]. }
  assert (Hopens : forall d', open_calls d' w1 = open_calls d' w).
  { intros d'. destruct (Z.eq_dec d' d) as [->|Hne]; [exact Hopd|exact (Hop1 d' Hne)]. }
  assert (Hcode : be_open_code (backend w1) = be_open_code (backend w))
    by (destruct Hsur1 as (_ & _ & _ & _ & Hc & _); exact Hc).
  unfold visit_all.
  split; [exact Hok'|]. split; [exact (same_surroundings_trans _ _ _ Hsur1 Hsur')|].
  split; [intros q Hq; rewrite (Hvq' q Hq); exact (Hvq1 q Hq)|].
  split; [intros d' p Hm; apply Hmono'; rewrite Hlook; exact Hm|].
  split; [rewrite Hvec', Hvd; reflexivity|].
  split; [intros d' Hnone; rewrite <- Hcode; apply Hiff'; rewrite Hlook; exact Hnone|].
  split; [intros d' Hd'; rewrite <- Hopens; apply Hopen'; rewrite Hlook; exact Hd'|].
  split; [rewrite Hcl'; exact Hcl1|].
  intros cb. rewrite Hcb'. apply Hcb1.
Qed.

(** A round that selects its device, followed by a loop. *)
Lemma visit_all_visit devices d visited w w1 w' :
  registry_ok w ->
  steady_opens w (d :: visited) ->
  visit_step devices true d w w1 ->
  visit_all devices visited w1 w' ->
  visit_all devices (d :: visited) w w'.
Proof.
  intros Hok Hsteady
         (_ & Hsur1 & Hvq1 & Hoth1 & Hop1 & Hcl1 & Hcb1 & Hcase)
         (Hok' & Hsur' & Hvq' & Hmono' & Hvec' & Hiff' & Hopen' & Hcl' & Hcb').
  assert (Hcode : be_open_code (backend w1) = be_open_code (backend w))
    by (destruct Hsur1 as (_ & _ & _ & _ & Hc & _); exact Hc).
  (* what the round did with [d], in terms of the final world *)
  assert (Hd :
    exists pushed,
      vectors w1 devices = vectors w devices ++ pushed /\
      tracked_wrappers w' (d :: visited) = pushed ++ tracked_wrappers w' visited /\
      (forall p, devices_ (service w) !! d = Some p ->
         devices_ (service w1) !! d = Some p /\ open_calls d w1 = open_calls d w) /\
      (devices_ (service w) !! d = None ->
         (is_Some (devices_ (service w') !! d) <-> be_open_code (backend w) O d = 0))).
  { unfold tracked_wrappers. simpl.
    destruct (devices_ (service w) !! d) as [p|] eqn:Hm.
    - destruct Hcase as (Hm1 & Hopd & Hvd).
      exists [p]. rewrite (Hmono' d p Hm1). simpl.
      rewrite (proj2 (Z.eqb_neq _ _) (registry_ok_not_null w d p Hok Hm)) in Hvd.
      split; [exact Hvd|]. split; [reflexivity|].
      split; [intros p' [= <-]; split; assumption|intros [=]].
    - assert (Hzero : forall t, be_open_code (backend w) t d
                                = be_open_code (backend w) O d).
      { intros t. apply Hsteady; [apply elem_of_cons; left; reflexivity|exact Hm]. }
      destruct Hcase as [(p & t & Hp & Ht & Hm1 & Hvd)|(t & Ht & Hm1 & Hvd)].
      + exists [p]. rewrite (Hmono' d p Hm1). simpl.
        split; [exact Hvd|]. split; [reflexivity|]. split; [intros p' [=]|].
        intros _. split; [intros _; rewrite <- (Hzero t); exact Ht|].
        intros _. exists p. reflexivity.
      + assert (Hstays : devices_ (service w') !! d = None).
        { destruct (devices_ (service w') !! d) as [p|] eqn:Hm'; [|reflexivity].
          exfalso. apply Ht. rewrite (Hzero t), <- Hcode.
          apply (proj1 (Hiff' d Hm1)). exists p. exact Hm'. }
        exists []. rewrite Hstays. simpl.
        split; [rewrite Hvd, app_nil_r; reflexivity|]. split; [reflexivity|].
        split; [intros p' [=]|].
        intros _. split.
        * intros [x Hx]. discriminate Hx.
        * intros Hz. exfalso. apply Ht. rewrite (Hzero t). exact Hz. }
  destruct Hd as (pushed & Hvd & Htw & Htracked & Huntracked).
  assert (Hmono1 : forall d' p, devices_ (service w) !! d' = Some p ->
                                devices_ (service w1) !! d' = Some p).
  { intros d' p Hm. destruct (Z.eq_dec d' d) as [->|Hne].
    - exact (proj1 (Htracked p Hm)).
    - rewrite (Hoth1 d' Hne). exact Hm. }
  unfold visit_all.
  split; [exact Hok'|]. split; [exact (same_surroundings_trans _ _ _ Hsur1 Hsur')|].
  split; [intros q Hq; rewrite (Hvq' q Hq); exact (Hvq1 q Hq)|].
  split; [intros d' p Hm; exact (Hmono' d' p (Hmono1 d' p Hm))|].
  split; [rewrite Hvec', Hvd, Htw, app_assoc; reflexivity|].
  split.
  { intros d' Hnone. destruct (Z.eq_dec d' d) as [->|Hne].
    - rewrite (Huntracked Hnone). split.
      + intros Hz. split; [apply elem_of_cons; left; reflexivity|exact Hz].
      + intros [_ Hz]. exact Hz.
    - rewrite <- (Hoth1 d' Hne) in Hnone. rewrite (Hiff' d' Hnone), Hcode.
      rewrite elem_of_cons. split.
      + intros [Hin Hz]. split; [right; exact Hin|exact Hz].
      + intros [[Heq|Hin] Hz]; [contradiction|]. split; assumption. }
  split.
  { intros d' Hd'. destruct (Z.eq_dec d' d) as [->|Hne].
    - destruct Hd' as [[p Hm]|Hout].
      + destruct (Htracked p Hm) as [Hm1 Hopd]. rewrite <- Hopd.
        apply Hopen'. left. exists p. exact Hm1.
      + exfalso. apply Hout, elem_of_cons. left. reflexivity.
    - rewrite <- (Hop1 d' Hne). apply Hopen'. destruct Hd' as [[p Hm]|Hout].
      + left. exists p. exact (Hmono1 d' p Hm).
      + right. intros Hin. apply Hout, elem_of_cons. right. exact Hin. }
  split; [rewrite Hcl'; exact Hcl1|].
  intros cb. rewrite Hcb'. apply Hcb1.
Qed.

(** Any loop whose rounds are [visit_step]s, run on a sound registry while
    the backend's answers to opens are steady. *)
Lemma visit_loop devices (sel : Z -> bool) (J : World -> Prop)
    (body : RefCountedPlatformUsbDevice -> M unit) :
  (forall w w', J w -> same_surroundings w w' -> J w') ->
  (forall it w, J w ->
     wp (body it)
        (fun _ w' => visit_step devices (sel (device_ it)) (device_ it) w w') w) ->
  forall items w,
    J w -> registry_ok w ->
    steady_opens w (filter (fun d => sel d = true) (map device_ items)) ->
    wp (for_each items body)
       (fun _ w' =>
          visit_all devices (filter (fun d => sel d = true) (map device_ items)) w w') w.
Proof.
  intros HJ Hbody. induction items as [|it rest IH]; intros w Hw Hok Hsteady.
  - apply wp_ret. apply visit_all_nil, Hok.
  - simpl for_each. apply wp_bind. eapply wp_mono; [apply Hbody, Hw|].
    intros ? w1 Hstep.
    pose proof Hstep as (Hkeep & Hsur1 & _ & Hoth1 & _).
    assert (Hcode : be_open_code (backend w1) = be_open_code (backend w))
      by (destruct Hsur1 as (_ & _ & _ & _ & Hc & _); exact Hc).
    assert (Hnone1 : forall d', devices_ (service w1) !! d' = None ->
                                devices_ (service w) !! d' = None).
    { intros d' Hn. destruct (devices_ (service w) !! d') as [p|] eqn:Hm; [|reflexivity].
      exfalso. destruct (Z.eq_dec d' (device_ it)) as [->|Hne].
      - destruct Hstep as (_ & _ & _ & _ & _ & _ & _ & Hcase).
        rewrite Hm in Hcase. destruct (sel (device_ it)).
        + destruct Hcase as (Hm1 & _). congruence.
        + destruct Hcase as (Hm1 & _). congruence.
      - rewrite (Hoth1 d' Hne) in Hn. congruence. }
    simpl map in *. rewrite filter_cons in *.
    destruct (sel (device_ it)) eqn:Hsel.
    + rewrite decide_True in * by reflexivity.
      eapply wp_mono.
      * apply IH; [exact (HJ _ _ Hw Hsur1)|exact (Hkeep Hok)|].
        intros d' t Hin Hn. rewrite Hcode.
        apply Hsteady; [apply elem_of_cons; right; exact Hin|exact (Hnone1 d' Hn)].
      * intros ? w' Hall. exact (visit_all_visit _ _ _ _ _ _ Hok Hsteady Hstep Hall).
    + rewrite decide_False in * by discriminate.
      eapply wp_mono.
      * apply IH; [exact (HJ _ _ Hw Hsur1)|exact (Hkeep Hok)|].
        intros d' t Hin Hn. rewrite Hcode.
        apply Hsteady; [exact Hin|exact (Hnone1 d' Hn)].
      * intros ? w' Hall. exact (visit_all_skip _ _ _ _ _ _ Hstep Hall).
Qed.

Lemma refcount_event_not_open d e :
  is_refcount_event e = true -> is_open_of d e = false.
Proof. destruct e; simpl; intros H; try discriminate H; reflexivity. Qed.

Lemma refcount_event_not_close e :
  is_refcount_event e = true -> is_any_close e = false.
Proof. destruct e; simpl; intros H; try discriminate H; reflexivity. Qed.

Lemma refcount_step_backend_only f w w' : refcount_step f w w' -> backend_only w w'.
Proof.
  intros Hstep.
  destruct (refcount_step_same_registry _ _ _ Hstep) as [Hreg Hsur].
  destruct (refcount_step_frame _ _ _ Hstep) as (_ & Hvec & _).
  split; [exact Hreg|]. split; [exact Hsur|]. split; [exact Hvec|].
  split; [intros d; exact (refcount_step_count _ _ _ _ (refcount_event_not_open d) Hstep)|].
  split; [exact (refcount_step_count _ _ _ _ refcount_event_not_close Hstep)|].
  intros cb. exact (refcount_step_count _ _ _ _ (refcount_event_not_run cb) Hstep).
Qed.

(** Two worlds with the same fields are the same. *)
Lemma World_ext (w1 w2 : World) :
  service w1 = service w2 -> backend w1 = backend w2 ->
  event_handlers w1 = event_handlers w2 -> device_handles w1 = device_handles w2 ->
  brk w1 = brk w2 -> vectors w1 = vectors w2 ->
  running_on_chromeos w1 = running_on_chromeos w2 ->
  permission_broker_client w1 = permission_broker_client w2 ->
  broker_requests w1 = broker_requests w2 -> trace w1 = trace w2 ->
  w1 = w2.
Proof. destruct w1, w2. simpl. intros. subst. reflexivity. Qed.


(** The shape of the world [EnumerateDevicesImpl] leaves: the backend's
    clock has ticked, reference counts have moved, the trace has grown. *)
Lemma EnumerateDevicesImpl_shape cfg w :
  context_ (service w) ∈ be_contexts (backend w) ->
  wp (EnumerateDevicesImpl cfg DeviceVector_empty)
     (fun _ w' =>
        exists evs r,
          w' = with_trace (app evs)
                 (with_backend (fun b => be_set_refs r (be_tick b)) w)) w.
Proof.
  intros Hlive.
  unfold EnumerateDevicesImpl, STLClearObject, DeviceVector_delete, destroy_tokens.
  apply wp_bind. simpl for_each. apply wp_bind. apply wp_ret. apply wp_ret.
  apply wp_bind. unfold gets at 1, wp at 1.
  apply wp_bind. unfold libusb_get_device_list.
  apply wp_bind. unfold gets at 1, wp at 1.
  rewrite (decide_True _ _ Hlive).
  apply wp_bind. unfold modify at 1, wp at 1.
  destruct (be_bus (backend w) (be_clock (backend w))) as [devs|] eqn:Hbus.
  - apply wp_bind. unfold modify at 1, wp at 1.
    apply wp_bind. unfold emit, modify at 1, wp at 1.
    apply wp_ret. cbn [fst snd].
    assert (Hcount : Z.ltb (Z.of_nat (length devs)) 0 = false)
      by (apply Z.ltb_ge; lia).
    rewrite Hcount, Nat2Z.id, firstn_all.
    apply wp_bind.
    eapply wp_mono; [apply EnumerateDevicesImpl_loop_step|].
    intros output1 w1 [_ (evs & r & -> & _ & _)]. apply wp_bind.
    unfold libusb_free_device_list, emit, bind, modify, wp. simpl.
    exists (EvFreeDeviceList true
            :: evs ++ [EvGetDeviceList (context_ (service w)) (Z.of_nat (length devs))]),
           (bump_all devs (-1) r).
    apply World_ext; try reflexivity.
    lazy beta iota delta [trace with_trace with_backend].
    cbn [app]. rewrite <- app_assoc. reflexivity.
  - apply wp_bind. unfold emit, modify at 1, wp at 1. apply wp_ret.
    cbn [fst snd]. unfold LIBUSB_ERROR_NO_MEM. simpl Z.ltb. cbv iota.
    apply wp_ret.
    exists [EvGetDeviceList (context_ (service w)) (-11)], (be_refs (backend w)).
    apply World_ext; reflexivity.
Qed.

(** [EnumerateDevicesImpl] on a live context is a backend-only step whose
    snapshot lists the bus, or nothing when the list query fails. *)
Lemma EnumerateDevicesImpl_backend_only cfg w :
  context_ (service w) ∈ be_contexts (backend w) ->
  wp (EnumerateDevicesImpl cfg DeviceVector_empty)
     (fun snapshot w' =>
        backend_only w w' /\
        map device_ (dv_items snapshot)
        = default [] (be_bus (backend w) (be_clock (backend w))) /\
        exists rest,
          trace w' = rest ++ EvGetDeviceList (context_ (service w))
                               (match be_bus (backend w) (be_clock (backend w)) with
                                | Some devs => Z.of_nat (length devs)
                                | None => LIBUSB_ERROR_NO_MEM
                                end) :: trace w) w.
Proof.
  intros Hlive. apply wp_done.
  destruct (proj1 (wp_done _ _ _) (EnumerateDevicesImpl_runs cfg w Hlive))
    as (snapshot & w' & Hrun & Hcount & _ & Hvec & _ & Hpost).
  destruct (proj1 (wp_done _ _ _) (EnumerateDevicesImpl_shape cfg w Hlive))
    as (snapshot2 & w2 & Hrun2 & evs & r & Hshape).
  rewrite Hrun in Hrun2. injection Hrun2 as _ <-.
  exists snapshot, w'. split; [exact Hrun|]. split; [|split].
  - split; [rewrite Hshape; repeat split; reflexivity|].
    split; [rewrite Hshape; repeat split; reflexivity|].
    split; [exact Hvec|].
    split; [intros d; apply Hcount;
            [apply refcount_event_not_open|reflexivity|reflexivity]|].
    split; [apply Hcount; [apply refcount_event_not_close|reflexivity|reflexivity]|].
    intros cb. apply Hcount; [apply refcount_event_not_run|reflexivity|reflexivity].
  - destruct (be_bus (backend w) (be_clock (backend w))) as [devs|].
    + destruct Hpost as [Hitems _]. exact Hitems.
    + destruct Hpost as [Hitems _]. rewrite Hitems. reflexivity.
  - clear Hshape.
    revert Hrun. unfold EnumerateDevicesImpl, STLClearObject, DeviceVector_delete,
      destroy_tokens, libusb_get_device_list, emit, bind, gets, modify, ret.
    simpl. rewrite (decide_True _ _ Hlive). simpl.
    destruct (be_bus (backend w) (be_clock (backend w))) as [devs|]; simpl.
    + assert (Hc : Z.ltb (Z.of_nat (length devs)) 0 = false) by (apply Z.ltb_ge; lia).
      rewrite Hc, Nat2Z.id, firstn_all.
      match goal with
      | |- context [EnumerateDevicesImpl_loop cfg devs DeviceVector_empty ?wm] =>
          destruct (proj1 (wp_done _ _ _)
                      (EnumerateDevicesImpl_loop_step cfg devs DeviceVector_empty wm))
            as (o1 & w1 & Hloop & _ & e1 & r1 & Hw1 & _ & _)
      end.
      rewrite Hloop. unfold libusb_free_device_list, emit, bind, modify. simpl.
      intros [= _ <-]. rewrite Hw1. simpl.
      exists (EvFreeDeviceList true :: e1). reflexivity.
    + intros [= _ <-]. exists []. reflexivity.
Qed.

Lemma visit_all_frame devices visited w w1 w2 w3 :
  backend_only w w1 -> visit_all devices visited w1 w2 -> backend_only w2 w3 ->
  visit_all devices visited w w3.
Proof.
  intros ((Hd1 & _) & Hsur1 & Hv1 & Hop1 & Hcl1 & Hcb1)
         (Hok2 & Hsur2 & Hvq2 & Hmono2 & Hvec2 & Hiff2 & Hopen2 & Hcl2 & Hcb2)
         (Hreg3 & Hsur3 & Hv3 & Hop3 & Hcl3 & Hcb3).
  pose proof Hreg3 as (Hd3 & _).
  assert (Hcode : be_open_code (backend w1) = be_open_code (backend w))
    by (destruct Hsur1 as (_ & _ & _ & _ & Hc & _); exact Hc).
  unfold visit_all, tracked_wrappers. rewrite Hv3, Hd3.
  split; [exact (registry_ok_same _ _ Hreg3 Hok2)|].
  split; [exact (same_surroundings_trans _ _ _ Hsur1
                   (same_surroundings_trans _ _ _ Hsur2 Hsur3))|].
  split; [intros q Hq; rewrite (Hvq2 q Hq), Hv1; reflexivity|].
  split; [intros d p Hm; apply Hmono2; rewrite Hd1; exact Hm|].
  split; [rewrite Hvec2, Hv1; reflexivity|].
  split; [intros d Hn; rewrite <- Hcode; apply Hiff2; rewrite Hd1; exact Hn|].
  split; [intros d Hd; rewrite Hop3, <- Hop1; apply Hopen2; rewrite Hd1; exact Hd|].
  split; [rewrite Hcl3, Hcl2; exact Hcl1|].
  intros cb. rewrite Hcb3, Hcb2. apply Hcb1.
Qed.

Lemma filter_all (l : list Z) : filter (fun _ : Z => true = true) l = l.
Proof.
  induction l as [|x l IH]; [reflexivity|].
  rewrite filter_cons, decide_True by reflexivity. rewrite IH. reflexivity.
Qed.

(** ** What FindDevices and EnumerateDevices deliver *)

(** X12.  A granted [FindDevicesImpl] on a sound registry, when the backend's
    descriptors are steady and so are its answers to opening the matching
    devices that are not tracked yet.  The callback runs last, on a vector
    that holds, in bus order, the wrapper the registry holds for each listed
    device whose descriptor matches; a matching device the backend refuses
    to open is left out.  The registry stays sound and keeps every entry it
    had; a device becomes tracked exactly when it is listed, matches and
    opens; no [libusb_open] is made on a device that was tracked already or
    that does not match, nothing is closed, and no other vector of the
    caller is touched. *)
Theorem FindDevicesImpl_delivers cfg vendor_id product_id devices callback devs w :
  registry_ok w ->
  context_ (service w) ∈ be_contexts (backend w) ->
  steady_descriptors w ->
  be_bus (backend w) (be_clock (backend w)) = Some devs ->
  steady_opens w (matching_devices w vendor_id product_id devs) ->
  exists w',
    FindDevicesImpl cfg vendor_id product_id devices callback true w = Done tt w' /\
    registry_ok w' /\
    vectors w' devices
      = tracked_wrappers w' (matching_devices w vendor_id product_id devs) /\
    (exists rest, trace w' = EvCallbackRun callback (vectors w') :: rest) /\
    (forall d p, devices_ (service w) !! d = Some p ->
                 devices_ (service w') !! d = Some p) /\
    (forall d, devices_ (service w) !! d = None ->
       (is_Some (devices_ (service w') !! d) <->
        d ∈ matching_devices w vendor_id product_id devs /\
        be_open_code (backend w) O d = 0)) /\
    (forall d, is_Some (devices_ (service w) !! d)
               \/ d ∉ matching_devices w vendor_id product_id devs ->
       open_calls d w' = open_calls d w) /\
    count_events is_any_close (trace w') = count_events is_any_close (trace w) /\
    (forall q, q <> devices -> vectors w' q = vectors w q).
Proof.
  intros Hok Hlive Hdesc Hbus Hopens.
  set (w0 := with_vectors (store_vector devices []) w).
  set (J := fun x : World =>
              steady_descriptors x /\ be_descriptor (backend x) = be_descriptor (backend w)).
  assert (Hrun :
    wp (FindDevicesImpl cfg vendor_id product_id devices callback true)
       (fun _ w' =>
          exists w3,
            visit_all devices (matching_devices w vendor_id product_id devs) w0 w3 /\
            w' = with_trace (cons (EvCallbackRun callback (vectors w3))) w3) w).
  { unfold FindDevicesImpl. apply wp_bind.
    unfold vector_clear, modify at 1, wp at 1. cbv iota. simpl negb. cbv iota.
    fold w0. apply wp_bind.
    eapply wp_mono; [apply (EnumerateDevicesImpl_backend_only cfg w0), Hlive|].
    intros snapshot w1 (Hback1 & Hitems & _).
    change (be_bus (backend w0) (be_clock (backend w0)))
      with (be_bus (backend w) (be_clock (backend w))) in Hitems.
    rewrite Hbus in Hitems. simpl in Hitems.
    pose proof Hback1 as ((Hd1 & _) & Hsur1 & _).
    assert (Hcode1 : be_open_code (backend w1) = be_open_code (backend w))
      by (destruct Hsur1 as (_ & _ & _ & _ & Hc & _); exact Hc).
    assert (Hdesc1 : be_descriptor (backend w1) = be_descriptor (backend w))
      by (destruct Hsur1 as (_ & _ & _ & _ & _ & Hc & _); exact Hc).
    apply wp_bind. eapply wp_mono.
    { apply (visit_loop devices (descriptor_matches w vendor_id product_id) J).
      - intros x x' [Hsx Hdx] Hsur.
        assert (Hdx' : be_descriptor (backend x') = be_descriptor (backend x))
          by (destruct Hsur as (_ & _ & _ & _ & _ & Hc & _); exact Hc).
        split; [|congruence].
        intros t d. rewrite Hdx'. apply Hsx.
      - intros it x [Hsx Hdx].
        replace (descriptor_matches w vendor_id product_id (device_ it))
          with (descriptor_matches x vendor_id product_id (device_ it))
          by (unfold descriptor_matches; rewrite Hdx; reflexivity).
        apply FindDevicesImpl_body_visits, Hsx.
      - split; [|exact Hdesc1]. intros t d. rewrite Hdesc1. apply Hdesc.
      - exact (registry_ok_same _ _ (proj1 Hback1) Hok).
      - rewrite Hitems. intros d t Hin Hn. rewrite Hcode1.
        apply Hopens; [exact Hin|]. rewrite Hd1 in Hn. exact Hn. }
    intros ? w2 Hall. rewrite Hitems in Hall.
    apply wp_bind. eapply wp_mono; [apply destroy_tokens_step|].
    intros ? w3 Hstep.
    unfold Callback_Run, emit, bind, gets, modify, wp.
    exists w3. split; [|reflexivity].
    exact (visit_all_frame _ _ _ _ _ _ Hback1 Hall (refcount_step_backend_only _ _ _ Hstep)). }
  destruct (proj1 (wp_done _ _ _) Hrun)
    as ([] & w' & Hdone & w3 & Hall & ->).
  destruct Hall as (Hok3 & _ & Hvq & Hmono & Hvec & Hiff & Hopen & Hcl & _).
  eexists. split; [exact Hdone|].
  split; [exact (registry_ok_same _ _ ltac:(repeat split; reflexivity) Hok3)|].
  split.
  { change (vectors w3 devices
            = tracked_wrappers w3 (matching_devices w vendor_id product_id devs)).
    rewrite Hvec. unfold w0. simpl. unfold store_vector. rewrite Z.eqb_refl.
    reflexivity. }
  split; [eexists; reflexivity|].
  split; [exact Hmono|]. split; [exact Hiff|].
  split; [intros d Hd; exact (Hopen d Hd)|].
  split; [exact Hcl|].
  intros q Hq. change (vectors w3 q = vectors w q). rewrite (Hvq q Hq).
  unfold w0. simpl. unfold store_vector. rewrite (proj2 (Z.eqb_neq _ _) Hq). reflexivity.
Qed.

Lemma FindDevicesImpl_delivers_witness :
  exists w',
    FindDevicesImpl (sample_build false true) 0x1234 1 50 9 true closed_world
      = Done tt w' /\
    registry_ok w' /\
    vectors w' 50
      = tracked_wrappers w' (matching_devices closed_world 0x1234 1 [100; 200]) /\
    (exists rest, trace w' = EvCallbackRun 9 (vectors w') :: rest) /\
    (forall d p, devices_ (service closed_world) !! d = Some p ->
                 devices_ (service w') !! d = Some p) /\
    (forall d, devices_ (service closed_world) !! d = None ->
       (is_Some (devices_ (service w') !! d) <->
        d ∈ matching_devices closed_world 0x1234 1 [100; 200] /\
        be_open_code (backend closed_world) O d = 0)) /\
    (forall d, is_Some (devices_ (service closed_world) !! d)
               \/ d ∉ matching_devices closed_world 0x1234 1 [100; 200] ->
       open_calls d w' = open_calls d closed_world) /\
    count_events is_any_close (trace w')
      = count_events is_any_close (trace closed_world) /\
    (forall q, q <> 50 -> vectors w' q = vectors closed_world q).
Proof.
  apply (FindDevicesImpl_delivers (sample_build false true) 0x1234 1 50 9 [100; 200]
           closed_world).
  - exact registry_ok_closed_world.
  - vm_compute. reflexivity.
  - intros t d. vm_compute. reflexivity.
  - vm_compute. reflexivity.
  - intros d t _ _. vm_compute. reflexivity.
Defined.

(** At the sample world, where device 100 was closed and device 200 is
    still tracked: the request for product 1 opens device 100 again and
    delivers its new wrapper alone. *)
Example FindDevicesImpl_delivers_sample :
  matching_devices closed_world 0x1234 1 [100; 200] = [100] /\
  vectors (world_after (FindDevicesImpl (sample_build false true) 0x1234 1 50 9 true)
             closed_world) 50 = [8] /\
  open_calls 100
    (world_after (FindDevicesImpl (sample_build false true) 0x1234 1 50 9 true)
       closed_world) = S (open_calls 100 closed_world) /\
  open_calls 200
    (world_after (FindDevicesImpl (sample_build false true) 0x1234 1 50 9 true)
       closed_world) = open_calls 200 closed_world.
Proof. vm_compute. repeat split. Qed.

(** [EnumerateDevices] as a traversal that visits every listed device. *)
Lemma EnumerateDevices_visits cfg devices devs w :
  registry_ok w ->
  context_ (service w) ∈ be_contexts (backend w) ->
  be_bus (backend w) (be_clock (backend w)) = Some devs ->
  steady_opens w devs ->
  wp (EnumerateDevices cfg devices)
     (fun _ w' => visit_all devices devs (with_vectors (store_vector devices []) w) w') w.
Proof.
  intros Hok Hlive Hbus Hopens.
  set (w0 := with_vectors (store_vector devices []) w).
  unfold EnumerateDevices. apply wp_bind.
  unfold vector_clear, modify at 1, wp at 1. fold w0. apply wp_bind.
  eapply wp_mono; [apply (EnumerateDevicesImpl_backend_only cfg w0), Hlive|].
  intros snapshot w1 (Hback1 & Hitems & _).
  change (be_bus (backend w0) (be_clock (backend w0)))
    with (be_bus (backend w) (be_clock (backend w))) in Hitems.
  rewrite Hbus in Hitems. simpl in Hitems.
  pose proof Hback1 as ((Hd1 & _) & Hsur1 & _).
  assert (Hcode1 : be_open_code (backend w1) = be_open_code (backend w))
    by (destruct Hsur1 as (_ & _ & _ & _ & Hc & _); exact Hc).
  apply wp_bind. eapply wp_mono.
  { apply (visit_loop devices (fun _ => true) (fun _ => True)).
    - intros x x' _ _. exact I.
    - intros it x _. apply (lookup_push_visits devices (device_ it) x).
    - exact I.
    - exact (registry_ok_same _ _ (proj1 Hback1) Hok).
    - rewrite filter_all, Hitems. intros d t Hin Hn. rewrite Hcode1.
      apply Hopens; [exact Hin|]. rewrite Hd1 in Hn. exact Hn. }
  intros ? w2 Hall. rewrite filter_all, Hitems in Hall.
  eapply wp_mono; [apply destroy_tokens_step|].
  intros ? w3 Hstep.
  exact (visit_all_frame _ _ _ _ _ _ Hback1 Hall (refcount_step_backend_only _ _ _ Hstep)).
Qed.

(** X13.  [EnumerateDevices] on a sound registry, when the backend's answers to
    opening the listed devices that are not tracked yet are steady.  The
    caller's vector comes back holding, in bus order, the wrapper the
    registry holds for each listed device; a device the backend refuses to
    open is left out.  The registry stays sound and keeps every entry it had;
    a device becomes tracked exactly when it is listed and opens; no
    [libusb_open] is made on a device that was tracked already or is not
    listed, nothing is closed, no callback runs, and no other vector of the
    caller is touched. *)
Theorem EnumerateDevices_delivers cfg devices devs w :
  registry_ok w ->
  context_ (service w) ∈ be_contexts (backend w) ->
  be_bus (backend w) (be_clock (backend w)) = Some devs ->
  steady_opens w devs ->
  exists w',
    EnumerateDevices cfg devices w = Done tt w' /\
    registry_ok w' /\
    vectors w' devices = tracked_wrappers w' devs /\
    (forall d p, devices_ (service w) !! d = Some p ->
                 devices_ (service w') !! d = Some p) /\
    (forall d, devices_ (service w) !! d = None ->
       (is_Some (devices_ (service w') !! d) <->
        d ∈ devs /\ be_open_code (backend w) O d = 0)) /\
    (forall d, is_Some (devices_ (service w) !! d) \/ d ∉ devs ->
       open_calls d w' = open_calls d w) /\
    count_events is_any_close (trace w') = count_events is_any_close (trace w) /\
    (forall cb, callback_runs cb w' = callback_runs cb w) /\
    (forall q, q <> devices -> vectors w' q = vectors w q).
Proof.
  intros Hok Hlive Hbus Hopens.
  destruct (proj1 (wp_done _ _ _)
              (EnumerateDevices_visits cfg devices devs w Hok Hlive Hbus Hopens))
    as ([] & w' & Hrun & Hok' & _ & Hvq & Hmono & Hvec & Hiff & Hopen & Hcl & Hcb).
  exists w'. split; [exact Hrun|]. split; [exact Hok'|].
  split.
  { rewrite Hvec. simpl. unfold store_vector. rewrite Z.eqb_refl. reflexivity. }
  split; [exact Hmono|]. split; [exact Hiff|]. split; [exact Hopen|].
  split; [exact Hcl|]. split; [exact Hcb|].
  intros q Hq. rewrite (Hvq q Hq). simpl. unfold store_vector.
  rewrite (proj2 (Z.eqb_neq _ _) Hq). reflexivity.
Qed.

Lemma EnumerateDevices_delivers_witness :
  exists w',
    EnumerateDevices (sample_build false true) 50 closed_world = Done tt w' /\
    registry_ok w' /\
    vectors w' 50 = tracked_wrappers w' [100; 200] /\
    (forall d p, devices_ (service closed_world) !! d = Some p ->
                 devices_ (service w') !! d = Some p) /\
    (forall d, devices_ (service closed_world) !! d = None ->
       (is_Some (devices_ (service w') !! d) <->
        d ∈ [100; 200] /\ be_open_code (backend closed_world) O d = 0)) /\
    (forall d, is_Some (devices_ (service closed_world) !! d) \/ d ∉ [100; 200] ->
       open_calls d w' = open_calls d closed_world) /\
    count_events is_any_close (trace w')
      = count_events is_any_close (trace closed_world) /\
    (forall cb, callback_runs cb w' = callback_runs cb closed_world) /\
    (forall q, q <> 50 -> vectors w' q = vectors closed_world q).
Proof.
  apply (EnumerateDevices_delivers (sample_build false true) 50 [100; 200] closed_world).
  - exact registry_ok_closed_world.
  - vm_compute. reflexivity.
  - vm_compute. reflexivity.
  - intros d t _ _. vm_compute. reflexivity.
Defined.

(** X14.  When every listed device is tracked already, [EnumerateDevices] hands
    out the wrappers the registry holds, in bus order, and leaves the
    registry exactly as it was: no [libusb_open] is made, whatever the
    backend would have answered. *)
Theorem EnumerateDevices_all_tracked cfg devices devs w :
  registry_ok w ->
  context_ (service w) ∈ be_contexts (backend w) ->
  be_bus (backend w) (be_clock (backend w)) = Some devs ->
  (forall d, d ∈ devs -> is_Some (devices_ (service w) !! d)) ->
  exists w',
    EnumerateDevices cfg devices w = Done tt w' /\
    vectors w' devices = tracked_wrappers w devs /\
    devices_ (service w') = devices_ (service w) /\
    (forall d, open_calls d w' = open_calls d w) /\
    count_events is_any_close (trace w') = count_events is_any_close (trace w).
Proof.
  intros Hok Hlive Hbus Hall.
  assert (Hopens : steady_opens w devs).
  { intros d t Hin Hn. destruct (Hall d Hin) as [p Hp]. congruence. }
  destruct (proj1 (wp_done _ _ _)
              (EnumerateDevices_visits cfg devices devs w Hok Hlive Hbus Hopens))
    as ([] & w' & Hrun & _ & _ & _ & Hmono & Hvec & Hiff & Hopen & Hcl & _).
  assert (Hsame : devices_ (service w') = devices_ (service w)).
  { apply map_eq. intros d.
    destruct (devices_ (service w) !! d) as [p|] eqn:Hm.
    - exact (Hmono d p Hm).
    - destruct (devices_ (service w') !! d) as [p|] eqn:Hm'; [|reflexivity].
      exfalso. destruct (proj1 (Hiff d Hm) (ex_intro _ p Hm')) as [Hin _].
      destruct (Hall d Hin) as [p' Hp']. simpl in Hp'. congruence. }
  exists w'. split; [exact Hrun|]. split.
  { rewrite Hvec. simpl. unfold store_vector. rewrite Z.eqb_refl.
    unfold tracked_wrappers. rewrite Hsame. reflexivity. }
  split; [exact Hsame|]. split; [|exact Hcl].
  intros d. apply Hopen.
  destruct (devices_ (service w) !! d) as [p|] eqn:Hm.
  - left. exists p. exact Hm.
  - right. intros Hin. destruct (Hall d Hin) as [p' Hp']. simpl in Hp'. congruence.
Qed.

Lemma EnumerateDevices_all_tracked_witness :
  exists w',
    EnumerateDevices (sample_build false true) 50 enumerated_world = Done tt w' /\
    vectors w' 50 = tracked_wrappers enumerated_world [100; 200] /\
    devices_ (service w') = devices_ (service enumerated_world) /\
    (forall d, open_calls d w' = open_calls d enumerated_world) /\
    count_events is_any_close (trace w')
      = count_events is_any_close (trace enumerated_world).
Proof.
  apply (EnumerateDevices_all_tracked (sample_build false true) 50 [100; 200]
           enumerated_world).
  - exact registry_ok_enumerated_world.
  - vm_compute. reflexivity.
  - vm_compute. reflexivity.
  - intros d Hd. apply elem_of_cons in Hd as [->|Hd];
      [|apply elem_of_cons in Hd as [->|Hd]; [|apply elem_of_nil in Hd; contradiction]];
      vm_compute; eexists; reflexivity.
Defined.

(** X15.  Enumerating twice on a stable bus whose devices all open: the first call
    leaves every listed device tracked, and the second hands out the very
    same wrappers without a single [libusb_open]. *)
Theorem EnumerateDevices_twice cfg devices devs w :
  registry_ok w ->
  context_ (service w) ∈ be_contexts (backend w) ->
  (forall t, be_bus (backend w) t = Some devs) ->
  (forall t d, d ∈ devs -> be_open_code (backend w) t d = 0) ->
  exists w1 w2,
    EnumerateDevices cfg devices w = Done tt w1 /\
    EnumerateDevices cfg devices w1 = Done tt w2 /\
    (forall d, d ∈ devs -> is_Some (devices_ (service w1) !! d)) /\
    vectors w1 devices = tracked_wrappers w1 devs /\
    vectors w2 devices = vectors w1 devices /\
    devices_ (service w2) = devices_ (service w1) /\
    (forall d, open_calls d w2 = open_calls d w1).
Proof.
  intros Hok Hlive Hbus Hzero.
  assert (Hopens : steady_opens w devs).
  { intros d t Hin _. rewrite (Hzero t d Hin), (Hzero O d Hin). reflexivity. }
  destruct (proj1 (wp_done _ _ _)
              (EnumerateDevices_visits cfg devices devs w Hok Hlive (Hbus _) Hopens))
    as ([] & w1 & Hrun1 & Hok1 & Hsur1 & _ & Hmono1 & Hvec1 & Hiff1 & _).
  assert (Hall : forall d, d ∈ devs -> is_Some (devices_ (service w1) !! d)).
  { intros d Hin.
    destruct (devices_ (service w) !! d) as [p|] eqn:Hm.
    - exists p. exact (Hmono1 d p Hm).
    - apply (proj2 (Hiff1 d Hm)). split; [exact Hin|exact (Hzero O d Hin)]. }
  destruct Hsur1 as (Hc1 & _ & Hctx1 & _ & _ & _ & Hbus1).
  assert (Hlive1 : context_ (service w1) ∈ be_contexts (backend w1)).
  { rewrite Hc1, Hctx1. exact Hlive. }
  assert (Hbus1' : be_bus (backend w1) (be_clock (backend w1)) = Some devs).
  { rewrite Hbus1. apply Hbus. }
  assert (Hopens1 : steady_opens w1 devs).
  { intros d t Hin Hn. destruct (Hall d Hin) as [p Hp]. congruence. }
  destruct (proj1 (wp_done _ _ _)
              (EnumerateDevices_visits cfg devices devs w1 Hok1 Hlive1 Hbus1' Hopens1))
    as ([] & w2 & Hrun2 & _ & _ & _ & Hmono2 & Hvec2 & Hiff2 & Hopen2 & _).
  assert (Hsame : devices_ (service w2) = devices_ (service w1)).
  { apply map_eq. intros d.
    destruct (devices_ (service w1) !! d) as [p|] eqn:Hm.
    - exact (Hmono2 d p Hm).
    - destruct (devices_ (service w2) !! d) as [p|] eqn:Hm'; [|reflexivity].
      exfalso. destruct (proj1 (Hiff2 d Hm) (ex_intro _ p Hm')) as [Hin _].
      destruct (Hall d Hin) as [p' Hp']. congruence. }
  exists w1, w2. split; [exact Hrun1|]. split; [exact Hrun2|]. split; [exact Hall|].
  assert (Hv1 : vectors w1 devices = tracked_wrappers w1 devs).
  { rewrite Hvec1. simpl. unfold store_vector. rewrite Z.eqb_refl. reflexivity. }
  split; [exact Hv1|]. split.
  { rewrite Hvec2, Hv1. simpl. unfold store_vector. rewrite Z.eqb_refl.
    unfold tracked_wrappers. rewrite Hsame. reflexivity. }
  split; [exact Hsame|].
  intros d. apply Hopen2.
  destruct (devices_ (service w1) !! d) as [p|] eqn:Hm.
  - left. exists p. exact Hm.
  - right. intros Hin. destruct (Hall d Hin) as [p' Hp']. congruence.
Qed.

Lemma EnumerateDevices_twice_witness :
  exists w1 w2,
    EnumerateDevices (sample_build false true) 50 started_world = Done tt w1 /\
    EnumerateDevices (sample_build false true) 50 w1 = Done tt w2 /\
    (forall d, d ∈ [100; 200] -> is_Some (devices_ (service w1) !! d)) /\
    vectors w1 50 = tracked_wrappers w1 [100; 200] /\
    vectors w2 50 = vectors w1 50 /\
    devices_ (service w2) = devices_ (service w1) /\
    (forall d, open_calls d w2 = open_calls d w1).
Proof.
  apply (EnumerateDevices_twice (sample_build false true) 50 [100; 200] started_world).
  - unfold registry_ok. split; [|split]; intros ? ? H; vm_compute in H; discriminate H.
  - vm_compute. reflexivity.
  - intros t. reflexivity.
  - intros t d _. reflexivity.
Defined.

(** ** The registry stays sound whatever the backend answers *)

Lemma unit_outcome (m : M unit) (Q : World -> Prop) w :
  wp m (fun _ w' => Q w') w -> exists w', m w = Done tt w' /\ Q w'.
Proof.
  intros H. destruct (proj1 (wp_done _ _ _) H) as ([] & w' & Hrun & HQ).
  exists w'. split; assumption.
Qed.

Lemma visit_step_keeps devices sel d w w' :
  visit_step devices sel d w w' ->
  (registry_ok w -> registry_ok w') /\
  (forall d' p, devices_ (service w) !! d' = Some p ->
                devices_ (service w') !! d' = Some p) /\
  count_events is_any_close (trace w') = count_events is_any_close (trace w).
Proof.
  intros (Hkeep & _ & _ & Hoth & _ & Hcl & _ & Hcase).
  split; [exact Hkeep|]. split; [|exact Hcl].
  intros d' p Hm. destruct (Z.eq_dec d' d) as [->|Hne].
  - rewrite Hm in Hcase. destruct sel.
    + destruct Hcase as (Hm' & _). exact Hm'.
    + destruct Hcase as (Hm' & _). rewrite Hm'. reflexivity.
  - rewrite (Hoth d' Hne). exact Hm.
Qed.

(** One round of the loop of [FindDevicesImpl], whatever the descriptor
    read gives. *)
Lemma FindDevicesImpl_body_visits_any vendor_id product_id devices it w :
  wp (matches <- DeviceMatches (RefCountedPlatformUsbDevice_device it)
                   vendor_id product_id ;;
      if matches then
        wrapper <- LookupOrCreateDevice (RefCountedPlatformUsbDevice_device it) ;;
        if negb (Z.eqb wrapper NULL) then vector_push_back devices wrapper
        else ret tt
      else ret tt)
     (fun _ w' => exists sel, visit_step devices sel (device_ it) w w') w.
Proof.
  apply wp_bind. unfold wp at 1. rewrite DeviceMatches_runs.
  unfold RefCountedPlatformUsbDevice_device.
  set (w1 := with_trace _ (with_backend be_tick w)).
  destruct (if negb _ then false else _).
  - eapply wp_mono; [apply (lookup_push_visits devices (device_ it) w1)|].
    intros ? w' Hstep. exists true. exact Hstep.
  - unfold wp, ret. exists false. unfold visit_step.
    split; [intros Hok; exact Hok|]. split; [repeat split; reflexivity|].
    repeat split; reflexivity.
Qed.

Lemma FindDevicesImpl_granted_keeps cfg vendor_id product_id devices callback w :
  registry_ok w ->
  context_ (service w) ∈ be_contexts (backend w) ->
  wp (FindDevicesImpl cfg vendor_id product_id devices callback true)
     (fun _ w' =>
        registry_ok w' /\
        (forall d p, devices_ (service w) !! d = Some p ->
                     devices_ (service w') !! d = Some p) /\
        count_events is_any_close (trace w') = count_events is_any_close (trace w)) w.
Proof.
  intros Hok Hlive.
  set (w0 := with_vectors (store_vector devices []) w).
  unfold FindDevicesImpl. apply wp_bind.
  unfold vector_clear, modify at 1, wp at 1. cbv iota. simpl negb. cbv iota.
  fold w0. apply wp_bind.
  eapply wp_mono; [apply (EnumerateDevicesImpl_backend_only cfg w0), Hlive|].
  intros snapshot w1 (((Hd1 & Hreg1) & _ & _ & _ & Hcl1 & _) & _).
  apply wp_bind. eapply wp_mono.
  { apply (wp_for_each
             (fun x => registry_ok x /\
                       (forall d p, devices_ (service w) !! d = Some p ->
                                    devices_ (service x) !! d = Some p) /\
                       count_events is_any_close (trace x)
                       = count_events is_any_close (trace w))).
    - intros it x (Hokx & Hmonox & Hclx).
      eapply wp_mono; [apply FindDevicesImpl_body_visits_any|].
      intros ? x' [sel Hstep].
      destruct (visit_step_keeps _ _ _ _ _ Hstep) as (Hk & Hm & Hc).
      split; [exact (Hk Hokx)|]. split; [|congruence].
      intros d p Hdp. exact (Hm d p (Hmonox d p Hdp)).
    - split; [exact (registry_ok_same _ _ (conj Hd1 Hreg1) Hok)|].
      split; [intros d p Hdp; rewrite Hd1; exact Hdp|exact Hcl1]. }
  intros ? w2 (Hok2 & Hmono2 & Hcl2).
  apply wp_bind. eapply wp_mono; [apply destroy_tokens_step|].
  intros ? w3 Hstep.
  destruct (refcount_step_backend_only _ _ _ Hstep)
    as (Hreg3 & _ & _ & _ & Hcl3 & _).
  unfold Callback_Run, emit, bind, gets, modify, wp.
  split; [exact (registry_ok_same _ _ Hreg3 Hok2)|].
  destruct Hreg3 as (Hd3 & _).
  split; [intros d p Hdp; simpl; rewrite Hd3; exact (Hmono2 d p Hdp)|].
  simpl. rewrite Hcl3. exact Hcl2.
Qed.

(** X16.  [FindDevicesImpl] keeps the registry sound with either verdict and
    whatever the backend answers: it returns, it evicts nothing and closes
    nothing. *)
Theorem FindDevicesImpl_keeps_registry
    cfg vendor_id product_id devices callback success w :
  registry_ok w ->
  (success = true -> context_ (service w) ∈ be_contexts (backend w)) ->
  exists w',
    FindDevicesImpl cfg vendor_id product_id devices callback success w = Done tt w' /\
    registry_ok w' /\
    (forall d p, devices_ (service w) !! d = Some p ->
                 devices_ (service w') !! d = Some p) /\
    count_events is_any_close (trace w') = count_events is_any_close (trace w).
Proof.
  intros Hok Hlive. destruct success.
  - apply unit_outcome.
    exact (FindDevicesImpl_granted_keeps cfg vendor_id product_id devices callback w
             Hok (Hlive eq_refl)).
  - eexists. split; [apply FindDevicesImpl_denied_runs|].
    split; [exact (registry_ok_same _ _ ltac:(repeat split; reflexivity) Hok)|].
    split; [intros d p Hdp; exact Hdp|reflexivity].
Qed.

Lemma FindDevicesImpl_keeps_registry_witness :
  exists w',
    FindDevicesImpl (sample_build false true) 0x1234 1 50 9 true closed_world
      = Done tt w' /\
    registry_ok w' /\
    (forall d p, devices_ (service closed_world) !! d = Some p ->
                 devices_ (service w') !! d = Some p) /\
    count_events is_any_close (trace w')
      = count_events is_any_close (trace closed_world).
Proof.
  apply (FindDevicesImpl_keeps_registry (sample_build false true) 0x1234 1 50 9 true
           closed_world).
  - exact registry_ok_closed_world.
  - intros _. vm_compute. reflexivity.
Defined.

Lemma EnumerateDevices_keeps cfg devices w :
  registry_ok w ->
  context_ (service w) ∈ be_contexts (backend w) ->
  wp (EnumerateDevices cfg devices)
     (fun _ w' =>
        registry_ok w' /\
        (forall d p, devices_ (service w) !! d = Some p ->
                     devices_ (service w') !! d = Some p) /\
        count_events is_any_close (trace w') = count_events is_any_close (trace w)) w.
Proof.
  intros Hok Hlive.
  set (w0 := with_vectors (store_vector devices []) w).
  unfold EnumerateDevices. apply wp_bind.
  unfold vector_clear, modify at 1, wp at 1. fold w0. apply wp_bind.
  eapply wp_mono; [apply (EnumerateDevicesImpl_backend_only cfg w0), Hlive|].
  intros snapshot w1 (((Hd1 & Hreg1) & _ & _ & _ & Hcl1 & _) & _).
  apply wp_bind. eapply wp_mono.
  { apply (wp_for_each
             (fun x => registry_ok x /\
                       (forall d p, devices_ (service w) !! d = Some p ->
                                    devices_ (service x) !! d = Some p) /\
                       count_events is_any_close (trace x)
                       = count_events is_any_close (trace w))).
    - intros it x (Hokx & Hmonox & Hclx).
      eapply wp_mono; [apply (lookup_push_visits devices (device_ it) x)|].
      intros ? x' Hstep.
      destruct (visit_step_keeps _ _ _ _ _ Hstep) as (Hk & Hm & Hc).
      split; [exact (Hk Hokx)|]. split; [|congruence].
      intros d p Hdp. exact (Hm d p (Hmonox d p Hdp)).
    - split; [exact (registry_ok_same _ _ (conj Hd1 Hreg1) Hok)|].
      split; [intros d p Hdp; rewrite Hd1; exact Hdp|exact Hcl1]. }
  intros ? w2 (Hok2 & Hmono2 & Hcl2).
  eapply wp_mono; [apply destroy_tokens_step|].
  intros ? w3 Hstep.
  destruct (refcount_step_backend_only _ _ _ Hstep)
    as (Hreg3 & _ & _ & _ & Hcl3 & _).
  split; [exact (registry_ok_same _ _ Hreg3 Hok2)|].
  destruct Hreg3 as (Hd3 & _).
  split; [intros d p Hdp; rewrite Hd3; exact (Hmono2 d p Hdp)|].
  rewrite Hcl3. exact Hcl2.
Qed.

(** X17.  [EnumerateDevices] keeps the registry sound whatever the backend
    answers: on a live context it returns, it evicts nothing and closes
    nothing. *)
Theorem EnumerateDevices_keeps_registry cfg devices w :
  registry_ok w ->
  context_ (service w) ∈ be_contexts (backend w) ->
  exists w',
    EnumerateDevices cfg devices w = Done tt w' /\
    registry_ok w' /\
    (forall d p, devices_ (service w) !! d = Some p ->
                 devices_ (service w') !! d = Some p) /\
    count_events is_any_close (trace w') = count_events is_any_close (trace w).
Proof.
  intros Hok Hlive. apply unit_outcome.
  exact (EnumerateDevices_keeps cfg devices w Hok Hlive).
Qed.

Lemma EnumerateDevices_keeps_registry_witness :
  exists w',
    EnumerateDevices (sample_build false true) 50 closed_world = Done tt w' /\
    registry_ok w' /\
    (forall d p, devices_ (service closed_world) !! d = Some p ->
                 devices_ (service w') !! d = Some p) /\
    count_events is_any_close (trace w')
      = count_events is_any_close (trace closed_world).
Proof.
  apply (EnumerateDevices_keeps_registry (sample_build false true) 50 closed_world).
  - exact registry_ok_closed_world.
  - vm_compute. reflexivity.
Defined.

(** ** Every state a caller can reach *)

Lemma DCHECK_done cfg cond msg w a w1 : DCHECK cfg cond msg w = Done a w1 -> w1 = w.
Proof.
  unfold DCHECK. destruct (DCHECK_IS_ON cfg && negb cond); [discriminate|].
  intros [= _ <-]. reflexivity.
Qed.

Lemma FindDevicesImpl_done_keeps cfg vendor_id product_id devices callback success w w' :
  registry_ok w ->
  FindDevicesImpl cfg vendor_id product_id devices callback success w = Done tt w' ->
  registry_ok w'.
Proof.
  intros Hok Hrun. destruct success.
  - destruct (decide (context_ (service w) ∈ be_contexts (backend w))) as [Hlive|Hdead].
    + destruct (unit_outcome _ _ _
                  (FindDevicesImpl_granted_keeps cfg vendor_id product_id devices
                     callback w Hok Hlive)) as (w'' & Hrun' & Hok' & _).
      rewrite Hrun' in Hrun. injection Hrun as <-. exact Hok'.
    + rewrite (FindDevicesImpl_dead cfg _ _ _ _ w Hdead) in Hrun. discriminate Hrun.
  - rewrite FindDevicesImpl_denied_runs in Hrun. injection Hrun as <-.
    exact (registry_ok_same _ _ ltac:(repeat split; reflexivity) Hok).
Qed.

Lemma EnumerateDevices_done_keeps cfg devices w w' :
  registry_ok w -> EnumerateDevices cfg devices w = Done tt w' -> registry_ok w'.
Proof.
  intros Hok Hrun.
  destruct (decide (context_ (service w) ∈ be_contexts (backend w))) as [Hlive|Hdead].
  - destruct (unit_outcome _ _ _ (EnumerateDevices_keeps cfg devices w Hok Hlive))
      as (w'' & Hrun' & Hok' & _).
    rewrite Hrun' in Hrun. injection Hrun as <-. exact Hok'.
  - rewrite (EnumerateDevices_dead cfg _ w Hdead) in Hrun. discriminate Hrun.
Qed.

Lemma CloseDevice_done_keeps cfg device w w' :
  registry_ok w -> CloseDevice cfg device w = Done tt w' -> registry_ok w'.
Proof.
  intros Hok. unfold CloseDevice, bind, gets. simpl.
  destruct (DCHECK cfg _ _ w) as [[] w1| |] eqn:Hd; try discriminate.
  apply DCHECK_done in Hd. subst w1.
  unfold UsbDeviceHandle_handle, bind, gets. simpl.
  destruct (device_handles w !! device) as [obj|] eqn:Hobj; [|discriminate].
  simpl. unfold libusb_get_device, bind, gets. simpl.
  destruct (be_handle_dev (backend w) !! handle_ obj) as [pd|] eqn:Hdev; [|discriminate].
  simpl. destruct (ContainsKey (devices_ (service w)) pd); simpl.
  - unfold modify, libusb_close, emit, bind, gets, modify. simpl.
    rewrite Hobj. simpl. rewrite Hdev. intros [= <-].
    apply (registry_ok_after_close (handle_ obj) pd w); try reflexivity; assumption.
  - unfold LOG_WARNING, emit, modify. intros [= <-].
    exact (registry_ok_same _ _ ltac:(repeat split; reflexivity) Hok).
Qed.

Lemma Shutdown_done_keeps w w' :
  registry_ok w -> Shutdown w = Done tt w' -> registry_ok w'.
Proof.
  intros Hok Hshut.
  unfold Shutdown, UsbEventHandler_Stop, UsbEventHandler_delete,
    libusb_interrupt_handle_event, libusb_exit, emit, bind, gets, modify, undefined
    in Hshut.
  simpl in Hshut.
  destruct (event_handlers w !! event_handler_ (service w)) as [h|] eqn:Hh;
    [|discriminate Hshut].
  simpl in Hshut.
  destruct (decide (eh_context_ h ∈ be_contexts (backend w))); [|discriminate Hshut].
  simpl in Hshut.
  destruct (decide (context_ (service w) ∈ be_contexts (backend w)));
    [|discriminate Hshut].
  simpl in Hshut. injection Hshut as Hshut. subst w'.
  exact (registry_ok_same _ _ ltac:(repeat split; reflexivity) Hok).
Qed.

Lemma FindDevices_done_keeps
    cfg vendor_id product_id interface_id devices callback w w' :
  registry_ok w ->
  FindDevices cfg vendor_id product_id interface_id devices callback w = Done tt w' ->
  registry_ok w'.
Proof.
  intros Hok. unfold FindDevices, bind, gets. simpl.
  destruct (DCHECK cfg _ _ w) as [[] w1| |] eqn:Hd; try discriminate.
  apply DCHECK_done in Hd. subst w1.
  destruct (OS_CHROMEOS cfg); [|apply FindDevicesImpl_done_keeps, Hok].
  simpl. destruct (running_on_chromeos w); [|apply FindDevicesImpl_done_keeps, Hok].
  simpl. destruct (DCHECK cfg _ _ w) as [[] w1| |] eqn:Hd; try discriminate.
  apply DCHECK_done in Hd. subst w1.
  destruct (Z.eqb (permission_broker_client w) NULL).
  - unfold Callback_Run, emit, bind, gets, modify. intros [= <-].
    exact (registry_ok_same _ _ ltac:(repeat split; reflexivity) Hok).
  - unfold RequestUsbAccess, emit, bind, modify. intros [= <-].
    exact (registry_ok_same _ _ ltac:(repeat split; reflexivity) Hok).
Qed.

Lemma broker_reply_done_keeps cfg success w w' :
  registry_ok w -> broker_reply cfg success w = Done tt w' -> registry_ok w'.
Proof.
  intros Hok. unfold broker_reply, bind, gets. simpl.
  destruct (broker_requests w) as [|closure rest].
  - intros [= <-]. exact Hok.
  - unfold modify, BoundFindDevicesImpl_Run. apply FindDevicesImpl_done_keeps.
    exact (registry_ok_same _ _ ltac:(repeat split; reflexivity) Hok).
Qed.

Lemma run_call_done_keeps cfg c w w' :
  registry_ok w -> run_call cfg c w = Done tt w' -> registry_ok w'.
Proof.
  destruct c; simpl.
  - apply FindDevices_done_keeps.
  - apply EnumerateDevices_done_keeps.
  - apply CloseDevice_done_keeps.
  - apply Shutdown_done_keeps.
  - apply broker_reply_done_keeps.
Qed.

(** Under a sound registry no wrapper is shared by two devices. *)
Lemma registry_ok_injective w d1 d2 p :
  registry_ok w ->
  devices_ (service w) !! d1 = Some p -> devices_ (service w) !! d2 = Some p ->
  d1 = d2.
Proof.
  intros (Htracked & _) H1 H2.
  destruct (Htracked d1 p H1) as (obj1 & Hobj1 & Hdev1 & _).
  destruct (Htracked d2 p H2) as (obj2 & Hobj2 & Hdev2 & _).
  congruence.
Qed.

(** X18.  Whatever a caller does with the service, in whatever order and whatever
    the backend and the broker answer, as long as the calls return: the
    registry stays sound.  Every tracked device maps to a live wrapper whose
    native handle is open on that very device, no wrapper is null, and no
    two devices share a wrapper. *)
Theorem calls_keep_registry cfg cs w w' :
  registry_ok w ->
  run_calls cfg cs w = Done tt w' ->
  registry_ok w' /\
  (forall d p, devices_ (service w') !! d = Some p ->
     p <> NULL /\
     exists obj,
       device_handles w' !! p = Some obj /\
       be_handle_dev (backend w') !! handle_ obj = Some d /\
       handle_ obj ∈ be_open_handles (backend w')) /\
  (forall d1 d2 p,
     devices_ (service w') !! d1 = Some p -> devices_ (service w') !! d2 = Some p ->
     d1 = d2).
Proof.
  intros Hok Hrun.
  assert (Hok' : registry_ok w').
  { revert w Hok Hrun. unfold run_calls.
    induction cs as [|c cs IH]; intros w Hok Hrun.
    - injection Hrun as <-. exact Hok.
    - simpl in Hrun. unfold bind in Hrun.
      destruct (run_call cfg c w) as [[] w1| |] eqn:Hc; try discriminate Hrun.
      exact (IH w1 (run_call_done_keeps cfg c w w1 Hok Hc) Hrun). }
  split; [exact Hok'|]. split.
  - intros d p Hm. split; [exact (registry_ok_not_null w' d p Hok' Hm)|].
    destruct Hok' as (Htracked & _). exact (Htracked d p Hm).
  - intros d1 d2 p. apply registry_ok_injective, Hok'.
Qed.

Lemma calls_keep_registry_witness :
  registry_ok (world_after (run_calls (sample_build true true) sample_session)
                 (chromeos_world 900)) /\
  (forall d p,
     devices_ (service (world_after (run_calls (sample_build true true) sample_session)
                          (chromeos_world 900))) !! d = Some p ->
     p <> NULL /\
     exists obj,
       device_handles (world_after (run_calls (sample_build true true) sample_session)
                         (chromeos_world 900)) !! p = Some obj /\
       be_handle_dev (backend (world_after (run_calls (sample_build true true)
                                              sample_session)
                                 (chromeos_world 900))) !! handle_ obj = Some d /\
       handle_ obj ∈ be_open_handles
                       (backend (world_after (run_calls (sample_build true true)
                                                sample_session)
                                   (chromeos_world 900)))) /\
  (forall d1 d2 p,
     devices_ (service (world_after (run_calls (sample_build true true) sample_session)
                          (chromeos_world 900))) !! d1 = Some p ->
     devices_ (service (world_after (run_calls (sample_build true true) sample_session)
                          (chromeos_world 900))) !! d2 = Some p ->
     d1 = d2).
Proof.
  apply (calls_keep_registry (sample_build true true) sample_session (chromeos_world 900)).
  - unfold registry_ok. split; [|split]; intros ? ? H; vm_compute in H; discriminate H.
  - destruct (ending_returned (run_calls (sample_build true true) sample_session)
                (chromeos_world 900)) as [[] Hrun];
      [vm_compute; reflexivity|exact Hrun].
Defined.

(** The sample session ends with both devices tracked, device 100 under the
    wrapper of its second open. *)
Example sample_session_ends :
  map_to_list
    (devices_ (service (world_after (run_calls (sample_build true true) sample_session)
                          (chromeos_world 900))))
  = [(100, 8); (200, 6)] /\
  count_events is_any_open
    (trace (world_after (run_calls (sample_build true true) sample_session)
              (chromeos_world 900))) = 3%nat /\
  count_events is_any_close
    (trace (world_after (run_calls (sample_build true true) sample_session)
              (chromeos_world 900))) = 1%nat.
Proof. vm_compute. repeat split. Qed.
